(** * OpenMOC plotter: a shallow embedding of [openmoc/plotter.py]

    The plotting module rasterizes a 2D slice of a geometry into a grid of
    flat-source-region data, post-processes the grid (normalization,
    transparent zeros) and hands it to Matplotlib.  This development embeds
    the Python functions as Rocq functions over

    - IEEE-754 binary64 numbers ([spec_float] at precision 53), the element
      type of the NumPy arrays the module builds;
    - a state-and-exception monad [M] over a [world] that holds the module
      global [subdirectory], NumPy's global random state, the solver's flux
      array and a trace of the observable calls (log messages, geometry
      queries, figure output);
    - records for the external collaborators (Geometry, Solver, IRAMSolver)
      holding what their accessors return.

    Definitions come first; the theorems about them follow. *)

From Stdlib Require Import ZArith List String Ascii Bool Lia Permutation FinFun.
From Stdlib Require Import DecimalString SpecFloat.
From stdpp Require Import base list.

Open Scope string_scope.
Open Scope list_scope.
Open Scope Z_scope.

(* ===================================================================== *)
(** * Part I: definitions                                                  *)
(* ===================================================================== *)

(** ** Binary64 numbers *)

Module Float64.

Definition prec : Z := 53.
Definition emax : Z := 1024.

Definition float : Type := spec_float.

Definition valid (x : float) : bool := valid_binary prec emax x.

Definition div (x y : float) : float := SFdiv prec emax x y.
Definition mul (x y : float) : float := SFmul prec emax x y.
Definition add (x y : float) : float := SFadd prec emax x y.
Definition sub (x y : float) : float := SFsub prec emax x y.

Definition eqb (x y : float) : bool := SFeqb x y.
Definition ltb (x y : float) : bool := SFltb x y.
Definition leb (x y : float) : bool := SFleb x y.

Definition is_nan (x : float) : bool :=
  match x with S754_nan => true | _ => false end.

Definition is_finite (x : float) : bool :=
  match x with S754_zero _ | S754_finite _ _ _ => true | _ => false end.

(** Conversion of an integer (round to nearest even), as NumPy does when an
    [int64] is stored into a [float64] array. *)
Definition of_Z (z : Z) : float := binary_normalize prec emax z 0 false.

Definition zero : float := S754_zero false.
Definition one : float := Eval vm_compute in of_Z 1.
Definition neg_one : float := Eval vm_compute in of_Z (-1).
Definition nan : float := S754_nan.

(** Whether a right shift has dropped a set bit (round or sticky). *)
Definition flagged (mrs : shr_record) : bool := shr_r mrs || shr_s mrs.

(** A key whose lexicographic order is the order of the numbers that are
    not NaN: sign class first, then exponent, then mantissa. *)
Definition rank (x : float) : Z * Z * Z :=
  match x with
  | S754_nan => (0, 0, 0)
  | S754_zero _ => (0, 0, 0)
  | S754_infinity s => (if s then -2 else 2, 0, 0)
  | S754_finite s m e => if s then (-1, - e, - Z.pos m) else (1, e, Z.pos m)
  end.

Definition lex_le (a b : Z * Z * Z) : Prop :=
  fst (fst a) < fst (fst b) \/
  (fst (fst a) = fst (fst b) /\
   (snd (fst a) < snd (fst b) \/
    (snd (fst a) = snd (fst b) /\ snd a <= snd b))).

End Float64.

Abbreviation float := Float64.float.

(** ** Python values, exceptions and the observable trace *)

(** The dynamically typed arguments the validation code inspects. *)
Inductive pyval :=
| PyNone
| PyInt (z : Z)
| PyFloat (f : float)
| PyStr (s : string).

(** A one-dimensional [np.ndarray] of dtype [int64] or [float64]. *)
Inductive ndarray :=
| NdInt (a : list Z)
| NdFloat (a : list float).

Inductive exn :=
| LogError (msg : string)      (* raised by py_printf('ERROR', ...) *)
| IndexError
| ValueError
| TypeError
| IOError (path : string).

(** What an [imshow] call receives. *)
Record image := {
  img_data : list (list float);
  img_extent : list float;
  img_cmap : option string;
  img_vmin : pyval;
  img_vmax : pyval;
  img_interpolation : option string }.

Inductive event :=
| EvLog (level msg : string)            (* py_printf(level, msg, ...) *)
| EvMakedirs (path : string)            (* os.makedirs(path) *)
| EvQuery (x y z : float)               (* LocalCoords(x, y, z) + getFSRId *)
| EvSetFluxes (fluxes : list float)     (* moc_solver.setFluxes(eigenvec) *)
| EvFigure                              (* plt.figure() *)
| EvImshow (im : image)                 (* plt.imshow(...) *)
| EvColorbar
| EvSuptitle (s : string)
| EvTitle (s : string)
| EvSavefig (path : string)             (* fig.savefig(path, ...) *)
| EvClose.

Definition is_query (e : event) : bool :=
  match e with EvQuery _ _ _ => true | _ => false end.

Definition is_error_log (e : event) : bool :=
  match e with EvLog level _ => String.eqb level "ERROR" | _ => false end.

Definition is_render (e : event) : bool :=
  match e with
  | EvFigure | EvImshow _ | EvSavefig _ => true
  | _ => false
  end.

(** ** What the module takes from NumPy and from Python's formatting

    [numpy.random] keeps one global generator: [seed] replaces its state and
    [shuffle] permutes a sequence, advancing the state.  [str_float] is
    Python's [str.format] on a float and [TINY_MOVE] the constant
    [openmoc.TINY_MOVE]. *)
Class Runtime := {
  rng_state : Type;
  np_seed : Z -> rng_state;
  np_shuffle : rng_state -> list Z -> list Z * rng_state;
  str_float : float -> string;
  TINY_MOVE : float }.

(** [numpy.random.shuffle] rearranges its argument. *)
Class RuntimeLaws (R : Runtime) : Prop := {
  np_shuffle_perm : forall (st : rng_state) (l : list Z),
      Permutation (fst (np_shuffle st l)) l }.

(** ** The world and the monad *)

Section World.
Context {R : Runtime}.

Record world := {
  subdirectory : string;          (* the module global of plotter.py *)
  output_directory : string;      (* openmoc.get_output_directory() *)
  rng : rng_state;                (* numpy.random's global state *)
  dirs : list string;             (* directories that exist *)
  disk_ok : string -> bool;       (* whether a write to the path succeeds *)
  solver_fluxes : list float;     (* the MOC solver's flux array *)
  events : list event }.

Definition set_subdirectory (s : string) (w : world) : world :=
  {| subdirectory := s; output_directory := output_directory w;
     rng := rng w; dirs := dirs w; disk_ok := disk_ok w;
     solver_fluxes := solver_fluxes w; events := events w |}.

Definition set_rng (r : rng_state) (w : world) : world :=
  {| subdirectory := subdirectory w; output_directory := output_directory w;
     rng := r; dirs := dirs w; disk_ok := disk_ok w;
     solver_fluxes := solver_fluxes w; events := events w |}.

Definition add_dir (d : string) (w : world) : world :=
  {| subdirectory := subdirectory w; output_directory := output_directory w;
     rng := rng w; dirs := d :: dirs w; disk_ok := disk_ok w;
     solver_fluxes := solver_fluxes w; events := events w |}.

Definition set_solver_fluxes (f : list float) (w : world) : world :=
  {| subdirectory := subdirectory w; output_directory := output_directory w;
     rng := rng w; dirs := dirs w; disk_ok := disk_ok w;
     solver_fluxes := f; events := events w |}.

Definition add_event (e : event) (w : world) : world :=
  {| subdirectory := subdirectory w; output_directory := output_directory w;
     rng := rng w; dirs := dirs w; disk_ok := disk_ok w;
     solver_fluxes := solver_fluxes w; events := events w ++ [e] |}.

Inductive result (A : Type) :=
| Ok (a : A)
| Raise (e : exn).
Global Arguments Ok {A} a.
Global Arguments Raise {A} e.

Definition M (A : Type) : Type := world -> result A * world.

Definition ret {A} (a : A) : M A := fun w => (Ok a, w).

Definition bind {A B} (c : M A) (k : A -> M B) : M B :=
  fun w =>
    match c w with
    | (Ok a, w') => k a w'
    | (Raise e, w') => (Raise e, w')
    end.

Definition raise {A} (e : exn) : M A := fun w => (Raise e, w).
Definition get : M world := fun w => (Ok w, w).
Definition modify (f : world -> world) : M unit := fun w => (Ok tt, f w).
Definition emit (e : event) : M unit := modify (add_event e).

Definition when (b : bool) (c : M unit) : M unit := if b then c else ret tt.

(** A [for] loop that threads the loop-carried value. *)
Fixpoint foldM {A S} (body : S -> A -> M S) (l : list A) (s : S) : M S :=
  match l with
  | [] => ret s
  | a :: l' => bind (body s a) (foldM body l')
  end.

Definition forM_ {A} (l : list A) (body : A -> M unit) : M unit :=
  foldM (fun _ a => body a) l tt.

Definition from_option {A} (e : exn) (o : option A) : M A :=
  match o with Some a => ret a | None => raise e end.

End World.

Notation "'do' x <- c ; k" := (bind c (fun x => k))
  (at level 10, x name, c at level 100, k at level 200).
Notation "'do' ' p <- c ; k" := (bind c (fun x => match x with p => k end))
  (at level 10, p pattern, c at level 100, k at level 200).
Notation "c ;; k" := (bind c (fun _ => k))
  (at level 100, k at level 200, right associativity).

(** ** Python and NumPy helpers *)

(** [needle in haystack] on strings. *)
Fixpoint contains (needle haystack : string) : bool :=
  String.prefix needle haystack ||
  match haystack with
  | EmptyString => false
  | String _ rest => contains needle rest
  end.

(** [str(n)] for an integer. *)
Definition str_Z (n : Z) : string := NilZero.string_of_int (Z.to_int n).

Fixpoint zeros_string (n : nat) : string :=
  match n with
  | O => EmptyString
  | S n' => String "0"%char (zeros_string n')
  end.

(** [s.zfill(width)]: pad with zeros on the left, after a leading sign. *)
Definition zfill (s : string) (width : nat) : string :=
  let pad := zeros_string (width - String.length s) in
  match s with
  | String c rest =>
      if (Ascii.eqb c "-" || Ascii.eqb c "+")%char
      then String c (pad ++ rest)%string
      else (pad ++ s)%string
  | EmptyString => pad
  end.

(** Truth value of an argument in [if title and ...]. *)
Definition truthy (v : pyval) : bool :=
  match v with
  | PyNone => false
  | PyInt z => negb (z =? 0)
  | PyFloat f => negb (Float64.eqb f Float64.zero)
  | PyStr s => negb (String.eqb s "")
  end.

Definition is_str (v : pyval) : bool :=
  match v with PyStr _ => true | _ => false end.

(** Modelled from the spec: [is_integer] and [is_float] of [openmoc.process]
    (not under src/), the type checks applied to numeric parameters. *)
Definition is_integer (v : pyval) : bool :=
  match v with PyInt _ => true | _ => false end.

Definition is_float (v : pyval) : bool :=
  match v with PyFloat _ => true | _ => false end.

(** [np.arange(n, dtype=np.int64)]. *)
Definition arange (n : Z) : list Z := map Z.of_nat (seq 0 (Z.to_nat n)).

(** The position an index [k] denotes in a sequence of length [n]: Python
    counts negative indices from the end; [None] stands for IndexError. *)
Definition norm_index (n : nat) (k : Z) : option nat :=
  if (0 <=? k) && (k <? Z.of_nat n) then Some (Z.to_nat k)
  else if (k <? 0) && (- Z.of_nat n <=? k) then Some (Z.to_nat (Z.of_nat n + k))
  else None.

(** [l[k]]. *)
Definition py_index {A} (l : list A) (k : Z) : option A :=
  match norm_index (length l) k with
  | Some i => l !! i
  | None => None
  end.

(** [a[k]] read as a [float64], the element type of the surface. *)
Definition getitem (a : ndarray) (k : Z) : option float :=
  match a with
  | NdInt l => Float64.of_Z <$> py_index l k
  | NdFloat l => py_index l k
  end.

(** [isinstance(v, np.ndarray)] for an argument that is an array or not. *)
Definition is_ndarray (v : option ndarray) : bool :=
  match v with Some _ => true | None => false end.

Definition ndarray_len (a : ndarray) : Z :=
  match a with
  | NdInt l => Z.of_nat (length l)
  | NdFloat l => Z.of_nat (length l)
  end.

(** [np.zeros((n, n))]. *)
Definition zeros2 (n : nat) : list (list float) :=
  replicate n (replicate n Float64.zero).

(** [np.linspace(start, stop, num)]: [num] evenly spaced samples,
    [i * step + start] with the end point stored as given. *)
Definition linspace (start stop : float) (num : Z) : list float :=
  if num <=? 0 then []
  else if num =? 1 then [start]
  else
    let step := Float64.div (Float64.sub stop start) (Float64.of_Z (num - 1)) in
    map (fun i => Float64.add (Float64.mul (Float64.of_Z i) step) start)
        (arange (num - 1)) ++ [stop].

(** [np.maximum(a, b)]: the larger one, a NaN if there is one. *)
Definition np_maximum (a b : float) : float :=
  if Float64.leb b a || Float64.is_nan a then a else b.

(** [np.max] of a list of numbers; [None] stands for the ValueError on an
    empty array. *)
Definition max_list (l : list float) : option float :=
  match l with
  | [] => None
  | x :: rest => Some (fold_left np_maximum rest x)
  end.

(** [np.max(surface)] of a two-dimensional array. *)
Definition np_max (surface : list (list float)) : option float :=
  max_list (concat surface).

(** [np.flipud]. *)
Definition flipud {A} (surface : list (list A)) : list (list A) := rev surface.

(** [np.where(ids == x)[0]]: the positions of [x]. *)
Fixpoint where_eq_from (pos : nat) (ids : list Z) (x : Z) : list Z :=
  match ids with
  | [] => []
  | y :: rest =>
      if y =? x then Z.of_nat pos :: where_eq_from (S pos) rest x
      else where_eq_from (S pos) rest x
  end.

Definition where_eq (ids : list Z) (x : Z) : list Z := where_eq_from 0 ids x.

(** ** The external collaborators *)

(** What the plotting code reads from an object passed as [geometry].
    [getFSRId x y z] is the result of building [LocalCoords(x, y, z)],
    [findCellContainingCoords] and [getFSRId]; [None] is the not-a-number id
    that [np.isnan] detects. *)
Record Geometry := {
  geometry_type : string;                 (* str(type(geometry)) *)
  getMinX : float;  getMaxX : float;
  getMinY : float;  getMaxY : float;
  getMinZ : float;  getMaxZ : float;
  getNumFSRs : Z;
  getNumEnergyGroups : Z;
  getFSRId : float -> float -> float -> option Z;
  getFSRPointZ : float;                   (* getFSRPoint(0).getZ() *)
  getFSRMaterialId : Z -> Z;              (* findCellContainingFSR(i).getFillMaterial().getId() *)
  getAllMaterials : list Z }.             (* the ids, keys of getAllMaterials() *)

Record Solver := {
  solver_type : string;                   (* str(type(solver)) *)
  getGeometry : Geometry }.

Record IRAMSolver := {
  iram_type : string;                     (* str(type(iramsolver)) *)
  _num_modes : Z;
  _eigenvectors : Z -> list float;        (* column k, real part, as floats *)
  _moc_solver : Solver }.

(** Numbers that can be given as energy group bounds. *)
Inductive pynum :=
| NumInt (z : Z)
| NumFloat (f : float).

Definition pyval_of_num (n : pynum) : pyval :=
  match n with NumInt z => PyInt z | NumFloat f => PyFloat f end.

(** Python compares an [int] with a [float] by value: the integer [z] against
    the float, exactly. *)
Definition float_cmp_Z (f : float) (z : Z) : option comparison :=
  match f with
  | S754_nan => None
  | S754_infinity s => Some (if s then Lt else Gt)
  | S754_zero _ => Some (0 ?= z)
  | S754_finite s m e =>
      let v := if s then Z.neg m else Z.pos m in
      Some (if 0 <=? e then (v * 2 ^ e ?= z) else (v ?= z * 2 ^ (- e)))
  end.

(** [a < b] on numbers. *)
Definition num_ltb (a b : pynum) : bool :=
  match a, b with
  | NumInt x, NumInt y => x <? y
  | NumFloat x, NumFloat y => Float64.ltb x y
  | NumFloat x, NumInt y =>
      match float_cmp_Z x y with Some Lt => true | _ => false end
  | NumInt x, NumFloat y =>
      match float_cmp_Z y x with Some Gt => true | _ => false end
  end.

(** A sequence argument: a tuple, list or array of values, [None], or
    something else. *)
Inductive pyseq (A : Type) :=
| SeqOf (l : list A)
| SeqNone
| SeqOther.
Arguments SeqOf {A} l.
Arguments SeqNone {A}.
Arguments SeqOther {A}.

(** ** The plotter module *)

Section Plotter.
Context {R : Runtime}.

(** Modelled from the spec: [py_printf] of [openmoc.log] (not under src/).
    The message is logged; a message of level ERROR is a user-visible error
    that stops the call (validation is fail-fast). *)
Definition py_printf (level msg : string) : M unit :=
  emit (EvLog level msg) ;;
  if String.eqb level "ERROR" then raise (LogError msg) else ret tt.

(** [if not os.path.exists(directory): os.makedirs(directory)]. *)
Definition make_directory (directory : string) : M unit :=
  do w <- get;
  if existsb (String.eqb directory) (dirs w) then ret tt
  else if disk_ok w directory
       then modify (add_dir directory) ;; emit (EvMakedirs directory)
       else raise (IOError directory).

(** [fig.savefig(path, bbox_inches='tight')]. *)
Definition savefig (path : string) : M unit :=
  do w <- get;
  if disk_ok w path then emit (EvSavefig path) else raise (IOError path).

Definition numpy_random_seed (s : Z) : M unit := modify (set_rng (np_seed s)).

Definition numpy_random_shuffle (l : list Z) : M (list Z) :=
  fun w => (Ok (fst (np_shuffle (rng w) l)), set_rng (snd (np_shuffle (rng w) l)) w).

Definition as_int (v : pyval) : M Z :=
  match v with PyInt z => ret z | _ => raise TypeError end.

Definition as_float (v : pyval) : M float :=
  match v with PyFloat f => ret f | _ => raise TypeError end.

Fixpoint mapM {A B} (f : A -> M B) (l : list A) : M (list B) :=
  match l with
  | [] => ret []
  | a :: l' => do b <- f a; do bs <- mapM f l'; ret (b :: bs)
  end.

(** [a[idx] = vals] with index and value arrays. *)
Fixpoint setitem_fancy (a idx vals : list Z) : M (list Z) :=
  match idx, vals with
  | [], [] => ret a
  | k :: idx', v :: vals' =>
      do i <- from_option IndexError (norm_index (length a) k);
      setitem_fancy (<[ i := v ]> a) idx' vals'
  | _, _ => raise ValueError
  end.

(** [a.take(data)]. *)
Definition ndarray_take (a data : list Z) : M (list Z) :=
  mapM (fun d => from_option IndexError (py_index a d)) data.

(** *** [_colorize] (plotter.py, lines 833-849) *)
Definition _colorize (data : list Z) (num_colors : Z) (seed : Z) : M (list Z) :=
  (* Generate linearly-spaced array of color indices *)
  let all_ids := arange num_colors in
  (* Generate linearly-spaced integer color IDs *)
  let id_colors := arange num_colors in
  (* Randomly shuffle the linearly-spaced integer color IDs *)
  numpy_random_seed 1 ;;
  do id_colors <- numpy_random_shuffle id_colors;
  (* Insert random colors into appropriate locations in data array *)
  let ids_to_colors := arange num_colors in
  do ids_to_colors <- setitem_fancy ids_to_colors all_ids id_colors;
  ndarray_take ids_to_colors data.

(** The colorizer as its documentation describes it ([@param seed the random
    number seed used to generate colors]): the generator is seeded with the
    argument. *)
Definition documented_colorize (data : list Z) (num_colors : Z) (seed : Z)
  : M (list Z) :=
  let all_ids := arange num_colors in
  let id_colors := arange num_colors in
  numpy_random_seed seed ;;
  do id_colors <- numpy_random_shuffle id_colors;
  let ids_to_colors := arange num_colors in
  do ids_to_colors <- setitem_fancy ids_to_colors all_ids id_colors;
  ndarray_take ids_to_colors data.

(** *** [_get_pixel_coords] (lines 783-806) *)
Record coords := {
  coords_x : list float;
  coords_y : list float;
  coords_bounds : list float }.

Definition _get_pixel_coords (geometry : Geometry) (gridsize : Z)
    (xlim ylim : option (float * float)) : coords :=
  let b0 := Float64.add (getMinX geometry) TINY_MOVE in
  let b1 := Float64.sub (getMaxX geometry) TINY_MOVE in
  let b2 := Float64.add (getMinY geometry) TINY_MOVE in
  let b3 := Float64.sub (getMaxY geometry) TINY_MOVE in
  let '(b0, b1) := match xlim with Some l => l | None => (b0, b1) end in
  let '(b2, b3) := match ylim with Some l => l | None => (b2, b3) end in
  {| coords_x := linspace b0 b1 gridsize;
     coords_y := linspace b2 b3 gridsize;
     coords_bounds := [b0; b1; b2; b3] |}.

(** *** [_check_zcoord] (lines 815-824) *)
Definition _check_zcoord (geometry : Geometry) (zcoord : pyval) : M unit :=
  if negb (is_float zcoord) then
    py_printf "ERROR" "Unable to produce plot since the z-coord %d is not a float"
  else
    do z <- as_float zcoord;
    if Float64.ltb z (getMinZ geometry) || Float64.ltb (getMaxZ geometry) z then
      py_printf "ERROR"
        "Unable to produce plot since the z-coord %d is outside the geometry z-bounds (%d, %d)"
    else ret tt.

(** *** [plot_spatial_data] (lines 882-991) *)

(** [surface[j][i] = v]. *)
Definition setitem2 (surface : list (list float)) (j i : nat) (v : float)
  : M (list (list float)) :=
  match surface !! j with
  | Some row =>
      if decide (i < length row)%nat
      then ret (<[ j := <[ i := v ]> row ]> surface)
      else raise IndexError
  | None => raise IndexError
  end.

(** The body of the loop over [j] (lines 944-958). *)
Definition sample (geometry : Geometry) (fsrs_to_data : ndarray)
    (zcoord : float) (c : coords) (i : nat)
    (surface : list (list float)) (j : nat) : M (list (list float)) :=
  (* Find the flat source region IDs for each grid point *)
  do x <- from_option IndexError (coords_y c !! i);
  do y <- from_option IndexError (coords_x c !! j);
  emit (EvQuery x y zcoord) ;;
  let fsr_id := getFSRId geometry x y zcoord in
  match fsr_id with
  | None =>
      (* If we did not find a region, use a -1 "bad" number color *)
      setitem2 surface j i Float64.neg_one
  | Some fsr_id =>
      (* Get the fission rate in this FSR *)
      do v <- from_option IndexError (getitem fsrs_to_data fsr_id);
      setitem2 surface j i v
  end.

(** The two nested loops (lines 941-958). *)
Definition rasterize (geometry : Geometry) (fsrs_to_data : ndarray)
    (zcoord : float) (c : coords) (gridsize : nat)
    (surface : list (list float)) : M (list (list float)) :=
  foldM (fun surface i =>
           foldM (sample geometry fsrs_to_data zcoord c i)
                 (seq 0 gridsize) surface)
        (seq 0 gridsize) surface.

(** [surface /= np.max(surface)] (line 962). *)
Definition normalize (surface : list (list float)) : M (list (list float)) :=
  do m <- from_option ValueError (np_max surface);
  ret (map (map (fun v => Float64.div v m)) surface).

(** [surface[np.where(surface == 0.0)] = np.nan] (lines 966-967). *)
Definition blank_zeros (surface : list (list float)) : list (list float) :=
  map (map (fun v => if Float64.eqb v Float64.zero then Float64.nan else v))
      surface.

(** Lines 960-967. *)
Definition postprocess (norm transparent_zeros : bool)
    (surface : list (list float)) : M (list (list float)) :=
  (* Normalize data to maximum if requested *)
  do surface <- (if norm then normalize surface else ret surface);
  (* Set zero data entries to NaN so Matplotlib will make them transparent *)
  ret (if transparent_zeros then blank_zeros surface else surface).

Definition plot_spatial_data (geometry : Geometry)
    (fsrs_to_data : option ndarray) (norm transparent_zeros : bool)
    (zcoord : pyval) (gridsize : pyval) (xlim ylim : option (float * float))
    (colorbar : bool) (title suptitle filename : pyval)
    (interpolation cmap : option string) (vmin vmax : pyval)
    (get_figure : bool) : M (option image) :=
  do w <- get;
  let directory := (output_directory w ++ subdirectory w)%string in
  (* Make directory if it does not exist *)
  make_directory directory ;;
  (* Error checking *)
  when (negb (contains "Geometry" (geometry_type geometry)))
    (py_printf "ERROR"
       "Unable to plot spatial data since %s input is not a Geometry class object") ;;
  when (negb (is_ndarray fsrs_to_data))
    (py_printf "ERROR"
       "Unable to plot spatial data since fsrs_to_data is not a NumPy array") ;;
  do fsrs_to_data <- from_option TypeError fsrs_to_data;
  when (negb (ndarray_len fsrs_to_data =? getNumFSRs geometry))
    (py_printf "ERROR"
       "Unable to plot spatial data since fsrs_to_data is length %d but there are %d FSRs in the Geometry") ;;
  when (negb (is_integer gridsize))
    (py_printf "ERROR"
       "Unable to plot spatial data since the gridsize %s is not an integer") ;;
  do gridsize <- as_int gridsize;
  when (gridsize <=? 0)
    (py_printf "ERROR" "Unable to plot spatial data with a negative gridsize (%d)") ;;
  when (truthy title && negb (is_str title))
    (py_printf "ERROR" "Unable to plot spatial data with a non-string title %s") ;;
  when (truthy suptitle && negb (is_str suptitle))
    (py_printf "ERROR" "Unable to plot spatial data with a non-string suptitle %s") ;;
  when (negb (is_str filename))
    (py_printf "ERROR" "Unable to plot spatial data with a non-string filename %s") ;;
  let zcoord := match zcoord with PyNone => PyFloat Float64.zero | _ => zcoord end in
  (* Check z-coord *)
  _check_zcoord geometry zcoord ;;
  do zcoord <- as_float zcoord;
  (* Initialize a numpy array of fission rates *)
  let surface := zeros2 (Z.to_nat gridsize) in
  (* Retrieve the pixel coordinates *)
  let coords := _get_pixel_coords geometry gridsize xlim ylim in
  do surface <- rasterize geometry fsrs_to_data zcoord coords
                  (Z.to_nat gridsize) surface;
  do surface <- postprocess norm transparent_zeros surface;
  (* Plot a 2D color map of the flat source regions fission rates *)
  emit EvFigure ;;
  let fig := {| img_data := flipud surface;
                img_extent := coords_bounds coords;
                img_cmap := cmap; img_vmin := vmin; img_vmax := vmax;
                img_interpolation := interpolation |} in
  emit (EvImshow fig) ;;
  when colorbar (emit EvColorbar) ;;
  when (truthy suptitle)
    (match suptitle with PyStr t => emit (EvSuptitle t) | _ => raise TypeError end) ;;
  when (truthy title)
    (match title with PyStr t => emit (EvTitle t) | _ => raise TypeError end) ;;
  if get_figure then ret (Some fig)
  else
    match filename with
    | PyStr name =>
        savefig (directory ++ name) ;; emit EvClose ;; ret None
    | _ => raise TypeError
    end.

(** [str.format] on an argument. *)
Definition format_val (v : pyval) : string :=
  match v with
  | PyNone => "None"
  | PyInt z => str_Z z
  | PyFloat f => str_float f
  | PyStr t => t
  end.

(** *** [plot_materials] (lines 208-246) *)
Definition plot_materials (geometry : Geometry) (gridsize : pyval)
    (xlim ylim : option (float * float)) (zcoord : pyval) : M unit :=
  (* Error checking *)
  when (negb (contains "Geometry" (geometry_type geometry)))
    (py_printf "ERROR"
       "Unable to plot the Materials since input %s is not a Geometry class object") ;;
  (* If zcoord was not set, set the zcoord to 0.0 *)
  let zcoord := match zcoord with PyNone => PyFloat Float64.zero | _ => zcoord end in
  (* Check z-coord *)
  _check_zcoord geometry zcoord ;;
  py_printf "NORMAL" "Plotting the materials..." ;;
  (* Create a NumPy array to map FSRs to Materials *)
  let num_fsrs := getNumFSRs geometry in
  let fsrs_to_materials := replicate (Z.to_nat num_fsrs) 0 in
  do fsrs_to_materials <-
    foldM (fun a fsr_id =>
             do i <- from_option IndexError (norm_index (length a) fsr_id);
             ret (<[ i := getFSRMaterialId geometry fsr_id ]> a))
          (arange num_fsrs) fsrs_to_materials;
  (* Create an array of random integer colors for each Material *)
  let materials := getAllMaterials geometry in
  let num_materials := Z.of_nat (length materials) in
  let material_ids := materials in
  numpy_random_seed 1 ;;
  do material_ids <- numpy_random_shuffle material_ids;
  do fsrs_to_materials <-
    foldM (fun a i =>
             do material_id <- from_option IndexError (a !! i);
             match where_eq material_ids material_id with
             | [k] => ret (<[ i := k ]> a)
             | _ => raise ValueError
             end)
          (seq 0 (length fsrs_to_materials)) fsrs_to_materials;
  (* Plot a 2D color map of the Materials *)
  let suptitle := "Materials" in
  let title := ("z = " ++ format_val zcoord)%string in
  let filename := ("materials-z-" ++ format_val zcoord ++ ".png")%string in
  plot_spatial_data geometry (Some (NdInt fsrs_to_materials)) false false
    zcoord gridsize xlim ylim false (PyStr title) (PyStr suptitle)
    (PyStr filename) (Some "nearest") (Some "spectral")
    (PyInt 0) (PyInt num_materials) false ;;
  ret tt.

(** *** [plot_spatial_fluxes] (lines 471-497) *)

(** [np.reshape(flat, (rows, cols))]. *)
Fixpoint reshape (rows cols : nat) (flat : list float) : list (list float) :=
  match rows with
  | O => []
  | S rows' => take cols flat :: reshape rows' cols (drop cols flat)
  end.

(** Modelled from the spec: [get_scalar_fluxes] of [openmoc.process] (not
    under src/): the solver's flux per (region, energy group), as an array
    with one row per region. *)
Definition get_scalar_fluxes (solver : Solver) : M (list (list float)) :=
  do w <- get;
  let geometry := getGeometry solver in
  let num_fsrs := Z.to_nat (getNumFSRs geometry) in
  let num_groups := Z.to_nat (getNumEnergyGroups geometry) in
  if decide (length (solver_fluxes w) = num_fsrs * num_groups)%nat
  then ret (reshape num_fsrs num_groups (solver_fluxes w))
  else raise ValueError.

(** [fluxes[:,index]] for an array with [num_groups] columns. *)
Definition column (fluxes : list (list float)) (num_groups index : nat)
  : M (list float) :=
  if decide (index < num_groups)%nat
  then mapM (fun row => from_option IndexError (row !! index)) fluxes
  else raise IndexError.

Definition plot_spatial_fluxes (solver : Solver) (energy_groups : pyseq pyval)
    (norm : bool) (gridsize : pyval) (xlim ylim : option (float * float))
  : M unit :=
  when (negb (contains "Solver" (solver_type solver)))
    (py_printf "ERROR"
       "Unable to plot the FSR flux since the input did not contain a solver class object") ;;
  do energy_groups <-
    match energy_groups with
    | SeqOf l => ret l
    | _ =>
        py_printf "ERROR"
          "Unable to plot the FSR flux since the energy_groups is not a Python tuple/list or NumPy array" ;;
        raise TypeError
    end;
  py_printf "NORMAL" "Plotting the FSR scalar fluxes..." ;;
  let geometry := getGeometry solver in
  let zcoord := getFSRPointZ geometry in
  (* Get array of FSR energy-dependent fluxes *)
  do fluxes <- get_scalar_fluxes solver;
  (* Loop over all energy group and create a plot *)
  forM_ (zip (seq 0 (length energy_groups)) energy_groups)
    (fun '(index, group) =>
       let suptitle := ("FSR Scalar Flux (Group " ++ format_val group ++ ")")%string in
       let title := ("z = " ++ str_float zcoord)%string in
       let filename := ("fsr-flux-group-" ++ format_val group ++ "-z-"
                        ++ str_float zcoord ++ ".png")%string in
       do data <- column fluxes (Z.to_nat (getNumEnergyGroups geometry)) index;
       plot_spatial_data geometry (Some (NdFloat data)) norm false
         (PyFloat zcoord) gridsize xlim ylim true (PyStr title)
         (PyStr suptitle) (PyStr filename) None None PyNone PyNone false ;;
       ret tt).

(** *** [plot_eigenmode_fluxes] (lines 698-768) *)

(** [moc_solver.setFluxes(eigenvec)]. *)
Definition setFluxes (eigenvec : list float) : M unit :=
  modify (set_solver_fluxes eigenvec) ;; emit (EvSetFluxes eigenvec).

(** [max(eigenmodes)] on integers; [None] for an empty sequence. *)
Definition max_modes (modes : list Z) : option Z :=
  match modes with
  | [] => None
  | m :: rest => Some (fold_left Z.max rest m)
  end.

Definition plot_eigenmode_fluxes (iramsolver : IRAMSolver)
    (eigenmodes : pyseq pyval) (norm : bool) (energy_groups : pyseq pyval)
    (gridsize : pyval) (xlim ylim : option (float * float)) : M unit :=
  do w <- get;
  let directory := (output_directory w ++ subdirectory w)%string in
  (* Make directory if it does not exist *)
  make_directory directory ;;
  when (negb (contains "IRAMSolver" (iram_type iramsolver)))
    (py_printf "ERROR"
       "Unable to plot the eigenmode fluxes since input did not contain an IRAMSolver class object") ;;
  (* Get the total number of eigenmodes *)
  let num_modes := _num_modes iramsolver in
  do eigenmodes <-
    match eigenmodes with
    | SeqOf l =>
        (* If eigenmodes parameters is empty list, plot all eigenmodes *)
        let l := if decide (length l = 0%nat)
                 then map (fun k => PyInt (k + 1)) (arange num_modes)
                 else l in
        forM_ l (fun mode =>
          if negb (is_integer mode) then
            py_printf "ERROR" "Unable to plot the eigenmode flux for eigenmode %s"
          else
            do m <- as_int mode;
            if m <=? 0 then
              py_printf "ERROR" "Unable to plot the eigenmode flux for negative eigenmode %d"
            else if num_modes <? m then
              py_printf "ERROR" "Unable to plot the eigenmode flux for eigenmode %d out of %d modes"
            else ret tt) ;;
        mapM as_int l
    | _ =>
        py_printf "ERROR"
          "Unable to plot the eigenmode flux since the eigenmodes is not a Python tuple/list or NumPy array" ;;
        raise TypeError
    end;
  py_printf "NORMAL" "Plotting the eigenmode fluxes..." ;;
  (* Extract the MOC Solver from the IRAMSolver *)
  let moc_solver := _moc_solver iramsolver in
  (* Loop over each eigenmode *)
  forM_ eigenmodes (fun mode =>
    (* Extract the eigenvector for this eigenmode from the IRAMSolver *)
    let eigenvec := _eigenvectors iramsolver (mode - 1) in
    (* Ensure the primary eigenvector is positive *)
    let eigenvec := if mode =? 1 then map SFabs eigenvec else eigenvec in
    (* Insert eigenvector into MOC Solver object *)
    setFluxes eigenvec ;;
    (* Set subdirectory folder for this eigenmode *)
    do top <- from_option ValueError (max_modes eigenmodes);
    let num_digits := String.length (str_Z top) in
    modify (set_subdirectory
              ("/plots/eig-" ++ zfill (str_Z mode) num_digits ++ "-flux/")) ;;
    (* Plot this eigenmode's spatial fluxes *)
    plot_spatial_fluxes moc_solver energy_groups norm gridsize xlim ylim) ;;
  (* Reset global subdirectory *)
  modify (set_subdirectory "/plots/").

(** *** [plot_energy_fluxes] (lines 525-638) *)

(** The checks on [group_bounds] (lines 560-585); returns the bounds and
    the [loglog] flag the plot goes on with. *)
Definition check_group_bounds (geometry : Geometry) (num_groups : Z)
    (group_bounds : pyseq pynum) (loglog : bool) : M (list pynum * bool) :=
  match group_bounds with
  | SeqOf bounds =>
      (if negb (forallb (fun '(low, up) => num_ltb low up)
                        (zip bounds (drop 1 bounds))) then
         py_printf "ERROR"
           "Unable to plot the flux vs. energy since the group bounds are not monotonically increasing"
       else if negb (Z.of_nat (length bounds) =? getNumEnergyGroups geometry + 1) then
         py_printf "ERROR" "Unable to plot the flux vs. energy with %d group bounds"
       else ret tt) ;;
      forM_ bounds (fun bound =>
        if negb (is_integer (pyval_of_num bound))
           && negb (is_float (pyval_of_num bound)) then
          py_printf "ERROR" "Unable to plot the flux vs. energy with group bound %s"
        else if num_ltb bound (NumInt 0) then
          py_printf "ERROR"
            "Unable to plot the flux vs. energy with a negative group bound %f"
        else ret tt) ;;
      ret (bounds, loglog)
  | SeqNone =>
      ret (map NumInt (arange (num_groups + 1)), false)
  | SeqOther =>
      py_printf "ERROR"
        "Unable to plot the flux vs. energy since the group bounds is not a Python tuple, list or NumPy array" ;;
      raise TypeError
  end.

(** The function up to its plotting loop; the Matplotlib calls that draw
    one region's step function appear as the figure and the file it is
    saved to. *)
Definition plot_energy_fluxes (solver : Solver) (fsrs : pyseq pyval)
    (group_bounds : pyseq pynum) (norm loglog : bool) : M unit :=
  do w <- get;
  let directory := (output_directory w ++ subdirectory w)%string in
  (* Make directory if it does not exist *)
  make_directory directory ;;
  when (negb (contains "Solver" (solver_type solver)))
    (py_printf "ERROR"
       "Unable to plot the flux vs. energy since input did not contain a Solver class object") ;;
  let geometry := getGeometry solver in
  let num_fsrs := getNumFSRs geometry in
  let num_groups := getNumEnergyGroups geometry in
  do fsrs <-
    match fsrs with
    | SeqOf l =>
        forM_ l (fun fsr =>
          if negb (is_integer fsr) then
            py_printf "ERROR" "Unable to plot the flux vs. energy non-integer FSR %s"
          else
            do f <- as_int fsr;
            if f <? 0 then
              py_printf "ERROR" "Unable to plot the flux vs. energy for negative FSR %d"
            else if num_fsrs <=? f then
              py_printf "ERROR"
                "Unable to plot the flux vs. energy for FSR %d in problem with %d FSRs"
            else ret tt) ;;
        mapM as_int l
    | _ =>
        py_printf "ERROR"
          "Unable to plot the flux vs. energy since the fsrs is not a Python tuple, list or NumPy array" ;;
        raise TypeError
    end;
  do '(group_bounds, loglog) <-
    check_group_bounds geometry num_groups group_bounds loglog;
  py_printf "NORMAL" "Plotting the scalar fluxes vs. energy..." ;;
  (* Iterate over all flat source regions *)
  forM_ fsrs (fun fsr =>
    emit EvFigure ;;
    emit (EvTitle ("FSR " ++ str_Z fsr ++ " Flux ("
                   ++ str_Z num_groups ++ " groups)")) ;;
    let filename := ("flux-fsr-" ++ str_Z fsr ++ ".png")%string in
    savefig (directory ++ filename) ;;
    emit EvClose).
End Plotter.

(** ** Notions used to state the properties *)

Section Notions.
Context {R : Runtime}.

(** The world after a list of further events. *)
Definition add_events (evs : list event) (w : world) : world :=
  {| subdirectory := subdirectory w; output_directory := output_directory w;
     rng := rng w; dirs := dirs w; disk_ok := disk_ok w;
     solver_fluxes := solver_fluxes w; events := events w ++ evs |}.

(** Computations that neither read nor change the world. *)
Definition pure {A} (c : M A) : Prop := exists r, forall w, c w = (r, w).

(** [surface[j][i]], when the position exists. *)
Definition entry (surface : list (list float)) (j i : nat) : option float :=
  match surface !! j with
  | Some row => row !! i
  | None => None
  end.

(** What the loop body stores for a sampled point [(x, y, z)]: the sentinel
    when the geometry finds no region, the region's datum otherwise. *)
Definition pixel_value (geometry : Geometry) (fsrs_to_data : ndarray)
    (zcoord x y : float) : option float :=
  match getFSRId geometry x y zcoord with
  | None => Some Float64.neg_one
  | Some fsr_id => getitem fsrs_to_data fsr_id
  end.

(** What a sweep over the grid leaves at [surface[j][i]]: the value for the
    point whose x-coordinate is [coords['y'][i]] and whose y-coordinate is
    [coords['x'][j]]. *)
Definition pixel_at (geometry : Geometry) (fsrs_to_data : ndarray)
    (zcoord : float) (c : coords) (i j : nat) : option float :=
  match coords_y c !! i, coords_x c !! j with
  | Some x, Some y => pixel_value geometry fsrs_to_data zcoord x y
  | _, _ => None
  end.

(** The queries of one full sweep, in the order the loops issue them: the
    outer loop walks [outer], the inner loop walks [inner]. *)
Definition sweep_queries (outer inner : list float) (zcoord : float) : list event :=
  flat_map (fun x => map (fun y => EvQuery x y zcoord) inner) outer.

End Notions.

(** ** A concrete runtime and concrete collaborators

    Stand-ins used to run the definitions on examples: a linear congruential
    generator whose shuffle rotates the sequence, a printer for floats, and
    a small asymmetric geometry. *)

Module Demo.

Definition lcg (s : Z) : Z := (214013 * s + 2531013) mod 4294967296.

Definition rotate (k : nat) (l : list Z) : list Z := drop k l ++ take k l.

Definition shuffle (st : Z) (l : list Z) : list Z * Z :=
  (rotate (Z.to_nat (st mod Z.of_nat (length l))) l, lcg st).

Definition print_float (f : float) : string :=
  match f with
  | S754_zero s => if s then "-0.0" else "0.0"
  | S754_infinity s => if s then "-inf" else "inf"
  | S754_nan => "nan"
  | S754_finite s m e =>
      ((if s then "-" else "") ++ str_Z (Z.pos m) ++ "*2**" ++ str_Z e)%string
  end.

Definition runtime : Runtime :=
  {| rng_state := Z;
     np_seed := lcg;
     np_shuffle := shuffle;
     str_float := print_float;
     TINY_MOVE := Float64.div (Float64.of_Z 1) (Float64.of_Z 10000000000) |}.

(** A box [-2, 2] x [-1, 3]: region 0 where x < 0, region 1 where x >= 0,
    and no region at all above y = 1. *)
Definition geometry : Geometry :=
  {| geometry_type := "<class 'openmoc.openmoc.Geometry'>";
     getMinX := Float64.of_Z (-2); getMaxX := Float64.of_Z 2;
     getMinY := Float64.of_Z (-1); getMaxY := Float64.of_Z 3;
     getMinZ := Float64.of_Z (-1); getMaxZ := Float64.of_Z 1;
     getNumFSRs := 2;
     getNumEnergyGroups := 1;
     getFSRId := fun x y z =>
       if Float64.ltb Float64.one y then None
       else if Float64.ltb x Float64.zero then Some 0 else Some 1;
     getFSRPointZ := Float64.zero;
     getFSRMaterialId := fun fsr => if fsr =? 0 then 10 else 20;
     getAllMaterials := [10; 20] |}.

(** Per-region data: 5.0 in region 0 and 7.0 in region 1. *)
Definition data : ndarray := NdFloat [Float64.of_Z 5; Float64.of_Z 7].

Definition world0 : @world runtime :=
  @Build_world runtime "/plots/" "out" 0 [] (fun _ => true) [] [].

(** The pixel grid of a 3 x 3 plot of the whole box. *)
Definition grid3 : coords := @_get_pixel_coords runtime geometry 3 None None.

Definition solver : Solver :=
  {| solver_type := "<class 'openmoc.openmoc.CPUSolver'>";
     getGeometry := geometry |}.

(** Two eigenmodes over the two regions and the single energy group. *)
Definition iramsolver : IRAMSolver :=
  {| iram_type := "<class 'openmoc.krylov.IRAMSolver'>";
     _num_modes := 2;
     _eigenvectors := fun k =>
       if k =? 0 then [Float64.of_Z (-1); Float64.of_Z (-3)]
       else [Float64.of_Z 2; Float64.of_Z (-2)];
     _moc_solver := solver |}.

(** A world in which the image files of the second eigenmode cannot be
    written. *)
Definition world_mode2_fails : @world runtime :=
  @Build_world runtime "/plots/" "out" 0 []
    (fun path => negb (contains "eig-2-flux/fsr-flux" path)) [] [].

End Demo.

(** ** The three conditions on energy group bounds *)

(** Every bound is below the next one. *)
Definition strictly_increasing (bounds : list pynum) : Prop :=
  forall k low up,
    bounds !! k = Some low -> bounds !! S k = Some up -> num_ltb low up = true.

(** Some bound is below zero. *)
Definition has_negative (bounds : list pynum) : Prop :=
  exists b, In b bounds /\ num_ltb b (NumInt 0) = true.


(** ** Computations that leave the module global alone *)

Section Frames.
Context {R : Runtime}.

(** [c] ends, by returning or by raising, with [subdirectory] as it found
    it. *)
Definition keeps_subdirectory {A} (c : M A) : Prop :=
  forall w r w', c w = (r, w') -> subdirectory w' = subdirectory w.

(** How a call of [plot_eigenmode_fluxes] started in [w] leaves the module
    global: reset to the default after a return; after an exception, as it
    was before the call or as the sweep had set it for some mode. *)
Definition after_sweep {A} (w : world) (r : result A) (w' : world) : Prop :=
  match r with
  | Ok _ => subdirectory w' = "/plots/"
  | Raise _ =>
      subdirectory w' = subdirectory w \/
      exists (mode : Z) (num_digits : nat),
        subdirectory w'
        = ("/plots/eig-" ++ zfill (str_Z mode) num_digits ++ "-flux/")%string
  end.

End Frames.


(** ** What the validation of [plot_spatial_data] accepts *)

(** [zcoord] lies within the z-extent of the geometry, as [_check_zcoord]
    tests it (lines 821): neither below the minimum nor above the maximum. *)
Definition zcoord_in_range (geometry : Geometry) (z : float) : bool :=
  negb (Float64.ltb z (getMinZ geometry) || Float64.ltb (getMaxZ geometry) z).

(** The z-coordinate the plot is made at: 0.0 when none is given
    (lines 929-930). *)
Definition zcoord_or_default (zcoord : pyval) : pyval :=
  match zcoord with PyNone => PyFloat Float64.zero | _ => zcoord end.

(** Every check of lines 896-933 passes. *)
Definition arguments_ok (geometry : Geometry) (fsrs_to_data : option ndarray)
    (zcoord gridsize title suptitle filename : pyval) : bool :=
  contains "Geometry" (geometry_type geometry)
  && match fsrs_to_data with
     | Some a => ndarray_len a =? getNumFSRs geometry
     | None => false
     end
  && match gridsize with PyInt g => 0 <? g | _ => false end
  && negb (truthy title && negb (is_str title))
  && negb (truthy suptitle && negb (is_str suptitle))
  && is_str filename
  && match zcoord_or_default zcoord with
     | PyFloat z => zcoord_in_range geometry z
     | _ => false
     end.


Section Untouched.
Context {R : Runtime}.


End Untouched.


(** ** What a call of [plot_spatial_data] draws *)

(** The call that puts a caption on the figure, made when the caption is a
    non-empty string ([if suptitle: plt.suptitle(suptitle)]). *)
Definition caption_events (call : string -> event) (caption : pyval) : list event :=
  match caption with
  | PyStr t => if truthy caption then [call t] else []
  | _ => []
  end.

(** The Matplotlib calls of lines 976-991 for the image [fig]. *)
Definition drawing_events (fig : image) (colorbar : bool) (title suptitle : pyval)
    (get_figure : bool) (path : string) : list event :=
  [EvFigure; EvImshow fig]
  ++ (if colorbar then [EvColorbar] else [])
  ++ caption_events EvSuptitle suptitle
  ++ caption_events EvTitle title
  ++ (if get_figure then [] else [EvSavefig path; EvClose]).


(** ** The other surface plots of the module *)

(** What [plot_cells] reads from the geometry beside what [Geometry] holds. *)
Record Cells := {
  getFSRCellId : Z -> Z;           (* findCellContainingFSR(i).getId() *)
  getAllMaterialCells : list Z }.  (* the ids, keys of getAllMaterialCells() *)

(** What the plotting code reads from an object passed as [cmfd]. *)
Record Cmfd := {
  cmfd_type : string;              (* str(type(cmfd)) *)
  convertFSRIdToCmfdCell : Z -> Z;
  getNumCells : Z }.

(** The [centroids] argument of [plot_flat_source_regions]: a [bool], or a
    value of another type. *)
Inductive pybool :=
| PyBool (b : bool)
| NotBool (v : pyval).

(** What [plt.scatter] is called with (lines 391-392). *)
Record scatter := {
  scatter_points : list (float * float);
  scatter_marker : string;
  scatter_size : pyval }.

Section SurfacePlots.
Context {R : Runtime}.

(** The loop of lines 227-229, 284-286 and 440-441:
    [for fsr_id in range(num_fsrs): a[fsr_id] = f(fsr_id)]. *)
Definition fill_by_fsr (f : Z -> Z) (num_fsrs : Z) (a : list Z) : M (list Z) :=
  foldM (fun a fsr_id =>
           do i <- from_option IndexError (norm_index (length a) fsr_id);
           ret (<[ i := f fsr_id ]> a))
        (arange num_fsrs) a.

(** The loop of lines 294-295:
    [for i, cell_id in enumerate(a): a[i] = np.where(ids == cell_id)[0]]. *)
Definition recolor_by_position (ids : list Z) (a : list Z) : M (list Z) :=
  foldM (fun a i =>
           do cell_id <- from_option IndexError (a !! i);
           match where_eq ids cell_id with
           | [k] => ret (<[ i := k ]> a)
           | _ => raise ValueError
           end)
        (seq 0 (length a)) a.

(** *** [plot_cells] (lines 266-303) *)
Definition plot_cells (geometry : Geometry) (cells : Cells) (gridsize : pyval)
    (xlim ylim : option (float * float)) (zcoord : pyval) : M unit :=
  (* Error checking *)
  when (negb (contains "Geometry" (geometry_type geometry)))
    (py_printf "ERROR"
       "Unable to plot the Cells since %s input is not a Geometry class object") ;;
  let zcoord := match zcoord with PyNone => PyFloat Float64.zero | _ => zcoord end in
  (* Check z-coord *)
  _check_zcoord geometry zcoord ;;
  py_printf "NORMAL" "Plotting the cells..." ;;
  (* Create a NumPy array to map FSRs to Cells *)
  let num_fsrs := getNumFSRs geometry in
  let fsrs_to_cells := replicate (Z.to_nat num_fsrs) 0 in
  do fsrs_to_cells <- fill_by_fsr (getFSRCellId cells) num_fsrs fsrs_to_cells;
  (* Create an array of random integer colors for each Cell *)
  let material_cells := getAllMaterialCells cells in
  let num_cells := Z.of_nat (length material_cells) in
  let cell_ids := material_cells in
  numpy_random_seed 1 ;;
  do cell_ids <- numpy_random_shuffle cell_ids;
  do fsrs_to_cells <- recolor_by_position cell_ids fsrs_to_cells;
  (* Plot a 2D color map of the Cells *)
  let suptitle := "Cells" in
  let title := ("z = " ++ format_val zcoord)%string in
  let filename := ("cells-z-" ++ format_val zcoord ++ ".png")%string in
  plot_spatial_data geometry (Some (NdInt fsrs_to_cells)) false false
    zcoord gridsize xlim ylim false (PyStr title) (PyStr suptitle)
    (PyStr filename) (Some "nearest") (Some "spectral")
    (PyInt 0) (PyInt num_cells) false ;;
  ret tt.

(** *** [plot_cmfd_cells] (lines 422-451) *)
Definition plot_cmfd_cells (geometry : Geometry) (cmfd : Cmfd) (gridsize : pyval)
    (xlim ylim : option (float * float)) : M unit :=
  (* Error checking *)
  when (negb (contains "Geometry" (geometry_type geometry)))
    (py_printf "ERROR"
       "Unable to plot the CMFD cells since %s input is not a geometry class object") ;;
  when (negb (contains "Cmfd" (cmfd_type cmfd)))
    (py_printf "ERROR"
       "Unable to plot the CMFD cells since %s input is not a CMFD class object") ;;
  py_printf "NORMAL" "Plotting the CMFD cells..." ;;
  let zcoord := getFSRPointZ geometry in
  let num_fsrs := getNumFSRs geometry in
  (* Create a NumPy array to map FSRs to CMFD cells *)
  let fsrs_to_cmfd_cells := replicate (Z.to_nat num_fsrs) 0 in
  do fsrs_to_cmfd_cells <-
    fill_by_fsr (convertFSRIdToCmfdCell cmfd) num_fsrs fsrs_to_cmfd_cells;
  (* Assign random color scheme to CMFD cells *)
  let num_cmfd_cells := getNumCells cmfd in
  do fsrs_to_cmfd_cells <- _colorize fsrs_to_cmfd_cells num_cmfd_cells 1;
  (* Plot the CMFD cells *)
  let title := "CMFD cells" in
  let filename := "cmfd-cells.png" in
  plot_spatial_data geometry (Some (NdInt fsrs_to_cmfd_cells)) false false
    (PyFloat zcoord) gridsize xlim ylim false (PyStr title) PyNone
    (PyStr filename) None None PyNone PyNone false ;;
  ret tt.

(** *** [plot_fission_rates] (lines 658-677)

    [computeFSRFissionRates] is the solver's method of that name. *)
Definition plot_fission_rates (solver : Solver)
    (computeFSRFissionRates : Z -> list float) (norm transparent_zeros : bool)
    (gridsize : pyval) (xlim ylim : option (float * float)) : M unit :=
  when (negb (contains "Solver" (solver_type solver)))
    (py_printf "ERROR"
       "Unable to plot the fission rates since input did not contain a solver class object") ;;
  py_printf "NORMAL" "Plotting the flat source region fission rates..." ;;
  (* Compute the volume-weighted fission rates for each FSR *)
  let geometry := getGeometry solver in
  let fission_rates := computeFSRFissionRates (getNumFSRs geometry) in
  let zcoord := getFSRPointZ geometry in
  (* Plot the fission rates *)
  let suptitle := "Flat Source Region Fission Rates" in
  let title := ("z = " ++ str_float zcoord)%string in
  let filename := ("fission-rates-z-" ++ str_float zcoord ++ ".png")%string in
  plot_spatial_data geometry (Some (NdFloat fission_rates)) norm
    transparent_zeros (PyFloat zcoord) gridsize xlim ylim true (PyStr title)
    (PyStr suptitle) (PyStr filename) None None PyNone PyNone false ;;
  ret tt.

(** *** [plot_flat_source_regions] (lines 331-396) *)

(** [marker_size <= 0] on a number. *)
Definition nonpositive (v : pyval) : M bool :=
  match v with
  | PyInt z => ret (z <=? 0)
  | PyFloat f => ret (Float64.leb f Float64.zero)
  | _ => raise TypeError
  end.

(** [valid_markers] are the keys of [matplotlib.markers.MarkerStyle().markers]
    and [getFSRCentroid] the geometry's method of that name, as the point's
    x and y.  The value returned is what the call has [plt.scatter] draw on
    top of the figure, if anything. *)
Definition plot_flat_source_regions (valid_markers : list string)
    (geometry : Geometry) (getFSRCentroid : Z -> float * float)
    (gridsize : pyval) (xlim ylim : option (float * float))
    (centroids : pybool) (marker_type marker_size : pyval) : M (option scatter) :=
  do w <- get;
  let directory := (output_directory w ++ subdirectory w)%string in
  (* Error checking *)
  when (negb (contains "Geometry" (geometry_type geometry)))
    (py_printf "ERROR"
       "Unable to plot the flat source regions since %s input is not a Geometry class object") ;;
  do centroids <-
    match centroids with
    | PyBool b => ret b
    | NotBool _ =>
        py_printf "ERROR"
          "Unable to plot the flat source regions since centroids is not a boolean" ;;
        raise TypeError
    end;
  do marker <-
    match marker_type with
    | PyStr s => ret s
    | _ =>
        py_printf "ERROR"
          "Unable to plot the flat source regions since marker_type is a string" ;;
        raise TypeError
    end;
  when (negb (existsb (String.eqb marker) valid_markers))
    (py_printf "ERROR"
       "Unable to plot the flat source regions since marker_type is not a valid marker (%d)") ;;
  when (negb (is_float marker_size) && negb (is_integer marker_size))
    (py_printf "ERROR"
       "Unable to plot the flat source regions since marker_size is not an int or float") ;;
  do too_small <- nonpositive marker_size;
  when too_small
    (py_printf "ERROR"
       "Unable to plot the flat source regions with a negative marker_size (%d)") ;;
  when (getNumFSRs geometry =? 0)
    (py_printf "ERROR"
       "Unable to plot the flat source regions since no tracks have been generated.") ;;
  py_printf "NORMAL" "Plotting the flat source regions..." ;;
  (* Get the Geometry's z-coord *)
  let zcoord := getFSRPointZ geometry in
  let num_fsrs := getNumFSRs geometry in
  let fsrs_to_fsrs := arange num_fsrs in
  do fsrs_to_fsrs <- _colorize fsrs_to_fsrs num_fsrs 1;
  (* Plot a 2D color map of the flat source regions *)
  let suptitle := "Flat Source Regions" in
  let title := ("z = " ++ str_float zcoord)%string in
  let filename := ("flat-source-regions-z-" ++ str_float zcoord ++ ".png")%string in
  do fig <- plot_spatial_data geometry (Some (NdInt fsrs_to_fsrs)) false false
              (PyFloat zcoord) gridsize xlim ylim false (PyStr title)
              (PyStr suptitle) (PyStr filename) (Some "nearest")
              (Some "spectral") (PyInt 0) (PyInt num_fsrs) true;
  do fig <- from_option TypeError fig;
  (* Plot centroids on top of 2D flat source region color map *)
  let drawn :=
    if centroids then
      Some {| scatter_points := map getFSRCentroid (arange num_fsrs);
              scatter_marker := marker;
              scatter_size := marker_size |}
    else None in
  (* Set the plot title and save the figure *)
  savefig (directory ++ filename) ;;
  emit EvClose ;;
  ret drawn.

End SurfacePlots.


Module Demo2.

(** The cells of the demonstration geometry: cell 7 holds region 0 and
    cell 3 holds region 1. *)
Definition cells : Cells :=
  {| getFSRCellId := fun fsr => if fsr =? 0 then 7 else 3;
     getAllMaterialCells := [3; 7] |}.

(** A geometry one of whose regions is filled with a material (30) that is
    missing from the list of all materials. *)
Definition geometry_unlisted : Geometry :=
  {| geometry_type := geometry_type Demo.geometry;
     getMinX := getMinX Demo.geometry; getMaxX := getMaxX Demo.geometry;
     getMinY := getMinY Demo.geometry; getMaxY := getMaxY Demo.geometry;
     getMinZ := getMinZ Demo.geometry; getMaxZ := getMaxZ Demo.geometry;
     getNumFSRs := 2;
     getNumEnergyGroups := 1;
     getFSRId := getFSRId Demo.geometry;
     getFSRPointZ := Float64.zero;
     getFSRMaterialId := fun fsr => if fsr =? 0 then 10 else 30;
     getAllMaterials := [10; 20] |}.

(** A mesh of two cells: region 0 lies in cell 1 and region 1 in cell 0. *)
Definition cmfd : Cmfd :=
  {| cmfd_type := "<class 'openmoc.openmoc.Cmfd'>";
     convertFSRIdToCmfdCell := fun fsr => if fsr =? 0 then 1 else 0;
     getNumCells := 2 |}.

End Demo2.


(** ** What the validation of [plot_flat_source_regions] accepts *)

(** Every check of lines 338-364 passes: a Geometry with at least one
    region, a boolean [centroids], a marker Matplotlib knows, and a marker
    size that is a number and not [<= 0]. *)
Definition markers_ok (valid_markers : list string) (geometry : Geometry)
    (centroids : pybool) (marker_type marker_size : pyval) : bool :=
  contains "Geometry" (geometry_type geometry)
  && match centroids with PyBool _ => true | NotBool _ => false end
  && match marker_type with
     | PyStr s => existsb (String.eqb s) valid_markers
     | _ => false
     end
  && match marker_size with
     | PyInt z => negb (z <=? 0)
     | PyFloat f => negb (Float64.leb f Float64.zero)
     | _ => false
     end
  && negb (getNumFSRs geometry =? 0).


(** ** Properties of the world that a computation keeps *)

Section Stable.
Context {R : Runtime}.

(** Started in a world with the property [P], the computation [c] ends, by
    returning or by raising, in a world with [P]. *)
Definition stable {A} (P : world -> Prop) (c : M A) : Prop :=
  forall w r w', c w = (r, w') -> P w -> P w'.

End Stable.


(** ** The eigenmodes a sweep is asked for *)

(** An integer in [1, num_modes] (lines 722-732). *)
Definition mode_ok (num_modes : Z) (mode : pyval) : bool :=
  match mode with
  | PyInt m => (0 <? m) && (m <=? num_modes)
  | _ => false
  end.

(** The modes that a call with the argument [eigenmodes] goes through: all
    of them, 1 to [num_modes], for an empty sequence (lines 715-719);
    [None] when the argument is not a sequence. *)
Definition requested_modes (num_modes : Z) (eigenmodes : pyseq pyval)
  : option (list pyval) :=
  match eigenmodes with
  | SeqOf [] => Some (map (fun k => PyInt (k + 1)) (arange num_modes))
  | SeqOf l => Some l
  | _ => None
  end.

(** The flux array that the sweep hands to the solver for the mode [mode]
    (lines 747-758). *)
Definition mode_fluxes (iramsolver : IRAMSolver) (mode : Z) : list float :=
  let eigenvec := _eigenvectors iramsolver (mode - 1) in
  if mode =? 1 then map SFabs eigenvec else eigenvec.


(** ** The regions an energy plot is asked for *)

(** An integer in [0, num_fsrs) (lines 544-554). *)
Definition fsr_ok (num_fsrs : Z) (fsr : pyval) : bool :=
  match fsr with
  | PyInt f => (0 <=? f) && (f <? num_fsrs)
  | _ => false
  end.


Module Demo3.

(** Fission in region 1 only. *)
Definition fission_rates (num_fsrs : Z) : list float :=
  [Float64.zero; Float64.of_Z 3].

(** A world in which the solver holds the fluxes 5.0 and 7.0 of the two
    regions in the single energy group. *)
Definition world_fluxes : @world Demo.runtime :=
  set_solver_fluxes [Float64.of_Z 5; Float64.of_Z 7] Demo.world0.

End Demo3.


(** ** The images in a trace *)

Definition is_imshow (e : event) : bool :=
  match e with EvImshow _ => true | _ => false end.


(** ** The step plot of [plot_energy_fluxes] (lines 589-629)

    The bounds are an array of integers (the default, [np.arange]) or of
    floats; [bound] is its element type and [sub] the subtraction on it. *)

Section EnergySteps.
Context {bound : Type} (sub : bound -> bound -> bound).

(** [np.ediff1d(a)]: the differences of consecutive elements. *)
Definition ediff1d (a : list bound) : list bound :=
  zip_with (fun low up => sub up low) a (drop 1 a).

(** [np.flipud] of a one-dimensional array. *)
Definition flipud1 {A} (a : list A) : list A := rev a.

(** [a[start:stop]] for [0 <= start <= stop]. *)
Definition slice {A} (a : list A) (start stop : nat) : list A :=
  take (stop - start) (drop start a).

(** Lines 590-592: the widths of the groups, and bounds and widths turned
    around. *)
Definition flipped_bounds_and_deltas (group_bounds : list bound)
  : list bound * list bound :=
  (* Compute difference in energy bounds for each group *)
  let group_deltas := ediff1d group_bounds in
  let group_bounds := flipud1 group_bounds in
  let group_deltas := flipud1 group_deltas in
  (group_bounds, group_deltas).

(** A call of [plt.plot] or [plt.loglog]: its x and y arguments and its
    line style. *)
Record plotted_line := {
  line_x : list bound;
  line_y : list float;
  line_style : string }.

(** The lines of the iterations of a loop, one after the other; [None] when
    an iteration fails. *)
Fixpoint collect {A B} (body : A -> option (list B)) (l : list A)
  : option (list B) :=
  match l with
  | [] => Some []
  | a :: l' =>
      match body a with
      | Some lines =>
          match collect body l' with
          | Some rest => Some (lines ++ rest)
          | None => None
          end
      | None => None
      end
  end.

(** Lines 612-629: the lines drawn for one region, whose fluxes per group
    are [fluxes]; [None] stands for the IndexError of [fluxes[group]] or
    [group_bounds[group+1]]. *)
Definition step_lines (group_bounds : list bound) (fluxes : list float)
    (num_groups : nat) : option (list plotted_line) :=
  collect
    (fun group =>
       match fluxes !! group with
       | Some flux =>
           (* Horizontal line *)
           let horizontal :=
             {| line_x := slice group_bounds group (group + 2);
                line_y := replicate 2 flux;
                line_style := "-" |} in
           (* Vertical lines *)
           if decide (group < num_groups - 1)%nat then
             match group_bounds !! (group + 1)%nat with
             | Some edge =>
                 Some [horizontal;
                       {| line_x := replicate 2 edge;
                          line_y := slice fluxes group (group + 2);
                          line_style := "--" |}]
             | None => None
             end
           else Some [horizontal]
       | None => None
       end)
    (seq 0 num_groups).

End EnergySteps.


(* ===================================================================== *)
(** * Part II: properties                                                  *)
(* ===================================================================== *)

(** Membership in a list extended at its end. *)
Ltac elem_solver :=
  repeat match goal with
         | H : _ /\ _ |- _ => destruct H
         | H : _ ∈ _ ++ _ |- _ => apply elem_of_app in H; destruct H
         | H : _ ∈ [_] |- _ => apply list_elem_of_singleton in H
         end;
  subst;
  match goal with
  | H : ~ (_ /\ _) |- _ =>
      apply H; split;
      first [ assumption | reflexivity
            | apply elem_of_app; left; assumption
            | apply elem_of_app; right; apply list_elem_of_singleton; reflexivity ]
  end.

(** ** The monad *)

Section MonadFacts.
Context {R : Runtime}.

Lemma bind_ok {A B} (c : M A) (k : A -> M B) (w w' : world) (a : A) :
  c w = (Ok a, w') -> bind c k w = k a w'.
Proof. intros H. unfold bind. now rewrite H. Qed.

Lemma bind_raise {A B} (c : M A) (k : A -> M B) (w w' : world) (e : exn) :
  c w = (Raise e, w') -> bind c k w = (Raise e, w').
Proof. intros H. unfold bind. now rewrite H. Qed.

Lemma bind_ok_inv {A B} (c : M A) (k : A -> M B) (w w'' : world) (b : B) :
  bind c k w = (Ok b, w'') ->
  exists a w', c w = (Ok a, w') /\ k a w' = (Ok b, w'').
Proof.
  unfold bind. destruct (c w) as [[a|e] w'] eqn:Hc; intros H.
  - now exists a, w'.
  - discriminate.
Qed.

(** A loop whose body keeps an invariant of the iterations done so far
    runs to its end and establishes the invariant for the whole list. *)
Lemma foldM_invariant {A S} (body : S -> A -> M S)
    (Inv : list A -> S -> world -> Prop) (l : list A) :
  (forall done a rest s w,
      l = done ++ a :: rest -> Inv done s w ->
      exists s' w', body s a w = (Ok s', w') /\ Inv (done ++ [a]) s' w') ->
  forall s w, Inv [] s w ->
  exists s' w', foldM body l s w = (Ok s', w') /\ Inv l s' w'.
Proof.
  intros Hstep.
  assert (G : forall rest done s w,
             l = done ++ rest -> Inv done s w ->
             exists s' w', foldM body rest s w = (Ok s', w') /\ Inv l s' w').
  { induction rest as [|a rest IH]; intros done s w Hl HI.
    - exists s, w. split; [reflexivity|]. rewrite Hl, app_nil_r. exact HI.
    - destruct (Hstep done a rest s w Hl HI) as (s1 & w1 & Hb & HI1).
      destruct (IH (done ++ [a]) s1 w1) as (s2 & w2 & Hf & HI2).
      + rewrite Hl, <- app_assoc. reflexivity.
      + exact HI1.
      + exists s2, w2. split; [|exact HI2].
        cbn [foldM]. rewrite (bind_ok _ _ _ _ _ Hb). exact Hf. }
  intros s w HI. apply (G l [] s w); [reflexivity | exact HI].
Qed.

End MonadFacts.

(** ** Worlds and traces *)

Section WorldFacts.
Context {R : Runtime}.

Lemma add_events_nil (w : world) : add_events [] w = w.
Proof. destruct w. unfold add_events. cbn. now rewrite app_nil_r. Qed.

Lemma add_event_events (e : event) (w : world) : add_event e w = add_events [e] w.
Proof. reflexivity. Qed.

Lemma add_events_app (l1 l2 : list event) (w : world) :
  add_events l2 (add_events l1 w) = add_events (l1 ++ l2) w.
Proof. unfold add_events. cbn. now rewrite app_assoc. Qed.

Lemma emit_run (e : event) (w : world) : emit e w = (Ok tt, add_events [e] w).
Proof. reflexivity. Qed.

End WorldFacts.

(** ** The rasterization loop *)

Section Rasterize.
Context {R : Runtime}.
Variables (geometry : Geometry) (fsrs_to_data : ndarray) (zcoord : float).
Variable c : coords.

Lemma entry_setitem2 (surface : list (list float)) (j i : nat) (v : float) (w : world) :
  is_Some (entry surface j i) ->
  exists surface',
    setitem2 surface j i v w = (Ok surface', w) /\
    forall j' i', entry surface' j' i' =
                  if decide (j' = j /\ i' = i) then Some v else entry surface j' i'.
Proof.
  unfold entry, setitem2. intros [v0 Hv].
  destruct (surface !! j) as [row|] eqn:Hrow; [|discriminate].
  assert (Hi : (i < length row)%nat) by (eapply lookup_lt_Some; eauto).
  assert (Hj : (j < length surface)%nat) by (eapply lookup_lt_Some; eauto).
  destruct (decide (i < length row)%nat) as [_|]; [|contradiction].
  eexists. split; [reflexivity|]. intros j' i'.
  destruct (decide (j' = j)) as [->|Hne].
  - rewrite list_lookup_insert_eq by exact Hj.
    destruct (decide (i' = i)) as [->|Hni].
    + rewrite list_lookup_insert_eq by exact Hi.
      destruct (decide (j = j /\ i = i)) as [_|n]; [reflexivity|tauto].
    + rewrite list_lookup_insert_ne by congruence.
      destruct (decide (j = j /\ i' = i)) as [[_ ?]|_]; [contradiction|].
      now rewrite Hrow.
  - rewrite list_lookup_insert_ne by congruence.
    destruct (decide (j' = j /\ i' = i)) as [[? _]|_]; [contradiction|reflexivity].
Qed.

(** One execution of the loop body. *)
Lemma sample_run (i j : nat) (x y v : float) (surface : list (list float)) (w : world) :
  coords_y c !! i = Some x ->
  coords_x c !! j = Some y ->
  pixel_value geometry fsrs_to_data zcoord x y = Some v ->
  is_Some (entry surface j i) ->
  exists surface',
    sample geometry fsrs_to_data zcoord c i surface j w
    = (Ok surface', add_events [EvQuery x y zcoord] w) /\
    forall j' i', entry surface' j' i' =
                  if decide (j' = j /\ i' = i) then Some v else entry surface j' i'.
Proof.
  intros Hx Hy Hv Hs. unfold sample. rewrite Hx, Hy. cbn [from_option].
  unfold pixel_value in Hv.
  destruct (entry_setitem2 surface j i v (add_events [EvQuery x y zcoord] w) Hs)
    as (s' & Hset & Hent).
  exists s'. split; [|exact Hent].
  unfold bind at 1. cbn [ret]. unfold bind at 1. cbn [ret].
  unfold bind at 1. rewrite emit_run.
  destruct (getFSRId geometry x y zcoord) as [k|].
  - rewrite Hv. cbn [from_option]. unfold bind, ret. exact Hset.
  - injection Hv as <-. exact Hset.
Qed.

Lemma map_nth_seq {A B} (f : A -> B) (d : A) (l : list A) :
  map (fun k => f (nth k l d)) (seq 0 (length l)) = map f l.
Proof.
  induction l as [|a l IH]; [reflexivity|].
  cbn [length seq map nth]. f_equal.
  rewrite <- seq_shift, map_map. exact IH.
Qed.

Lemma nth_lookup_Some {A} (l : list A) (k : nat) (d a : A) :
  l !! k = Some a -> nth k l d = a.
Proof.
  revert k. induction l as [|b l IH]; intros [|k] H; try discriminate.
  - now injection H.
  - cbn. now apply IH.
Qed.

Lemma seq_split_elem (g : nat) (done rest : list nat) (a : nat) :
  seq 0 g = done ++ a :: rest -> (a < g)%nat.
Proof.
  intros H. assert (Ha : a ∈ seq 0 g).
  { rewrite H. apply elem_of_app. right. apply elem_of_cons. now left. }
  apply elem_of_seq in Ha. lia.
Qed.

Local Abbreviation pix := (pixel_at geometry fsrs_to_data zcoord c).

(** The loop over [j] for one [i]. *)
Lemma inner_loop_run (g i : nat) (x : float)
    (surface0 : list (list float)) (w0 : world) :
  coords_y c !! i = Some x ->
  length (coords_x c) = g ->
  (forall j, (j < g)%nat -> is_Some (pix i j)) ->
  (forall j, (j < g)%nat -> is_Some (entry surface0 j i)) ->
  exists surface',
    foldM (sample geometry fsrs_to_data zcoord c i) (seq 0 g) surface0 w0
    = (Ok surface',
       add_events (map (fun y => EvQuery x y zcoord) (coords_x c)) w0) /\
    forall j' i', entry surface' j' i' =
                  if decide (i' = i /\ (j' < g)%nat) then pix i j'
                  else entry surface0 j' i'.
Proof.
  intros Hx Hlen Hpix Hgrid.
  pose (ev := fun j => EvQuery x (nth j (coords_x c) Float64.zero) zcoord).
  pose (Inv := fun (done : list nat) (s : list (list float)) (w : world) =>
    w = add_events (map ev done) w0 /\
    forall j' i', entry s j' i' =
                  if decide (i' = i /\ j' ∈ done) then pix i j'
                  else entry surface0 j' i').
  destruct (foldM_invariant (sample geometry fsrs_to_data zcoord c i) Inv (seq 0 g))
    with (s := surface0) (w := w0) as (s' & w' & Hrun & Hw & Hent).
  - intros done a rest s w Hsplit [Hw Hent].
    assert (Ha : (a < g)%nat) by (eapply seq_split_elem; eauto).
    destruct (lookup_lt_is_Some_2 (coords_x c) a) as [y Hy]; [lia|].
    destruct (Hpix a Ha) as [v Hv].
    assert (Hpv : pixel_value geometry fsrs_to_data zcoord x y = Some v).
    { unfold pixel_at in Hv. now rewrite Hx, Hy in Hv. }
    assert (Hs : is_Some (entry s a i)).
    { rewrite Hent. destruct (decide (i = i /\ a ∈ done)); [now apply Hpix | now apply Hgrid]. }
    destruct (sample_run i a x y v s w Hx Hy Hpv Hs) as (s1 & Hrun & Hent1).
    exists s1, (add_events [EvQuery x y zcoord] w). split; [exact Hrun|]. split.
    + rewrite Hw, add_events_app, map_app. cbn [map]. unfold ev.
      now rewrite (nth_lookup_Some _ _ _ _ Hy).
    + intros j' i'. rewrite Hent1, Hent.
      repeat case_decide; try reflexivity.
      * destruct_and!. subst. now symmetry.
      * exfalso. elem_solver.
      * exfalso. elem_solver.
      * exfalso. elem_solver.
  - split; [now rewrite add_events_nil|]. intros j' i'.
    destruct (decide (i' = i /\ j' ∈ [])) as [[_ Hin]|_]; [|reflexivity].
    now apply elem_of_nil in Hin.
  - exists s'. split.
    + rewrite Hrun, Hw. f_equal. f_equal. unfold ev. rewrite <- Hlen.
      apply (map_nth_seq (fun y => EvQuery x y zcoord)).
    + intros j' i'. rewrite Hent.
      repeat case_decide; try reflexivity; exfalso; destruct_and?.
      * match goal with H : ~ _ |- _ => apply H end.
        split; [assumption|]. match goal with H : _ ∈ seq _ _ |- _ => apply elem_of_seq in H end. lia.
      * match goal with H : ~ _ |- _ => apply H end.
        split; [assumption|]. apply elem_of_seq. lia.
Qed.

(** The two nested loops: they run to the end, issue one query per grid
    point and leave [pixel_at i j] at [surface[j][i]]. *)
Lemma rasterize_run (g : nat) (surface0 : list (list float)) (w0 : world) :
  length (coords_x c) = g ->
  length (coords_y c) = g ->
  (forall i j, (i < g)%nat -> (j < g)%nat -> is_Some (pix i j)) ->
  (forall i j, (i < g)%nat -> (j < g)%nat -> is_Some (entry surface0 j i)) ->
  exists surface',
    rasterize geometry fsrs_to_data zcoord c g surface0 w0
    = (Ok surface',
       add_events (sweep_queries (coords_y c) (coords_x c) zcoord) w0) /\
    forall i j, (i < g)%nat -> (j < g)%nat ->
                entry surface' j i = pix i j.
Proof.
  intros Hlx Hly Hpix Hgrid. unfold rasterize.
  pose (ev := fun i => map (fun y => EvQuery (nth i (coords_y c) Float64.zero) y zcoord)
                           (coords_x c)).
  pose (Inv := fun (done : list nat) (s : list (list float)) (w : world) =>
    w = add_events (flat_map ev done) w0 /\
    forall j' i', entry s j' i' =
                  if decide (i' ∈ done /\ (j' < g)%nat) then pix i' j'
                  else entry surface0 j' i').
  destruct (foldM_invariant
              (fun surface i => foldM (sample geometry fsrs_to_data zcoord c i)
                                      (seq 0 g) surface)
              Inv (seq 0 g))
    with (s := surface0) (w := w0) as (s' & w' & Hrun & Hw & Hent).
  - intros done a rest s w Hsplit [Hw Hent].
    assert (Ha : (a < g)%nat) by (eapply seq_split_elem; eauto).
    destruct (lookup_lt_is_Some_2 (coords_y c) a) as [x Hx]; [lia|].
    destruct (inner_loop_run g a x s w Hx Hlx) as (s1 & Hrun & Hent1).
    + intros j Hj. now apply Hpix.
    + intros j Hj. rewrite Hent.
      destruct (decide (a ∈ done /\ (j < g)%nat)); [now apply Hpix | now apply Hgrid].
    + eexists _, _. split; [exact Hrun|]. split.
      * rewrite Hw, add_events_app, flat_map_app. cbn [flat_map]. rewrite app_nil_r.
        unfold ev. now rewrite (nth_lookup_Some _ _ _ _ Hx).
      * intros j' i'. rewrite Hent1, Hent.
        repeat case_decide; try reflexivity.
        -- destruct_and!. subst. reflexivity.
        -- exfalso. elem_solver.
        -- exfalso. elem_solver.
        -- exfalso. elem_solver.
  - split; [now rewrite add_events_nil|]. intros j' i'.
    destruct (decide (i' ∈ [] /\ (j' < g)%nat)) as [[Hin _]|_]; [|reflexivity].
    now apply elem_of_nil in Hin.
  - exists s'. split.
    + rewrite Hrun, Hw. f_equal. f_equal. unfold sweep_queries.
      rewrite <- Hly at 1.
      rewrite !flat_map_concat_map. f_equal. unfold ev.
      apply (map_nth_seq (fun x => map (fun y => EvQuery x y zcoord) (coords_x c))).
    + intros i j Hi Hj. rewrite Hent.
      destruct (decide (i ∈ seq 0 g /\ (j < g)%nat)) as [_|n]; [reflexivity|].
      exfalso. apply n. split; [|exact Hj]. apply elem_of_seq. lia.
Qed.

(** When every id the geometry returns on the grid indexes the data array,
    every grid point has a value. *)
Lemma pixel_at_defined (g : nat) :
  length (coords_x c) = g ->
  length (coords_y c) = g ->
  (forall i j x y k,
      coords_y c !! i = Some x -> coords_x c !! j = Some y ->
      getFSRId geometry x y zcoord = Some k -> is_Some (getitem fsrs_to_data k)) ->
  forall i j, (i < g)%nat -> (j < g)%nat -> is_Some (pix i j).
Proof.
  intros Hlx Hly Hids i j Hi Hj. unfold pixel_at.
  destruct (lookup_lt_is_Some_2 (coords_y c) i) as [x Hx]; [lia|].
  destruct (lookup_lt_is_Some_2 (coords_x c) j) as [y Hy]; [lia|].
  rewrite Hx, Hy. unfold pixel_value.
  destruct (getFSRId geometry x y zcoord) as [k|] eqn:Hk; [|eauto].
  eapply Hids; eauto.
Qed.

Lemma entry_zeros2 (g i j : nat) :
  (i < g)%nat -> (j < g)%nat -> entry (zeros2 g) j i = Some Float64.zero.
Proof.
  intros Hi Hj. unfold entry, zeros2.
  rewrite lookup_replicate_2 by exact Hj. now apply lookup_replicate_2.
Qed.

End Rasterize.

(** *** The loop on the pixel grid of [_get_pixel_coords] *)

Section RasterizeGrid.
Context {R : Runtime}.

Lemma length_linspace (start stop : float) (num : Z) :
  length (linspace start stop num) = Z.to_nat num.
Proof.
  unfold linspace.
  destruct (Z.leb_spec num 0); [cbn; lia|].
  destruct (Z.eqb_spec num 1) as [->|Hne]; [reflexivity|].
  unfold arange. rewrite length_app, !length_map, length_seq. cbn. lia.
Qed.

Lemma length_pixel_coords (geometry : Geometry) (gridsize : Z)
    (xlim ylim : option (float * float)) :
  length (coords_x (_get_pixel_coords geometry gridsize xlim ylim)) = Z.to_nat gridsize /\
  length (coords_y (_get_pixel_coords geometry gridsize xlim ylim)) = Z.to_nat gridsize.
Proof.
  unfold _get_pixel_coords.
  destruct xlim as [[? ?]|], ylim as [[? ?]|]; cbn [coords_x coords_y];
    now rewrite !length_linspace.
Qed.

(** C10: in the rasterization loop of [plot_spatial_data] the point sampled
    for the index pair (i, j) has the i-th entry of the y-coordinate
    sequence as its x-coordinate and the j-th entry of the x-coordinate
    sequence as its y-coordinate, and its value is stored at surface[j][i].
    The loops issue the queries [(coords['y'][i], coords['x'][j], z)] with
    [i] outermost, and the surface holds at row [j], column [i] the value of
    that point. *)
Theorem rasterize_swaps_axes (geometry : Geometry) (fsrs_to_data : ndarray)
    (zcoord : float) (gridsize : Z) (xlim ylim : option (float * float))
    (w : world) :
  let coords := _get_pixel_coords geometry gridsize xlim ylim in
  (forall i j x y k,
      coords_y coords !! i = Some x -> coords_x coords !! j = Some y ->
      getFSRId geometry x y zcoord = Some k -> is_Some (getitem fsrs_to_data k)) ->
  exists surface,
    rasterize geometry fsrs_to_data zcoord coords (Z.to_nat gridsize)
              (zeros2 (Z.to_nat gridsize)) w
    = (Ok surface,
       add_events
         (flat_map (fun x => map (fun y => EvQuery x y zcoord) (coords_x coords))
                   (coords_y coords)) w) /\
    forall i j x y,
      coords_y coords !! i = Some x -> coords_x coords !! j = Some y ->
      entry surface j i = pixel_value geometry fsrs_to_data zcoord x y.
Proof.
  intros c Hids.
  destruct (length_pixel_coords geometry gridsize xlim ylim) as [Hlx Hly].
  fold c in Hlx, Hly.
  destruct (rasterize_run geometry fsrs_to_data zcoord c (Z.to_nat gridsize)
              (zeros2 (Z.to_nat gridsize)) w Hlx Hly) as (surface & Hrun & Hent).
  - now apply pixel_at_defined.
  - intros i j Hi Hj. rewrite entry_zeros2 by assumption. eauto.
  - exists surface. split; [exact Hrun|].
    intros i j x y Hx Hy.
    assert (Hi : (i < Z.to_nat gridsize)%nat)
      by (rewrite <- Hly; eapply lookup_lt_Some; eauto).
    assert (Hj : (j < Z.to_nat gridsize)%nat)
      by (rewrite <- Hlx; eapply lookup_lt_Some; eauto).
    rewrite (Hent i j Hi Hj). unfold pixel_at. now rewrite Hx, Hy.
Qed.

(** C1: in the rasterization loop of [plot_spatial_data], a grid sample for
    which the geometry finds no region does not make the loop raise, and the
    surface entry of that sample is the sentinel -1, whatever the data
    array holds. *)
Theorem rasterize_gap_is_sentinel (geometry : Geometry) (fsrs_to_data : ndarray)
    (zcoord : float) (gridsize : Z) (xlim ylim : option (float * float))
    (w : world) :
  let coords := _get_pixel_coords geometry gridsize xlim ylim in
  (forall i j x y k,
      coords_y coords !! i = Some x -> coords_x coords !! j = Some y ->
      getFSRId geometry x y zcoord = Some k -> is_Some (getitem fsrs_to_data k)) ->
  exists surface w',
    rasterize geometry fsrs_to_data zcoord coords (Z.to_nat gridsize)
              (zeros2 (Z.to_nat gridsize)) w = (Ok surface, w') /\
    forall i j x y,
      coords_y coords !! i = Some x -> coords_x coords !! j = Some y ->
      getFSRId geometry x y zcoord = None ->
      entry surface j i = Some Float64.neg_one.
Proof.
  intros c Hids.
  destruct (length_pixel_coords geometry gridsize xlim ylim) as [Hlx Hly].
  fold c in Hlx, Hly.
  destruct (rasterize_run geometry fsrs_to_data zcoord c (Z.to_nat gridsize)
              (zeros2 (Z.to_nat gridsize)) w Hlx Hly) as (surface & Hrun & Hent).
  - now apply pixel_at_defined.
  - intros i j Hi Hj. rewrite entry_zeros2 by assumption. eauto.
  - exists surface. eexists. split; [exact Hrun|].
    intros i j x y Hx Hy Hgap.
    assert (Hi : (i < Z.to_nat gridsize)%nat)
      by (rewrite <- Hly; eapply lookup_lt_Some; eauto).
    assert (Hj : (j < Z.to_nat gridsize)%nat)
      by (rewrite <- Hlx; eapply lookup_lt_Some; eauto).
    rewrite (Hent i j Hi Hj). unfold pixel_at, pixel_value.
    now rewrite Hx, Hy, Hgap.
Qed.

End RasterizeGrid.

(** The loop on the demonstration geometry: a 3 x 3 grid over the box. *)
Lemma demo_ids_valid (i j : nat) (x y : float) (k : Z) :
  coords_y Demo.grid3 !! i = Some x -> coords_x Demo.grid3 !! j = Some y ->
  getFSRId Demo.geometry x y Float64.zero = Some k ->
  is_Some (getitem Demo.data k).
Proof.
  intros _ _. cbn [getFSRId Demo.geometry].
  destruct (Float64.ltb Float64.one y); [discriminate|].
  destruct (Float64.ltb x Float64.zero); intros [= <-]; vm_compute; eauto.
Qed.

Lemma rasterize_swaps_axes_witness :
  exists surface,
    rasterize (R := Demo.runtime) Demo.geometry Demo.data Float64.zero
              Demo.grid3 3 (zeros2 3) Demo.world0
    = (Ok surface,
       add_events
         (flat_map (fun x => map (fun y => EvQuery x y Float64.zero)
                                 (coords_x Demo.grid3))
                   (coords_y Demo.grid3)) Demo.world0) /\
    forall i j x y,
      coords_y Demo.grid3 !! i = Some x -> coords_x Demo.grid3 !! j = Some y ->
      entry surface j i = pixel_value Demo.geometry Demo.data Float64.zero x y.
Proof.
  apply (rasterize_swaps_axes (R := Demo.runtime) Demo.geometry Demo.data
           Float64.zero 3 None None Demo.world0).
  exact demo_ids_valid.
Defined.

Lemma rasterize_gap_is_sentinel_witness :
  exists surface w',
    rasterize (R := Demo.runtime) Demo.geometry Demo.data Float64.zero
              Demo.grid3 3 (zeros2 3) Demo.world0 = (Ok surface, w') /\
    forall i j x y,
      coords_y Demo.grid3 !! i = Some x -> coords_x Demo.grid3 !! j = Some y ->
      getFSRId Demo.geometry x y Float64.zero = None ->
      entry surface j i = Some Float64.neg_one.
Proof.
  apply (rasterize_gap_is_sentinel (R := Demo.runtime) Demo.geometry Demo.data
           Float64.zero 3 None None Demo.world0).
  exact demo_ids_valid.
Defined.

(** The 3 x 3 surface of the demonstration geometry: the samples of the top
    row of the box lie above y = 1, outside every region. *)
Example demo_surface :
  fst (rasterize (R := Demo.runtime) Demo.geometry Demo.data Float64.zero
         Demo.grid3 3 (zeros2 3) Demo.world0)
  = Ok [[Float64.of_Z 5; Float64.of_Z 7; Float64.of_Z 7];
        [Float64.of_Z 5; Float64.of_Z 7; Float64.of_Z 7];
        [Float64.neg_one; Float64.neg_one; Float64.neg_one]].
Proof. vm_compute. reflexivity. Qed.

(** ** Pre-flight validation of [plot_spatial_data] *)

Section Validation.
Context {R : Runtime}.

Lemma filter_app_single {A} (P : A -> bool) (l : list A) (a : A) :
  P a = false -> List.filter P (l ++ [a]) = List.filter P l.
Proof.
  intros H. rewrite List.filter_app. cbn. rewrite H. apply app_nil_r.
Qed.

Lemma last_app_single {A} (l : list A) (a : A) : last (l ++ [a]) = Some a.
Proof. apply last_snoc. Qed.

Lemma py_printf_error (msg : string) (w : world) :
  py_printf "ERROR" msg w = (Raise (LogError msg), add_events [EvLog "ERROR" msg] w).
Proof. reflexivity. Qed.

Lemma py_printf_normal (msg : string) (w : world) :
  py_printf "NORMAL" msg w = (Ok tt, add_events [EvLog "NORMAL" msg] w).
Proof. reflexivity. Qed.

(** The directory is there already, or it is created, or creating it
    fails. *)
Lemma make_directory_run (d : string) (w : world) :
  (exists w1, make_directory d w = (Ok tt, w1) /\
              (w1 = w \/ w1 = add_event (EvMakedirs d) (add_dir d w)) /\
              existsb (String.eqb d) (dirs w) || disk_ok w d = true) \/
  (make_directory d w = (Raise (IOError d), w) /\
   existsb (String.eqb d) (dirs w) || disk_ok w d = false).
Proof.
  unfold make_directory, bind, get.
  destruct (existsb (String.eqb d) (dirs w)).
  - left. exists w. auto.
  - destruct (disk_ok w d) eqn:Hd.
    + left. eexists. split; [reflexivity|]. split; [right; reflexivity|reflexivity].
    + right. split; reflexivity.
Qed.

(** C7: a call whose [fsrs_to_data] array has a length other than the
    geometry's number of flat source regions ends in an error raised by the
    validation code, before any grid point is sampled and before anything is
    drawn: the trace gains no geometry query and no figure call.  Unless
    creating the output directory itself fails, the error is the one logged
    at level ERROR. *)
Theorem plot_spatial_data_rejects_wrong_length
    (geometry : Geometry) (data : ndarray) (norm transparent_zeros : bool)
    (zcoord gridsize : pyval) (xlim ylim : option (float * float))
    (colorbar : bool) (title suptitle filename : pyval)
    (interpolation cmap : option string) (vmin vmax : pyval)
    (get_figure : bool) (w : world) :
  ndarray_len data <> getNumFSRs geometry ->
  exists e w',
    plot_spatial_data geometry (Some data) norm transparent_zeros zcoord
      gridsize xlim ylim colorbar title suptitle filename interpolation cmap
      vmin vmax get_figure w = (Raise e, w') /\
    List.filter is_query (events w') = List.filter is_query (events w) /\
    List.filter is_render (events w') = List.filter is_render (events w) /\
    (existsb (String.eqb (output_directory w ++ subdirectory w)%string) (dirs w)
     || disk_ok w (output_directory w ++ subdirectory w)%string = true ->
     exists msg, e = LogError msg /\ last (events w') = Some (EvLog "ERROR" msg)).
Proof.
  intros Hlen. apply Z.eqb_neq in Hlen.
  unfold plot_spatial_data. unfold bind at 1. unfold get.
  unfold bind at 1.
  destruct (make_directory_run (output_directory w ++ subdirectory w)%string w)
    as [(w1 & Hmk & Hw1 & Hd)|[Hmk Hd]]; rewrite Hmk.
  - assert (Hq : List.filter is_query (events w1) = List.filter is_query (events w)).
    { destruct Hw1 as [->| ->]; [reflexivity|].
      cbn [events add_event add_dir]. now rewrite filter_app_single. }
    assert (Hr : List.filter is_render (events w1) = List.filter is_render (events w)).
    { destruct Hw1 as [->| ->]; [reflexivity|].
      cbn [events add_event add_dir]. now rewrite filter_app_single. }
    unfold bind at 1.
    destruct (contains "Geometry" (geometry_type geometry)); cbn [negb when].
    + cbn [ret]. unfold bind at 1. cbn [is_ndarray negb when ret].
      unfold bind at 1. cbn [from_option ret].
      unfold bind at 1. rewrite Hlen. cbn [negb when]. rewrite py_printf_error.
      eexists _, _. split; [reflexivity|].
      cbn [events add_events]. rewrite !filter_app_single by reflexivity.
      repeat split; try assumption. intros _. eexists. split; [reflexivity|].
      apply last_app_single.
    + rewrite py_printf_error.
      eexists _, _. split; [reflexivity|].
      cbn [events add_events]. rewrite !filter_app_single by reflexivity.
      repeat split; try assumption. intros _. eexists. split; [reflexivity|].
      apply last_app_single.
  - eexists _, _. split; [reflexivity|]. repeat split; try reflexivity.
    rewrite Hd. discriminate.
Qed.

End Validation.

Lemma plot_spatial_data_rejects_wrong_length_witness :
  exists e w',
    plot_spatial_data (R := Demo.runtime) Demo.geometry
      (Some (NdFloat [Float64.of_Z 5])) false true PyNone (PyInt 3) None None
      false PyNone PyNone (PyStr "spatial-data") None None PyNone PyNone false
      Demo.world0 = (Raise e, w') /\
    List.filter is_query (events w') = List.filter is_query (events Demo.world0) /\
    List.filter is_render (events w') = List.filter is_render (events Demo.world0) /\
    (existsb (String.eqb (output_directory Demo.world0 ++ subdirectory Demo.world0)%string)
             (dirs Demo.world0)
     || disk_ok Demo.world0 (output_directory Demo.world0 ++ subdirectory Demo.world0)%string
        = true ->
     exists msg, e = LogError msg /\ last (events w') = Some (EvLog "ERROR" msg)).
Proof.
  apply (plot_spatial_data_rejects_wrong_length (R := Demo.runtime)).
  vm_compute. discriminate.
Defined.

(** ** The post-processing stage *)

Section Postprocess.
Context {R : Runtime}.

Lemma lookup_map {A B} (f : A -> B) (l : list A) (k : nat) :
  map f l !! k = match l !! k with Some a => Some (f a) | None => None end.
Proof.
  revert k. induction l as [|a l IH]; intros [|k]; cbn; auto.
Qed.

Lemma entry_map (f : float -> float) (surface : list (list float)) (j i : nat) :
  entry (map (map f) surface) j i
  = match entry surface j i with Some v => Some (f v) | None => None end.
Proof.
  unfold entry. rewrite lookup_map.
  destruct (surface !! j) as [row|]; [|reflexivity]. apply lookup_map.
Qed.

(** C2, as the code has it: without [norm], the stage leaves every entry
    that holds the sentinel -1 at -1, with and without [transparent_zeros];
    with [norm], the division by the maximum [m] of the field applies to
    the sentinel entries too, which then hold -1 / m. *)
Theorem postprocess_sentinel (transparent_zeros : bool)
    (surface : list (list float)) (w : world) :
  (exists surface',
      postprocess false transparent_zeros surface w = (Ok surface', w) /\
      forall j i, entry surface j i = Some Float64.neg_one ->
                  entry surface' j i = Some Float64.neg_one) /\
  (forall m, np_max surface = Some m ->
     exists surface',
       postprocess true transparent_zeros surface w = (Ok surface', w) /\
       forall j i, entry surface j i = Some Float64.neg_one ->
                   entry surface' j i
                   = Some (let v := Float64.div Float64.neg_one m in
                           if transparent_zeros && Float64.eqb v Float64.zero
                           then Float64.nan else v)).
Proof.
  split.
  - unfold postprocess, bind, ret. eexists. split; [reflexivity|].
    intros j i H. destruct transparent_zeros; [|exact H].
    unfold blank_zeros. rewrite entry_map, H. reflexivity.
  - intros m Hm. unfold postprocess, normalize, bind, ret. rewrite Hm.
    cbn [from_option ret]. eexists. split; [reflexivity|].
    intros j i H. destruct transparent_zeros; cbn [andb].
    + unfold blank_zeros. rewrite !entry_map, H. reflexivity.
    + rewrite entry_map, H. reflexivity.
Qed.

End Postprocess.

(** With [norm] the sentinel does not survive: in a field with the entries
    -1 and 2 the maximum is 2, and the entry -1 becomes -0.5. *)
Lemma postprocess_norm_changes_sentinel :
  ~ (forall (norm transparent_zeros : bool) (surface surface' : list (list float))
            (w w' : @world Demo.runtime) (j i : nat),
        postprocess norm transparent_zeros surface w = (Ok surface', w') ->
        entry surface j i = Some Float64.neg_one ->
        entry surface' j i = Some Float64.neg_one).
Proof.
  intros H.
  specialize (H true true
                [[Float64.neg_one; Float64.of_Z 2]; [Float64.of_Z 2; Float64.of_Z 2]]
                _ Demo.world0 _ 0%nat 0%nat eq_refl eq_refl).
  vm_compute in H. discriminate H.
Qed.

(** ** The identity colorizer *)

Section Colorize.
Context {R : Runtime}.

Lemma length_arange (n : Z) : length (arange n) = Z.to_nat n.
Proof. unfold arange. now rewrite length_map, length_seq. Qed.

Lemma In_arange (n d : Z) : In d (arange n) <-> 0 <= d < n.
Proof.
  unfold arange. rewrite in_map_iff. split.
  - intros (k & <- & Hk). apply in_seq in Hk. lia.
  - intros H. exists (Z.to_nat d). split; [lia|]. apply in_seq. lia.
Qed.

Lemma NoDup_arange (n : Z) : List.NoDup (arange n).
Proof.
  unfold arange. apply Injective_map_NoDup; [|apply seq_NoDup].
  intros x y. apply Nat2Z.inj.
Qed.

Lemma norm_index_nat (n k : nat) :
  (k < n)%nat -> norm_index n (Z.of_nat k) = Some k.
Proof.
  intros H. unfold norm_index.
  replace (0 <=? Z.of_nat k) with true by (symmetry; apply Z.leb_le; lia).
  replace (Z.of_nat k <? Z.of_nat n) with true by (symmetry; apply Z.ltb_lt; lia).
  cbn. now rewrite Nat2Z.id.
Qed.

Lemma py_index_in_range (a : list Z) (d : Z) :
  0 <= d < Z.of_nat (length a) -> py_index a d = Some (nth (Z.to_nat d) a 0).
Proof.
  intros H. unfold py_index.
  rewrite <- (Z2Nat.id d) at 1 by lia. rewrite norm_index_nat by lia.
  destruct (lookup_lt_is_Some_2 a (Z.to_nat d)) as [x Hx]; [lia|].
  rewrite Hx. f_equal. symmetry. now apply nth_lookup_Some.
Qed.

(** Assigning [vals] at the consecutive positions [k, k+1, ...]. *)
Lemma setitem_fancy_range (vals : list Z) :
  forall (k : nat) (a : list Z) (w : world),
    (k + length vals <= length a)%nat ->
    setitem_fancy a (map Z.of_nat (seq k (length vals))) vals w
    = (Ok (take k a ++ vals ++ drop (k + length vals) a), w).
Proof.
  induction vals as [|v vals IH]; intros k a w Hlen.
  - cbn. rewrite Nat.add_0_r, take_drop. reflexivity.
  - cbn [length seq map setitem_fancy] in *.
    rewrite norm_index_nat by lia. cbn [from_option].
    unfold bind at 1. cbn [ret].
    rewrite IH by (rewrite length_insert; lia).
    f_equal. f_equal.
    rewrite (take_S_r _ _ v) by (apply list_lookup_insert_eq; lia).
    rewrite take_insert_ge by lia.
    rewrite drop_insert_lt by lia.
    rewrite <- app_assoc. cbn [app].
    replace (k + S (length vals))%nat with (S k + length vals)%nat by lia.
    reflexivity.
Qed.

Lemma setitem_fancy_arange (n : Z) (vals : list Z) (w : world) :
  length vals = Z.to_nat n ->
  setitem_fancy (arange n) (arange n) vals w = (Ok vals, w).
Proof.
  intros H. unfold arange at 2. rewrite <- H.
  rewrite setitem_fancy_range by (rewrite length_arange; lia).
  cbn [take]. rewrite drop_ge by (rewrite length_arange; lia).
  now rewrite app_nil_r.
Qed.

Lemma pure_from_option {A} (e : exn) (o : option A) : pure (from_option e o).
Proof. destruct o; eexists; intros w; reflexivity. Qed.

Lemma pure_mapM {A B} (f : A -> M B) (l : list A) :
  (forall a, pure (f a)) -> pure (mapM f l).
Proof.
  intros Hf. induction l as [|a l [rl IH]].
  - eexists. intros w. reflexivity.
  - destruct (Hf a) as [[b|e] Hb].
    + destruct rl as [bs|e].
      * exists (Ok (b :: bs)). intros w. cbn [mapM]. unfold bind. now rewrite Hb, IH.
      * exists (Raise e). intros w. cbn [mapM]. unfold bind. now rewrite Hb, IH.
    + exists (Raise e). intros w. cbn [mapM]. unfold bind. now rewrite Hb.
Qed.

Lemma pure_ndarray_take (a data : list Z) : pure (ndarray_take a data).
Proof. apply pure_mapM. intros d. apply pure_from_option. Qed.

Lemma ndarray_take_in_range (a data : list Z) (w : world) :
  Forall (fun d => 0 <= d < Z.of_nat (length a)) data ->
  ndarray_take a data w = (Ok (map (fun d => nth (Z.to_nat d) a 0) data), w).
Proof.
  unfold ndarray_take. induction 1 as [|d data Hd _ IH].
  - reflexivity.
  - cbn [mapM map]. rewrite py_index_in_range by exact Hd. cbn [from_option].
    unfold bind, ret. now rewrite IH.
Qed.

(** The table [_colorize] builds: the shuffle of [0, ..., N-1] obtained from
    the generator seeded with 1. *)
Lemma colorize_run (data : list Z) (num_colors seed : Z) (w : world) :
  length (fst (np_shuffle (np_seed 1) (arange num_colors))) = Z.to_nat num_colors ->
  _colorize data num_colors seed w
  = ndarray_take (fst (np_shuffle (np_seed 1) (arange num_colors))) data
      (set_rng (snd (np_shuffle (np_seed 1) (arange num_colors)))
               (set_rng (np_seed 1) w)).
Proof.
  intros Hlen. unfold _colorize.
  unfold bind at 1. unfold numpy_random_seed, modify.
  unfold bind at 1. unfold numpy_random_shuffle. cbn [rng set_rng].
  unfold bind at 1. now rewrite setitem_fancy_arange.
Qed.

Lemma documented_colorize_run (data : list Z) (num_colors seed : Z) (w : world) :
  length (fst (np_shuffle (np_seed seed) (arange num_colors))) = Z.to_nat num_colors ->
  documented_colorize data num_colors seed w
  = ndarray_take (fst (np_shuffle (np_seed seed) (arange num_colors))) data
      (set_rng (snd (np_shuffle (np_seed seed) (arange num_colors)))
               (set_rng (np_seed seed) w)).
Proof.
  intros Hlen. unfold documented_colorize.
  unfold bind at 1. unfold numpy_random_seed, modify.
  unfold bind at 1. unfold numpy_random_shuffle. cbn [rng set_rng].
  unfold bind at 1. now rewrite setitem_fancy_arange.
Qed.

(** Looking up the ids [0, ..., N-1] returns the table itself. *)
Lemma ndarray_take_arange (table : list Z) (n : Z) (w : world) :
  length table = Z.to_nat n ->
  ndarray_take table (arange n) w = (Ok table, w).
Proof.
  intros Hlen. rewrite ndarray_take_in_range.
  - f_equal. f_equal. unfold arange. rewrite map_map, <- Hlen.
    transitivity (map (fun x : Z => x) table); [|apply map_id].
    rewrite <- (map_nth_seq (fun x => x) 0 table).
    apply map_ext. intros k. now rewrite Nat2Z.id.
  - apply List.Forall_forall. intros d Hd. apply In_arange in Hd. lia.
Qed.

(** C3: the [seed] argument plays no part in [_colorize].  Whatever seed the
    caller supplies, the generator is seeded with the constant 1 and the
    colors are those of seed 1; whenever the supplied seed shuffles
    [0, ..., N-1] differently from seed 1, the result differs from the
    documented one, which seeds the generator with the argument. *)
Theorem colorize_ignores_seed (L : RuntimeLaws R) (num_colors seed : Z) (w : world) :
  fst (np_shuffle (np_seed seed) (arange num_colors))
  <> fst (np_shuffle (np_seed 1) (arange num_colors)) ->
  _colorize (arange num_colors) num_colors seed w
  = _colorize (arange num_colors) num_colors 1 w /\
  fst (_colorize (arange num_colors) num_colors seed w)
  = Ok (fst (np_shuffle (np_seed 1) (arange num_colors))) /\
  fst (documented_colorize (arange num_colors) num_colors seed w)
  = Ok (fst (np_shuffle (np_seed seed) (arange num_colors))) /\
  fst (_colorize (arange num_colors) num_colors seed w)
  <> fst (documented_colorize (arange num_colors) num_colors seed w).
Proof.
  intros Hdiff.
  assert (Hlen : forall s, length (fst (np_shuffle (np_seed s) (arange num_colors)))
                           = Z.to_nat num_colors).
  { intros s. rewrite (Permutation_length (np_shuffle_perm _ _)). apply length_arange. }
  assert (Hcode : fst (_colorize (arange num_colors) num_colors seed w)
                  = Ok (fst (np_shuffle (np_seed 1) (arange num_colors)))).
  { rewrite colorize_run by apply Hlen. now rewrite ndarray_take_arange by apply Hlen. }
  assert (Hdoc : fst (documented_colorize (arange num_colors) num_colors seed w)
                 = Ok (fst (np_shuffle (np_seed seed) (arange num_colors)))).
  { rewrite documented_colorize_run by apply Hlen.
    now rewrite ndarray_take_arange by apply Hlen. }
  repeat split; try assumption.
  rewrite Hcode, Hdoc. intros [= E]. now apply Hdiff.
Qed.

(** C4: the table [_colorize] builds and applies is a bijection of [0, N),
    and the outcome of a call depends on the data and on N only, not on the
    state the random generator was left in nor on the seed argument. *)
Theorem colorize_bijection (L : RuntimeLaws R) (num_colors : Z) :
  0 < num_colors ->
  exists f : Z -> Z,
    (forall d, 0 <= d < num_colors -> 0 <= f d < num_colors) /\
    (forall d d', 0 <= d < num_colors -> 0 <= d' < num_colors ->
                  f d = f d' -> d = d') /\
    (forall c, 0 <= c < num_colors ->
               exists d, 0 <= d < num_colors /\ f d = c) /\
    (forall data seed w,
        Forall (fun d => 0 <= d < num_colors) data ->
        exists w', _colorize data num_colors seed w = (Ok (map f data), w')) /\
    (forall data seed1 seed2 w1 w2,
        fst (_colorize data num_colors seed1 w1)
        = fst (_colorize data num_colors seed2 w2)).
Proof.
  intros Hpos.
  set (table := fst (np_shuffle (np_seed 1) (arange num_colors))).
  assert (Hperm : Permutation table (arange num_colors)) by apply np_shuffle_perm.
  assert (Hlen : length table = Z.to_nat num_colors).
  { rewrite (Permutation_length Hperm). apply length_arange. }
  assert (Hnd : List.NoDup table).
  { eapply Permutation_NoDup; [symmetry; exact Hperm | apply NoDup_arange]. }
  exists (fun d => nth (Z.to_nat d) table 0). repeat split.
  - assert (In (nth (Z.to_nat d) table 0) (arange num_colors)).
    { eapply Permutation_in; [exact Hperm|]. apply nth_In. lia. }
    apply In_arange in H0. lia.
  - assert (In (nth (Z.to_nat d) table 0) (arange num_colors)).
    { eapply Permutation_in; [exact Hperm|]. apply nth_In. lia. }
    apply In_arange in H0. lia.
  - intros d d' Hd Hd' Heq.
    assert (Z.to_nat d = Z.to_nat d').
    { eapply (proj1 (NoDup_nth table 0) Hnd); [lia | lia | exact Heq]. }
    lia.
  - intros c Hc.
    assert (Hin : In c table).
    { eapply Permutation_in; [symmetry; exact Hperm|]. now apply In_arange. }
    destruct (In_nth table c 0 Hin) as (k & Hk & Hnth).
    exists (Z.of_nat k). split; [lia|]. now rewrite Nat2Z.id.
  - intros data seed w Hdata. eexists.
    rewrite colorize_run by exact Hlen. apply ndarray_take_in_range.
    eapply Forall_impl; [exact Hdata|]. intros d Hd. fold table. cbn beta in *. lia.
  - intros data seed1 seed2 w1 w2.
    rewrite !colorize_run by exact Hlen.
    destruct (pure_ndarray_take table data) as [r Hr]. fold table.
    now rewrite !Hr.
Qed.

End Colorize.

(** The demonstration runtime's shuffle is a rotation, hence a permutation. *)
Lemma demo_laws : RuntimeLaws Demo.runtime.
Proof.
  constructor. intros st l. cbn. unfold Demo.rotate.
  rewrite Permutation_app_comm, take_drop. reflexivity.
Qed.

Lemma colorize_bijection_witness :
  exists f : Z -> Z,
    (forall d, 0 <= d < 5 -> 0 <= f d < 5) /\
    (forall d d', 0 <= d < 5 -> 0 <= d' < 5 -> f d = f d' -> d = d') /\
    (forall c, 0 <= c < 5 -> exists d, 0 <= d < 5 /\ f d = c) /\
    (forall data seed w,
        Forall (fun d => 0 <= d < 5) data ->
        exists w', _colorize (R := Demo.runtime) data 5 seed w = (Ok (map f data), w')) /\
    (forall data seed1 seed2 w1 w2,
        fst (_colorize (R := Demo.runtime) data 5 seed1 w1)
        = fst (_colorize (R := Demo.runtime) data 5 seed2 w2)).
Proof.
  apply (colorize_bijection (R := Demo.runtime) demo_laws 5). lia.
Defined.

(** On the demonstration runtime, seeds 1 and 2 shuffle [0, ..., 4]
    differently; [_colorize] called with seed 2 returns the colors of seed 1,
    not those the documented behaviour gives for seed 2. *)
Lemma colorize_ignores_seed_witness :
  _colorize (R := Demo.runtime) (arange 5) 5 2 Demo.world0
  = _colorize (arange 5) 5 1 Demo.world0 /\
  fst (_colorize (R := Demo.runtime) (arange 5) 5 2 Demo.world0)
  = Ok (fst (np_shuffle (Runtime := Demo.runtime) (np_seed 1) (arange 5))) /\
  fst (documented_colorize (R := Demo.runtime) (arange 5) 5 2 Demo.world0)
  = Ok (fst (np_shuffle (Runtime := Demo.runtime) (np_seed 2) (arange 5))) /\
  fst (_colorize (R := Demo.runtime) (arange 5) 5 2 Demo.world0)
  <> fst (documented_colorize (R := Demo.runtime) (arange 5) 5 2 Demo.world0).
Proof.
  apply (colorize_ignores_seed (R := Demo.runtime) demo_laws 5 2 Demo.world0).
  vm_compute. discriminate.
Defined.

Example colorize_seed_2 :
  fst (_colorize (R := Demo.runtime) [0; 1; 2; 3; 4] 5 2 Demo.world0)
  = Ok [1; 2; 3; 4; 0] /\
  fst (documented_colorize (R := Demo.runtime) [0; 1; 2; 3; 4] 5 1 Demo.world0)
  = Ok [1; 2; 3; 4; 0] /\
  fst (documented_colorize (R := Demo.runtime) [0; 1; 2; 3; 4] 5 2 Demo.world0)
  = Ok [4; 0; 1; 2; 3].
Proof. vm_compute. repeat split. Qed.

(** ** Validation of the energy group bounds *)

Section GroupBounds.
Context {R : Runtime}.

(** The test [all(low < up for low, up in zip(bounds, bounds[1:]))]. *)
Lemma monotone_test_spec (bounds : list pynum) :
  forallb (fun '(low, up) => num_ltb low up) (zip bounds (drop 1 bounds)) = true
  <-> strictly_increasing bounds.
Proof.
  unfold strictly_increasing. induction bounds as [|a bounds IH].
  - split; [intros _ k low up H; discriminate | reflexivity].
  - destruct bounds as [|b bounds].
    + split; [intros _ [|k] low up H1 H2; discriminate | reflexivity].
    + change (zip (a :: b :: bounds) (drop 1 (a :: b :: bounds)))
        with ((a, b) :: zip (b :: bounds) (drop 1 (b :: bounds))).
      cbn [forallb]. rewrite andb_true_iff, IH. split.
      * intros [Hab Hrest] [|k] low up H1 H2.
        -- cbn in H1, H2. now injection H1 as <-; injection H2 as <-.
        -- exact (Hrest k low up H1 H2).
      * intros H. split.
        -- exact (H 0%nat a b eq_refl eq_refl).
        -- intros k low up H1 H2. exact (H (S k) low up H1 H2).
Qed.

(** The loop over the bounds: it stops at the first negative bound, and is
    silent when there is none. *)
Lemma bounds_loop_run (bounds : list pynum) (w : world) :
  (has_negative bounds ->
   forM_ bounds (fun bound =>
     if negb (is_integer (pyval_of_num bound)) && negb (is_float (pyval_of_num bound))
     then py_printf "ERROR" "Unable to plot the flux vs. energy with group bound %s"
     else if num_ltb bound (NumInt 0)
          then py_printf "ERROR"
                 "Unable to plot the flux vs. energy with a negative group bound %f"
          else ret tt) w
   = (Raise (LogError "Unable to plot the flux vs. energy with a negative group bound %f"),
      add_events
        [EvLog "ERROR" "Unable to plot the flux vs. energy with a negative group bound %f"] w)) /\
  (~ has_negative bounds ->
   forM_ bounds (fun bound =>
     if negb (is_integer (pyval_of_num bound)) && negb (is_float (pyval_of_num bound))
     then py_printf "ERROR" "Unable to plot the flux vs. energy with group bound %s"
     else if num_ltb bound (NumInt 0)
          then py_printf "ERROR"
                 "Unable to plot the flux vs. energy with a negative group bound %f"
          else ret tt) w
   = (Ok tt, w)).
Proof.
  unfold forM_, has_negative. induction bounds as [|b bounds [IHneg IHpos]].
  - split; [intros (b & [] & _) | reflexivity].
  - assert (Hty : negb (is_integer (pyval_of_num b)) && negb (is_float (pyval_of_num b))
                  = false) by (destruct b; reflexivity).
    cbn [foldM]. rewrite Hty.
    destruct (num_ltb b (NumInt 0)) eqn:Hb.
    + split; [intros _|].
      * unfold bind. now rewrite py_printf_error.
      * intros H. exfalso. apply H. exists b. split; [now left | exact Hb].
    + split.
      * intros (b' & [<-|Hin] & Hneg); [congruence|].
        unfold bind at 1. cbn [ret]. apply IHneg. now exists b'.
      * intros H. unfold bind at 1. cbn [ret]. apply IHpos.
        intros (b' & Hin & Hneg).
        apply H. exists b'. split; [now right | exact Hneg].
Qed.

(** C8: with the bounds given as a sequence of numbers, the checks report an
    error when the bounds are not strictly increasing, when their number is
    not the number of energy groups plus one, or when a bound is negative,
    and [plot_energy_fluxes] then ends with an exception; bounds that meet
    the three conditions pass the checks, and nothing is logged. *)
Theorem check_group_bounds_spec (solver : Solver) (bounds : list pynum)
    (loglog : bool) :
  let geometry := getGeometry solver in
  let num_groups := getNumEnergyGroups geometry in
  (~ strictly_increasing bounds
   \/ Z.of_nat (length bounds) <> num_groups + 1
   \/ has_negative bounds ->
   (forall w, exists msg,
       check_group_bounds geometry num_groups (SeqOf bounds) loglog w
       = (Raise (LogError msg), add_events [EvLog "ERROR" msg] w)) /\
   (forall fsrs norm w, exists e w',
       plot_energy_fluxes solver fsrs (SeqOf bounds) norm loglog w
       = (Raise e, w'))) /\
  (strictly_increasing bounds ->
   Z.of_nat (length bounds) = num_groups + 1 ->
   ~ has_negative bounds ->
   forall w,
     check_group_bounds geometry num_groups (SeqOf bounds) loglog w
     = (Ok (bounds, loglog), w)).
Proof.
  intros geometry num_groups.
  assert (Hblock :
    forall w,
      (~ strictly_increasing bounds
       \/ Z.of_nat (length bounds) <> num_groups + 1
       \/ has_negative bounds ->
       exists msg,
         check_group_bounds geometry num_groups (SeqOf bounds) loglog w
         = (Raise (LogError msg), add_events [EvLog "ERROR" msg] w)) /\
      (strictly_increasing bounds ->
       Z.of_nat (length bounds) = num_groups + 1 ->
       ~ has_negative bounds ->
       check_group_bounds geometry num_groups (SeqOf bounds) loglog w
       = (Ok (bounds, loglog), w))).
  { intros w. unfold check_group_bounds. fold num_groups.
    destruct (bounds_loop_run bounds w) as [Hneg Hpos].
    destruct (forallb (fun '(low, up) => num_ltb low up) (zip bounds (drop 1 bounds)))
      eqn:Hmono; cbn [negb].
    - apply monotone_test_spec in Hmono.
      destruct (Z.of_nat (length bounds) =? num_groups + 1) eqn:Hcount; cbn [negb].
      + apply Z.eqb_eq in Hcount. split.
        * intros [H|[H|H]]; [contradiction | contradiction |].
          eexists. unfold bind at 1. cbn [ret]. unfold bind at 1.
          rewrite (Hneg H). reflexivity.
        * intros _ _ H. unfold bind at 1. cbn [ret]. unfold bind at 1.
          rewrite (Hpos H). reflexivity.
      + apply Z.eqb_neq in Hcount. split.
        * intros _. eexists. unfold bind at 1. now rewrite py_printf_error.
        * intros _ H. contradiction.
    - assert (Hno : ~ strictly_increasing bounds).
      { intros H. apply monotone_test_spec in H. congruence. }
      split.
      + intros _. eexists. unfold bind at 1. now rewrite py_printf_error.
      + intros H. contradiction. }
  split.
  - intros Hbad. split.
    + intros w. now apply Hblock.
    + intros fsrs norm w.
      destruct (plot_energy_fluxes solver fsrs (SeqOf bounds) norm loglog w)
        as [[[]|e] w'] eqn:Hrun; [exfalso | eauto].
      unfold plot_energy_fluxes in Hrun.
      repeat (apply bind_ok_inv in Hrun; destruct Hrun as (? & ? & ? & Hrun);
              cbn beta in Hrun).
      match goal with
      | H : check_group_bounds _ _ _ _ ?w1 = (Ok _, _) |- _ =>
          destruct (proj1 (Hblock w1) Hbad) as [msg Hmsg];
          fold geometry num_groups in H; rewrite Hmsg in H; discriminate H
      end.
  - intros H1 H2 H3 w. now apply Hblock.
Qed.

End GroupBounds.

Lemma check_group_bounds_spec_witness :
  (forall w, check_group_bounds (R := Demo.runtime) Demo.geometry 1
               (SeqOf [NumInt 0; NumFloat (Float64.of_Z 20000000)]) true w
             = (Ok ([NumInt 0; NumFloat (Float64.of_Z 20000000)], true), w)) /\
  (forall w, exists msg,
      check_group_bounds (R := Demo.runtime) Demo.geometry 1
        (SeqOf [NumFloat (Float64.of_Z 5); NumInt 2]) true w
      = (Raise (LogError msg), add_events [EvLog "ERROR" msg] w)) /\
  (forall fsrs norm w, exists e w',
      plot_energy_fluxes (R := Demo.runtime) Demo.solver fsrs
        (SeqOf [NumFloat (Float64.of_Z 5); NumInt 2]) norm true w
      = (Raise e, w')).
Proof.
  split.
  - apply (proj2 (check_group_bounds_spec (R := Demo.runtime) Demo.solver
                    [NumInt 0; NumFloat (Float64.of_Z 20000000)] true)).
    + intros [|[|k]] low up H1 H2; try discriminate.
      injection H1 as <-. injection H2 as <-. reflexivity.
    + reflexivity.
    + intros (b & [<-|[<-|[]]] & Hneg); discriminate Hneg.
  - apply (proj1 (check_group_bounds_spec (R := Demo.runtime) Demo.solver
                    [NumFloat (Float64.of_Z 5); NumInt 2] true)).
    left. intros H. specialize (H 0%nat _ _ eq_refl eq_refl). discriminate H.
Defined.

(** ** [plot_materials] *)

Section Materials.
Context {R : Runtime}.

(** The loop that fills [fsrs_to_materials]. *)
Lemma fill_loop (f : Z -> Z) (m : nat) :
  forall (k : nat) (a : list Z) (w : world),
    (k + m <= length a)%nat ->
    foldM (fun a fsr_id =>
             do i <- from_option IndexError (norm_index (length a) fsr_id);
             ret (<[ i := f fsr_id ]> a))
          (map Z.of_nat (seq k m)) a w
    = (Ok (take k a ++ map f (map Z.of_nat (seq k m)) ++ drop (k + m) a), w).
Proof.
  induction m as [|m IH]; intros k a w Hlen.
  - cbn. rewrite Nat.add_0_r, take_drop. reflexivity.
  - cbn [seq map foldM]. rewrite norm_index_nat by lia. cbn [from_option].
    unfold bind at 1. unfold bind at 1. cbn [ret].
    rewrite IH by (rewrite length_insert; lia).
    f_equal. f_equal.
    rewrite (take_S_r _ _ (f (Z.of_nat k))) by (apply list_lookup_insert_eq; lia).
    rewrite take_insert_ge by lia.
    rewrite drop_insert_lt by lia.
    rewrite <- app_assoc. cbn [app].
    replace (k + S m)%nat with (S k + m)%nat by lia. reflexivity.
Qed.

(** In a list without repetition, a member has exactly one position. *)
Lemma where_eq_from_absent (ids : list Z) (x : Z) :
  ~ In x ids -> forall pos, where_eq_from pos ids x = [].
Proof.
  induction ids as [|y ids IH]; intros Hx pos; [reflexivity|].
  cbn [where_eq_from]. destruct (Z.eqb_spec y x) as [->|_].
  - exfalso. apply Hx. now left.
  - apply IH. intros H. apply Hx. now right.
Qed.

Lemma where_eq_from_unique (ids : list Z) (x : Z) :
  List.NoDup ids -> In x ids ->
  forall pos, exists k,
    where_eq_from pos ids x = [Z.of_nat (pos + k)] /\ ids !! k = Some x.
Proof.
  induction 1 as [|y ids Hy Hnd IH]; intros Hin pos; [destruct Hin|].
  cbn [where_eq_from]. destruct (Z.eqb_spec y x) as [->|Hne].
  - exists 0%nat. rewrite where_eq_from_absent by exact Hy.
    rewrite Nat.add_0_r. split; reflexivity.
  - destruct Hin as [Heq|Hin]; [contradiction|].
    destruct (IH Hin (S pos)) as (k & Hk & Hlook).
    exists (S k). split; [|exact Hlook].
    rewrite Hk. do 2 f_equal. lia.
Qed.

(** The loop that replaces each material id by its position in the shuffled
    list. *)
Lemma recolor_loop (ids : list Z) (idx : Z -> Z) (m : nat) :
  forall (k : nat) (a : list Z) (w : world),
    (k + m <= length a)%nat ->
    (forall j x, (k <= j)%nat -> a !! j = Some x -> where_eq ids x = [idx x]) ->
    foldM (fun a i =>
             do material_id <- from_option IndexError (a !! i);
             match where_eq ids material_id with
             | [c] => ret (<[ i := c ]> a)
             | _ => raise ValueError
             end)
          (seq k m) a w
    = (Ok (take k a ++ map idx (take m (drop k a)) ++ drop (k + m) a), w).
Proof.
  induction m as [|m IH]; intros k a w Hlen Hids.
  - cbn [seq foldM]. rewrite take_0. cbn [map app].
    rewrite Nat.add_0_r, take_drop. reflexivity.
  - cbn [seq foldM].
    destruct (lookup_lt_is_Some_2 a k) as [x Hx]; [lia|].
    rewrite Hx. cbn [from_option]. unfold bind at 1. unfold bind at 1. cbn [ret].
    rewrite (Hids k x (le_n k) Hx). cbn [ret].
    rewrite IH.
    + f_equal. f_equal.
      rewrite (take_S_r _ _ (idx x)) by (apply list_lookup_insert_eq; lia).
      rewrite take_insert_ge by lia.
      rewrite !drop_insert_lt by lia.
      rewrite (drop_S a x k Hx). cbn [take map].
      rewrite <- app_assoc. cbn [app].
      replace (k + S m)%nat with (S k + m)%nat by lia. reflexivity.
    + rewrite length_insert. lia.
    + intros j y Hj Hy. rewrite list_lookup_insert_ne in Hy by lia.
      eapply Hids; [|exact Hy]. lia.
Qed.

(** C9: for an argument that is not a Geometry, [plot_materials] reports
    an error.  For a Geometry (with a valid z-coordinate, and whose regions
    are filled with materials the geometry lists), it computes for every
    region the position of the region's material id in the list of all
    material ids shuffled with seed 1, a color index in [0, num_materials),
    and calls [plot_spatial_data] with that array. *)
Theorem plot_materials_spec (L : RuntimeLaws R) (geometry : Geometry)
    (gridsize : pyval) (xlim ylim : option (float * float)) (zcoord : pyval)
    (z : float) (w : world) :
  (contains "Geometry" (geometry_type geometry) = false ->
   exists msg,
     plot_materials geometry gridsize xlim ylim zcoord w
     = (Raise (LogError msg), add_events [EvLog "ERROR" msg] w)) /\
  (contains "Geometry" (geometry_type geometry) = true ->
   match zcoord with PyNone => PyFloat Float64.zero | _ => zcoord end = PyFloat z ->
   Float64.ltb z (getMinZ geometry) = false ->
   Float64.ltb (getMaxZ geometry) z = false ->
   List.NoDup (getAllMaterials geometry) ->
   (forall fsr, 0 <= fsr < getNumFSRs geometry ->
                In (getFSRMaterialId geometry fsr) (getAllMaterials geometry)) ->
   let shuffled := fst (np_shuffle (np_seed 1) (getAllMaterials geometry)) in
   let num_materials := Z.of_nat (length (getAllMaterials geometry)) in
   exists colors : list Z,
     length colors = Z.to_nat (getNumFSRs geometry) /\
     (forall fsr, 0 <= fsr < getNumFSRs geometry ->
        exists k, colors !! Z.to_nat fsr = Some k /\
                  0 <= k < num_materials /\
                  shuffled !! Z.to_nat k = Some (getFSRMaterialId geometry fsr)) /\
     plot_materials geometry gridsize xlim ylim zcoord w
     = (plot_spatial_data geometry (Some (NdInt colors)) false false (PyFloat z)
          gridsize xlim ylim false (PyStr ("z = " ++ str_float z))
          (PyStr "Materials") (PyStr ("materials-z-" ++ str_float z ++ ".png"))
          (Some "nearest") (Some "spectral") (PyInt 0) (PyInt num_materials)
          false ;; ret tt)
         (set_rng (snd (np_shuffle (np_seed 1) (getAllMaterials geometry)))
                  (add_events [EvLog "NORMAL" "Plotting the materials..."] w))).
Proof.
  split.
  - intros Hty. eexists. unfold plot_materials. unfold bind at 1.
    rewrite Hty. cbn [negb when]. now rewrite py_printf_error.
  - intros Hty Hz Hlo Hhi Hnd Hmat shuffled num_materials.
    set (materials := getAllMaterials geometry) in *.
    set (n := Z.to_nat (getNumFSRs geometry)).
    set (idx := fun x => hd 0 (where_eq shuffled x)).
    set (filled := map (getFSRMaterialId geometry) (arange (getNumFSRs geometry))).
    assert (Hperm : Permutation shuffled materials) by apply np_shuffle_perm.
    assert (Hidx : forall x, In x materials ->
                     exists k, where_eq shuffled x = [idx x] /\ idx x = Z.of_nat k /\
                               shuffled !! k = Some x).
    { intros x Hx.
      destruct (where_eq_from_unique shuffled x) with (pos := 0%nat) as (k & Hk & Hlook).
      - eapply Permutation_NoDup; [symmetry; exact Hperm | exact Hnd].
      - eapply Permutation_in; [symmetry; exact Hperm | exact Hx].
      - exists k. unfold idx, where_eq. rewrite Hk. cbn. auto. }
    assert (Hfilled : length filled = n).
    { unfold filled. now rewrite length_map, length_arange. }
    exists (map idx filled). split; [now rewrite length_map|]. split.
    + intros fsr Hfsr.
      destruct (Hidx (getFSRMaterialId geometry fsr) (Hmat fsr Hfsr))
        as (k & _ & Hk & Hlook).
      exists (Z.of_nat k). repeat split.
      * unfold filled, arange. rewrite !lookup_map.
        rewrite lookup_seq_lt by lia. cbn. rewrite Z2Nat.id by lia. now rewrite Hk.
      * lia.
      * apply lookup_lt_Some in Hlook. unfold num_materials.
        rewrite <- (Permutation_length Hperm). lia.
      * now rewrite Nat2Z.id.
    + unfold plot_materials. unfold bind at 1.
      rewrite Hty. cbn [negb when ret]. cbv zeta. rewrite Hz.
      unfold bind at 1. unfold _check_zcoord. cbn [is_float negb as_float].
      unfold bind at 1. cbn [ret]. rewrite Hlo, Hhi. cbn [orb ret].
      unfold bind at 1. rewrite py_printf_normal.
      unfold bind at 1. unfold arange at 1.
      rewrite fill_loop by (rewrite length_replicate; lia).
      rewrite take_0, drop_ge by (rewrite length_replicate; lia).
      cbn [app]. rewrite app_nil_r. fold (arange (getNumFSRs geometry)). fold filled.
      unfold bind at 1. unfold numpy_random_seed, modify.
      unfold bind at 1. unfold numpy_random_shuffle. cbn [rng set_rng].
      fold materials. fold shuffled.
      unfold bind at 1.
      rewrite (recolor_loop shuffled idx).
      * rewrite take_0, drop_0, drop_ge, take_ge by lia.
        cbn [app]. rewrite app_nil_r. reflexivity.
      * lia.
      * intros j x _ Hx. unfold filled, arange in Hx. rewrite !lookup_map in Hx.
        destruct (seq 0 (Z.to_nat (getNumFSRs geometry)) !! j) as [i|] eqn:Hi;
          [|discriminate].
        injection Hx as <-. apply lookup_seq in Hi. destruct Hi as [-> Hi].
        destruct (Hidx (getFSRMaterialId geometry (Z.of_nat (0 + j)))) as (k & Hk & _).
        -- apply Hmat. lia.
        -- exact Hk.
Qed.

End Materials.

Lemma plot_materials_spec_witness :
  exists colors : list Z,
    length colors = Z.to_nat (getNumFSRs Demo.geometry) /\
    (forall fsr, 0 <= fsr < getNumFSRs Demo.geometry ->
       exists k, colors !! Z.to_nat fsr = Some k /\
                 0 <= k < Z.of_nat (length (getAllMaterials Demo.geometry)) /\
                 fst (np_shuffle (Runtime := Demo.runtime) (np_seed 1)
                        (getAllMaterials Demo.geometry)) !! Z.to_nat k
                 = Some (getFSRMaterialId Demo.geometry fsr)) /\
    plot_materials (R := Demo.runtime) Demo.geometry (PyInt 2) None None PyNone
      Demo.world0
    = (plot_spatial_data Demo.geometry (Some (NdInt colors)) false false
         (PyFloat Float64.zero) (PyInt 2) None None false
         (PyStr ("z = " ++ str_float (Runtime := Demo.runtime) Float64.zero))
         (PyStr "Materials")
         (PyStr ("materials-z-" ++ str_float (Runtime := Demo.runtime) Float64.zero ++ ".png"))
         (Some "nearest") (Some "spectral") (PyInt 0)
         (PyInt (Z.of_nat (length (getAllMaterials Demo.geometry)))) false ;;
       ret tt)
        (set_rng (snd (np_shuffle (np_seed 1) (getAllMaterials Demo.geometry)))
                 (add_events [EvLog "NORMAL" "Plotting the materials..."]
                             Demo.world0)).
Proof.
  apply (proj2 (plot_materials_spec (R := Demo.runtime) demo_laws Demo.geometry
                  (PyInt 2) None None PyNone Float64.zero Demo.world0)).
  - reflexivity.
  - reflexivity.
  - reflexivity.
  - reflexivity.
  - repeat constructor; cbn; intuition discriminate.
  - intros fsr _. cbn. destruct (fsr =? 0); auto.
Defined.

(** ** The eigenmode sweep and the module global *)

Section Eigenmodes.
Context {R : Runtime}.

Lemma keeps_ret {A} (a : A) : keeps_subdirectory (ret a).
Proof. intros w r w' [= <- <-]. reflexivity. Qed.

Lemma keeps_raise {A} (e : exn) : keeps_subdirectory (raise (A := A) e).
Proof. intros w r w' [= <- <-]. reflexivity. Qed.

Lemma keeps_get : keeps_subdirectory get.
Proof. intros w r w' [= <- <-]. reflexivity. Qed.

Lemma keeps_emit (e : event) : keeps_subdirectory (emit e).
Proof. intros w r w' [= <- <-]. reflexivity. Qed.

Lemma keeps_bind {A B} (c : M A) (k : A -> M B) :
  keeps_subdirectory c -> (forall a, keeps_subdirectory (k a)) ->
  keeps_subdirectory (bind c k).
Proof.
  intros Hc Hk w r w'. unfold bind.
  destruct (c w) as [[a|e] w1] eqn:E; intros H.
  - rewrite (Hk a _ _ _ H). exact (Hc _ _ _ E).
  - injection H as <- <-. exact (Hc _ _ _ E).
Qed.

Lemma keeps_when (b : bool) (c : M unit) :
  keeps_subdirectory c -> keeps_subdirectory (when b c).
Proof. destruct b; [auto | intros _; apply keeps_ret]. Qed.

Lemma keeps_from_option {A} (e : exn) (o : option A) :
  keeps_subdirectory (from_option e o).
Proof. destruct o; [apply keeps_ret | apply keeps_raise]. Qed.

Lemma keeps_foldM {A S} (body : S -> A -> M S) (l : list A) :
  (forall s a, keeps_subdirectory (body s a)) ->
  forall s, keeps_subdirectory (foldM body l s).
Proof.
  intros Hb. induction l as [|a l IH]; intros s; cbn [foldM].
  - apply keeps_ret.
  - apply keeps_bind; [apply Hb | exact IH].
Qed.

Lemma keeps_forM_ {A} (l : list A) (body : A -> M unit) :
  (forall a, keeps_subdirectory (body a)) -> keeps_subdirectory (forM_ l body).
Proof. intros Hb. apply keeps_foldM. intros _ a. apply Hb. Qed.

Lemma keeps_mapM {A B} (f : A -> M B) (l : list A) :
  (forall a, keeps_subdirectory (f a)) -> keeps_subdirectory (mapM f l).
Proof.
  intros Hf. induction l as [|a l IH]; cbn [mapM].
  - apply keeps_ret.
  - apply keeps_bind; [apply Hf|]. intros b.
    apply keeps_bind; [exact IH|]. intros bs. apply keeps_ret.
Qed.

Lemma keeps_py_printf (level msg : string) : keeps_subdirectory (py_printf level msg).
Proof.
  unfold py_printf. apply keeps_bind; [apply keeps_emit|]. intros _.
  destruct (String.eqb level "ERROR"); [apply keeps_raise | apply keeps_ret].
Qed.

Lemma keeps_make_directory (d : string) : keeps_subdirectory (make_directory d).
Proof.
  unfold make_directory. apply keeps_bind; [apply keeps_get|]. intros w0.
  destruct (existsb (String.eqb d) (dirs w0)); [apply keeps_ret|].
  destruct (disk_ok w0 d); [|apply keeps_raise].
  apply keeps_bind; [|intros _; apply keeps_emit].
  intros w r w' [= <- <-]. reflexivity.
Qed.

Lemma keeps_savefig (path : string) : keeps_subdirectory (savefig path).
Proof.
  unfold savefig. apply keeps_bind; [apply keeps_get|]. intros w0.
  destruct (disk_ok w0 path); [apply keeps_emit | apply keeps_raise].
Qed.

Lemma keeps_as_int (v : pyval) : keeps_subdirectory (as_int v).
Proof. destruct v; first [apply keeps_ret | apply keeps_raise]. Qed.

Lemma keeps_as_float (v : pyval) : keeps_subdirectory (as_float v).
Proof. destruct v; first [apply keeps_ret | apply keeps_raise]. Qed.

Lemma keeps_setFluxes (eigenvec : list float) : keeps_subdirectory (setFluxes eigenvec).
Proof.
  unfold setFluxes. apply keeps_bind; [|intros _; apply keeps_emit].
  intros w r w' [= <- <-]. reflexivity.
Qed.

(** Steps through a computation built from the pieces above. *)
Ltac keeps_step :=
  first
    [ apply keeps_ret | apply keeps_raise | apply keeps_get | apply keeps_emit
    | apply keeps_py_printf | apply keeps_make_directory | apply keeps_savefig
    | apply keeps_as_int | apply keeps_as_float | apply keeps_from_option
    | apply keeps_setFluxes
    | apply keeps_when
    | apply keeps_bind; [|intros ?]
    | apply keeps_foldM; intros ? ?
    | apply keeps_forM_; intros ?
    | apply keeps_mapM; intros ?
    | match goal with
      | |- keeps_subdirectory (if ?b then _ else _) => destruct b
      | |- keeps_subdirectory (match ?x with _ => _ end) => destruct x
      | |- keeps_subdirectory (let '(_, _) := ?x in _) => destruct x
      end ].

Lemma keeps_check_zcoord (geometry : Geometry) (zcoord : pyval) :
  keeps_subdirectory (_check_zcoord geometry zcoord).
Proof. unfold _check_zcoord. repeat keeps_step. Qed.

Lemma keeps_rasterize (geometry : Geometry) (data : ndarray) (z : float)
    (c : coords) (g : nat) (surface : list (list float)) :
  keeps_subdirectory (rasterize geometry data z c g surface).
Proof. unfold rasterize, sample, setitem2. repeat keeps_step. Qed.

Lemma keeps_postprocess (norm tz : bool) (surface : list (list float)) :
  keeps_subdirectory (postprocess norm tz surface).
Proof. unfold postprocess, normalize. repeat keeps_step. Qed.

Lemma keeps_plot_spatial_data
    (geometry : Geometry) (data : option ndarray) (norm transparent_zeros : bool)
    (zcoord gridsize : pyval) (xlim ylim : option (float * float))
    (colorbar : bool) (title suptitle filename : pyval)
    (interpolation cmap : option string) (vmin vmax : pyval) (get_figure : bool) :
  keeps_subdirectory
    (plot_spatial_data geometry data norm transparent_zeros zcoord gridsize
       xlim ylim colorbar title suptitle filename interpolation cmap vmin vmax
       get_figure).
Proof.
  unfold plot_spatial_data.
  repeat first [ apply keeps_check_zcoord | apply keeps_rasterize
               | apply keeps_postprocess | keeps_step ].
Qed.

Lemma keeps_plot_spatial_fluxes (solver : Solver) (energy_groups : pyseq pyval)
    (norm : bool) (gridsize : pyval) (xlim ylim : option (float * float)) :
  keeps_subdirectory
    (plot_spatial_fluxes solver energy_groups norm gridsize xlim ylim).
Proof.
  unfold plot_spatial_fluxes, get_scalar_fluxes, column.
  repeat first [ apply keeps_plot_spatial_data | keeps_step ].
Qed.

(** A prefix that keeps the global does not change how the call ends. *)
Lemma after_sweep_bind {A B} (c : M A) (k : A -> M B) :
  keeps_subdirectory c ->
  (forall a w1 r w', k a w1 = (r, w') -> after_sweep w1 r w') ->
  forall w r w', bind c k w = (r, w') -> after_sweep w r w'.
Proof.
  intros Hc Hk w r w'. unfold bind.
  destruct (c w) as [[a|e] w1] eqn:E; intros H.
  - specialize (Hk a w1 r w' H). unfold after_sweep in *.
    destruct r; [exact Hk|]. now rewrite <- (Hc _ _ _ E).
  - injection H as <- <-. left. exact (Hc _ _ _ E).
Qed.

(** The loop over the modes: wherever it stops, [subdirectory] is as the loop
    found it or as an iteration set it. *)
Lemma sweep_subdirectory (body : Z -> M unit) (modes : list Z) :
  (forall mode w r w',
      body mode w = (r, w') ->
      subdirectory w' = subdirectory w \/
      exists num_digits,
        subdirectory w'
        = ("/plots/eig-" ++ zfill (str_Z mode) num_digits ++ "-flux/")%string) ->
  forall w r w',
    forM_ modes body w = (r, w') ->
    subdirectory w' = subdirectory w \/
    exists mode num_digits,
      subdirectory w'
      = ("/plots/eig-" ++ zfill (str_Z mode) num_digits ++ "-flux/")%string.
Proof.
  intros Hbody. unfold forM_.
  induction modes as [|mode modes IH]; intros w r w'; cbn [foldM].
  - intros [= <- <-]. now left.
  - unfold bind. destruct (body mode w) as [[[]|e] w1] eqn:E; intros H.
    + destruct (IH _ _ _ H) as [Hsame|Hset]; [|now right].
      rewrite Hsame. destruct (Hbody _ _ _ _ E) as [Hb|[d Hb]]; [now left|].
      right. now exists mode, d.
    + injection H as <- <-.
      destruct (Hbody _ _ _ _ E) as [Hb|[d Hb]]; [now left|].
      right. now exists mode, d.
Qed.

(** C5, as the code has it: when [plot_eigenmode_fluxes] returns, the
    module global [subdirectory] holds its default '/plots/'.  When it
    raises, the reset at the end of the function is not reached:
    [subdirectory] keeps the value it had before the call, or the value
    '/plots/eig-<mode>-flux/' that the sweep gave it for a mode. *)
Theorem plot_eigenmode_fluxes_subdirectory
    (iramsolver : IRAMSolver) (eigenmodes : pyseq pyval) (norm : bool)
    (energy_groups : pyseq pyval) (gridsize : pyval)
    (xlim ylim : option (float * float)) (w w' : world) (r : result unit) :
  plot_eigenmode_fluxes iramsolver eigenmodes norm energy_groups gridsize
    xlim ylim w = (r, w') ->
  match r with
  | Ok _ => subdirectory w' = "/plots/"
  | Raise _ =>
      subdirectory w' = subdirectory w \/
      exists (mode : Z) (num_digits : nat),
        subdirectory w'
        = ("/plots/eig-" ++ zfill (str_Z mode) num_digits ++ "-flux/")%string
  end.
Proof.
  change (plot_eigenmode_fluxes iramsolver eigenmodes norm energy_groups gridsize
            xlim ylim w = (r, w') -> after_sweep w r w').
  unfold plot_eigenmode_fluxes. revert w r w'.
  apply after_sweep_bind; [apply keeps_get|]. intros w0.
  apply after_sweep_bind; [apply keeps_make_directory|]. intros _.
  apply after_sweep_bind; [repeat keeps_step|]. intros _.
  apply after_sweep_bind; [repeat keeps_step|]. intros modes.
  apply after_sweep_bind; [apply keeps_py_printf|]. intros _.
  intros w r w'. unfold bind at 1.
  match goal with
  | |- (let (_, _) := forM_ modes ?body w in _) = _ -> _ =>
      pose proof (sweep_subdirectory body modes) as Hsweep;
      destruct (forM_ modes body w) as [[[]|e] w1] eqn:E
  end.
  - unfold modify. intros [= <- <-]. reflexivity.
  - intros [= <- <-]. refine (Hsweep _ _ _ _ E). clear.
    intros mode w r w'. cbv zeta. unfold bind at 1.
    destruct (setFluxes _ w) as [[[]|e] w1] eqn:E1.
    + pose proof (keeps_setFluxes _ _ _ _ E1) as K1. unfold bind at 1.
      destruct (from_option ValueError (max_modes modes) w1) as [[top|e] w2] eqn:E2.
      * pose proof (keeps_from_option _ _ _ _ _ E2) as K2.
        unfold bind at 1. unfold modify at 1. intros H.
        apply keeps_plot_spatial_fluxes in H. cbn [subdirectory set_subdirectory] in H.
        right. eexists. exact H.
      * pose proof (keeps_from_option _ _ _ _ _ E2) as K2.
        intros [= <- <-]. left. congruence.
    + pose proof (keeps_setFluxes _ _ _ _ E1) as K1.
      intros [= <- <-]. now left.
Qed.

End Eigenmodes.

Lemma plot_eigenmode_fluxes_subdirectory_witness :
  fst (plot_eigenmode_fluxes (R := Demo.runtime) Demo.iramsolver
         (SeqOf [PyInt 1; PyInt 2]) false (SeqOf [PyInt 1]) (PyInt 2)
         None None Demo.world0) = Ok tt /\
  subdirectory
    (snd (plot_eigenmode_fluxes (R := Demo.runtime) Demo.iramsolver
            (SeqOf [PyInt 1; PyInt 2]) false (SeqOf [PyInt 1]) (PyInt 2)
            None None Demo.world0))
  = "/plots/".
Proof.
  assert (Hok : fst (plot_eigenmode_fluxes (R := Demo.runtime) Demo.iramsolver
                       (SeqOf [PyInt 1; PyInt 2]) false (SeqOf [PyInt 1]) (PyInt 2)
                       None None Demo.world0) = Ok tt)
    by (vm_compute; reflexivity).
  split; [exact Hok|].
  destruct (plot_eigenmode_fluxes (R := Demo.runtime) Demo.iramsolver
              (SeqOf [PyInt 1; PyInt 2]) false (SeqOf [PyInt 1]) (PyInt 2)
              None None Demo.world0) as [r w'] eqn:Hrun.
  cbn [fst snd] in *. subst r.
  exact (plot_eigenmode_fluxes_subdirectory (R := Demo.runtime)
           Demo.iramsolver (SeqOf [PyInt 1; PyInt 2]) false (SeqOf [PyInt 1])
           (PyInt 2) None None Demo.world0 w' (Ok tt) Hrun).
Defined.

(** A sweep over the modes 1 and 2 in which saving the figure of mode 2
    fails: the exception leaves [plot_eigenmode_fluxes], and [subdirectory]
    still names the directory of mode 2. *)
Lemma failed_mode_leaves_subdirectory :
  let outcome :=
    plot_eigenmode_fluxes (R := Demo.runtime) Demo.iramsolver
      (SeqOf [PyInt 1; PyInt 2]) false (SeqOf [PyInt 1]) (PyInt 2) None None
      Demo.world_mode2_fails in
  subdirectory Demo.world_mode2_fails = "/plots/" /\
  fst outcome = Raise (IOError "out/plots/eig-2-flux/fsr-flux-group-1-z-0.0.png") /\
  subdirectory (snd outcome) = "/plots/eig-2-flux/" /\
  subdirectory (snd outcome) <> "/plots/".
Proof.
  vm_compute. repeat split. discriminate.
Qed.

(** ** Binary64 arithmetic: division and order *)

Section Binary64.

Local Abbreviation prec := Float64.prec.
Local Abbreviation emax := Float64.emax.
Local Abbreviation one := Float64.one.
Local Abbreviation is_nan := Float64.is_nan.
Local Abbreviation flagged := Float64.flagged.
Local Abbreviation rank := Float64.rank.
Local Abbreviation lex_le := Float64.lex_le.

(** *** Digit counts *)
Lemma digits2_pos_bounds (p : positive) :
  2 ^ (Z.pos (digits2_pos p) - 1) <= Z.pos p < 2 ^ Z.pos (digits2_pos p).
Proof.
  induction p as [p IH|p IH|]; cbn [digits2_pos].
  - rewrite Pos2Z.inj_succ.
    replace (Z.succ (Z.pos (digits2_pos p)) - 1) with (Z.succ (Z.pos (digits2_pos p) - 1)) by lia.
    rewrite !Z.pow_succ_r by lia. lia.
  - rewrite Pos2Z.inj_succ.
    replace (Z.succ (Z.pos (digits2_pos p)) - 1) with (Z.succ (Z.pos (digits2_pos p) - 1)) by lia.
    rewrite !Z.pow_succ_r by lia. lia.
  - cbn. lia.
Qed.

Lemma Zdigits2_nonneg (m : Z) : 0 <= Zdigits2 m.
Proof. destruct m; cbn; lia. Qed.

Lemma Zdigits2_le_pow (m k : Z) : 0 <= k -> 0 <= m <= 2 ^ k -> Zdigits2 m <= k + 1.
Proof.
  intros Hk [H0 Hm]. destruct m as [|p|p]; cbn [Zdigits2]; [lia| |lia].
  destruct (digits2_pos_bounds p) as [Hlo _].
  destruct (Z_le_gt_dec (Z.pos (digits2_pos p)) (k + 1)) as [|Hgt]; [assumption|].
  exfalso.
  assert (2 ^ (k + 1) <= 2 ^ (Z.pos (digits2_pos p) - 1)) by (apply Z.pow_le_mono_r; lia).
  rewrite Z.pow_add_r in H by lia. lia.
Qed.

Lemma digits2_pos_mono (p q : positive) :
  (p <= q)%positive -> Z.pos (digits2_pos p) <= Z.pos (digits2_pos q).
Proof.
  intros Hpq.
  destruct (digits2_pos_bounds p) as [Hlo _].
  destruct (digits2_pos_bounds q) as [_ Hhi].
  destruct (Z_le_gt_dec (Z.pos (digits2_pos p)) (Z.pos (digits2_pos q))) as [|Hgt]; [assumption|].
  exfalso.
  assert (2 ^ Z.pos (digits2_pos q) <= 2 ^ (Z.pos (digits2_pos p) - 1)) by (apply Z.pow_le_mono_r; lia).
  lia.
Qed.

(** *** Shifts and rounding *)
Lemma iter_pos_nat {A} (f : A -> A) (p : positive) :
  forall x, SpecFloat.iter_pos f p x = Nat.iter (Pos.to_nat p) f x.
Proof.
  induction p as [p IH|p IH|]; intros x; cbn [SpecFloat.iter_pos].
  - rewrite !IH, Pos2Nat.inj_xI.
    replace (S (2 * Pos.to_nat p)) with (Pos.to_nat p + (Pos.to_nat p + 1))%nat by lia.
    rewrite !Nat.iter_add. reflexivity.
  - rewrite !IH, Pos2Nat.inj_xO.
    replace (2 * Pos.to_nat p)%nat with (Pos.to_nat p + Pos.to_nat p)%nat by lia.
    rewrite Nat.iter_add. reflexivity.
  - reflexivity.
Qed.

Lemma shr_1_spec (mrs : shr_record) :
  0 <= shr_m mrs ->
  0 <= shr_m (shr_1 mrs) /\
  shr_m mrs = 2 * shr_m (shr_1 mrs) + (if shr_r (shr_1 mrs) then 1 else 0) /\
  shr_s (shr_1 mrs) = shr_r mrs || shr_s mrs.
Proof.
  destruct mrs as [m r s]. cbn [shr_m]. intros Hm.
  destruct m as [|[p|p|]|p]; cbn; try lia; repeat split; lia.
Qed.

Lemma shr_iter_spec (k : nat) (mrs : shr_record) :
  0 <= shr_m mrs ->
  let mrs' := Nat.iter k shr_1 mrs in
  0 <= shr_m mrs' /\
  shr_m mrs' * 2 ^ Z.of_nat k <= shr_m mrs /\
  (flagged mrs' = true ->
   flagged mrs = true \/ shr_m mrs' * 2 ^ Z.of_nat k < shr_m mrs).
Proof.
  intros Hm. induction k as [|k IH].
  - cbn. repeat split; try lia. auto.
  - cbn zeta in *.
    change (Nat.iter (S k) shr_1 mrs) with (shr_1 (Nat.iter k shr_1 mrs)).
    destruct IH as (H0 & Hle & Hflag).
    destruct (shr_1_spec (Nat.iter k shr_1 mrs) H0) as (H0' & Hdiv & Hs).
    set (cur := Nat.iter k shr_1 mrs) in *.
    set (nxt := shr_1 cur) in *.
    rewrite Nat2Z.inj_succ, Z.pow_succ_r by lia.
    assert (Hp : 0 < 2 ^ Z.of_nat k) by (apply Z.pow_pos_nonneg; lia).
    assert (E : shr_m cur * 2 ^ Z.of_nat k
                = shr_m nxt * (2 * 2 ^ Z.of_nat k)
                  + (if shr_r nxt then 2 ^ Z.of_nat k else 0)).
    { rewrite Hdiv. destruct (shr_r nxt); ring. }
    unfold flagged at 1. clearbody nxt cur. clear Hdiv.
    destruct (shr_r nxt).
    + split; [lia|]. split; [lia|]. intros _. right. lia.
    + split; [lia|]. split; [lia|]. cbn [orb]. rewrite Hs. intros Hf.
      destruct (Hflag Hf) as [|Hlt]; [now left|]. right. lia.
Qed.

Lemma flagged_of_loc (m : Z) (l : location) :
  shr_m (shr_record_of_loc m l) = m /\
  (flagged (shr_record_of_loc m l) = true -> l <> loc_Exact).
Proof.
  destruct l as [|[| |]]; cbn; split; try reflexivity; intros; discriminate.
Qed.

Lemma fexp_unfold (x : Z) : fexp prec emax x = Z.max (x - 53) (-1074).
Proof. reflexivity. Qed.

(** Shifting to the exponent the format asks for only truncates. *)
Lemma shr_fexp_spec (m e : Z) (l : location) :
  0 <= m ->
  exists mrs e2,
    shr_fexp prec emax m e l = (mrs, e2) /\
    e2 = Z.max e (fexp prec emax (Zdigits2 m + e)) /\
    0 <= shr_m mrs /\
    shr_m mrs * 2 ^ (e2 - e) <= m /\
    (flagged mrs = true -> l <> loc_Exact \/ shr_m mrs * 2 ^ (e2 - e) < m).
Proof.
  intros Hm. unfold shr_fexp, shr.
  destruct (flagged_of_loc m l) as [Hrec Hfl].
  destruct (fexp prec emax (Zdigits2 m + e) - e) as [|p|p] eqn:Hn.
  - eexists _, _. split; [reflexivity|]. split; [lia|].
    rewrite Hrec. replace (e - e) with 0 by lia. cbn [Z.pow].
    repeat split; try lia. intros H. left. now apply Hfl.
  - eexists _, _. split; [reflexivity|]. split; [lia|].
    rewrite iter_pos_nat.
    destruct (shr_iter_spec (Pos.to_nat p) (shr_record_of_loc m l)) as (H0 & Hle & Hflag).
    { now rewrite Hrec. }
    rewrite Hrec in *. rewrite positive_nat_Z in *.
    replace (e + Z.pos p - e) with (Z.pos p) by lia.
    repeat split; try assumption.
    intros H. destruct (Hflag H) as [H'|H']; [left; now apply Hfl | now right].
  - eexists _, _. split; [reflexivity|]. split; [lia|].
    rewrite Hrec. replace (e - e) with 0 by lia. cbn [Z.pow].
    repeat split; try lia. intros H. left. now apply Hfl.
Qed.

Lemma round_nearest_even_cases (mrs : shr_record) :
  round_nearest_even (shr_m mrs) (loc_of_shr_record mrs) = shr_m mrs \/
  (round_nearest_even (shr_m mrs) (loc_of_shr_record mrs) = shr_m mrs + 1 /\
   flagged mrs = true).
Proof.
  destruct mrs as [m [|] [|]]; cbn; auto.
  destruct (Z.even m); auto.
Qed.

Lemma pow2_pos (k : Z) : 0 <= k -> 0 < 2 ^ k.
Proof. intros. apply Z.pow_pos_nonneg; lia. Qed.

(** Rounding a quotient that does not exceed one: the result does not exceed
    one either. *)
Lemma binary_round_aux_le_one (sx : bool) (q e : Z) (l : location) :
  0 <= q -> e <= -52 -> q <= 2 ^ (- e) -> (l <> loc_Exact -> q < 2 ^ (- e)) ->
  binary_round_aux prec emax sx q e l = S754_zero sx \/
  exists m3 e3,
    binary_round_aux prec emax sx q e l = S754_finite sx m3 e3 /\
    e3 <= -52 /\ Z.pos m3 <= 2 ^ (- e3).
Proof.
  intros Hq He Hle Hlt. unfold binary_round_aux.
  destruct (shr_fexp_spec q e l Hq) as (mrs1 & e1 & -> & He1 & H1 & Hle1 & Hfl1).
  assert (Hd : Zdigits2 q <= - e + 1) by (apply Zdigits2_le_pow; lia).
  rewrite fexp_unfold in He1.
  assert (He1' : e1 <= -52) by lia.
  assert (He1e : e <= e1) by lia.
  assert (Hpow : 2 ^ (- e) = 2 ^ (- e1) * 2 ^ (e1 - e)).
  { rewrite <- Z.pow_add_r by lia. f_equal. lia. }
  assert (HP : 0 < 2 ^ (e1 - e)) by (apply pow2_pos; lia).
  assert (Hm1 : shr_m mrs1 <= 2 ^ (- e1)).
  { apply (Z.mul_le_mono_pos_r _ _ (2 ^ (e1 - e))); [exact HP|]. lia. }
  assert (Hm1' : flagged mrs1 = true -> shr_m mrs1 < 2 ^ (- e1)).
  { intros Hf. apply (Z.mul_lt_mono_pos_r (2 ^ (e1 - e))); [exact HP|].
    destruct (Hfl1 Hf) as [Hl|Hl]; [specialize (Hlt Hl)|]; lia. }
  set (m2 := round_nearest_even (shr_m mrs1) (loc_of_shr_record mrs1)).
  assert (Hm2 : 0 <= m2 <= 2 ^ (- e1)).
  { destruct (round_nearest_even_cases mrs1) as [E|[E Hf]]; fold m2 in E; rewrite E.
    - lia.
    - specialize (Hm1' Hf). lia. }
  destruct (shr_fexp_spec m2 e1 loc_Exact (proj1 Hm2))
    as (mrs3 & e3 & -> & He3 & H3 & Hle3 & _).
  assert (Hd2 : Zdigits2 m2 <= - e1 + 1) by (apply Zdigits2_le_pow; lia).
  rewrite fexp_unfold in He3.
  assert (He3' : e3 <= -52) by lia.
  assert (Hpow3 : 2 ^ (- e1) = 2 ^ (- e3) * 2 ^ (e3 - e1)).
  { rewrite <- Z.pow_add_r by lia. f_equal. lia. }
  assert (HP3 : 0 < 2 ^ (e3 - e1)) by (apply pow2_pos; lia).
  assert (Hm3 : shr_m mrs3 <= 2 ^ (- e3)).
  { apply (Z.mul_le_mono_pos_r _ _ (2 ^ (e3 - e1))); [exact HP3|]. lia. }
  destruct (shr_m mrs3) as [|m3|m3] eqn:Em3.
  - now left.
  - right. exists m3, e3.
    replace (e3 <=? emax - prec) with true by (symmetry; apply Z.leb_le; unfold emax, prec; lia).
    auto.
  - lia.
Qed.

(** With a non-negative mantissa, rounding keeps the sign and never yields
    a NaN. *)
Lemma binary_round_aux_sign (sx : bool) (q e : Z) (l : location) :
  0 <= q ->
  match binary_round_aux prec emax sx q e l with
  | S754_zero s | S754_infinity s | S754_finite s _ _ => s = sx
  | S754_nan => False
  end.
Proof.
  intros Hq. unfold binary_round_aux.
  destruct (shr_fexp_spec q e l Hq) as (mrs1 & e1 & -> & _ & H1 & _ & Hfl1).
  assert (Hm2 : 0 <= round_nearest_even (shr_m mrs1) (loc_of_shr_record mrs1)).
  { destruct (round_nearest_even_cases mrs1) as [E|[E _]]; rewrite E; lia. }
  destruct (shr_fexp_spec _ e1 loc_Exact Hm2) as (mrs3 & e3 & -> & _ & H3 & _ & _).
  destruct (shr_m mrs3) as [|m3|m3]; [reflexivity| |lia].
  destruct (e3 <=? emax - prec); reflexivity.
Qed.

Lemma new_location_exact (n r : Z) : new_location n r <> loc_Exact -> r <> 0.
Proof.
  intros H ->. apply H. unfold new_location, new_location_even, new_location_odd.
  destruct (Z.even n); reflexivity.
Qed.

(** The integer division at the heart of [SFdiv]. *)
Lemma SFdiv_core_binary_spec (mx : positive) (ex : Z) (my : positive) (ey : Z) :
  exists q e l,
    SFdiv_core_binary prec emax (Z.pos mx) ex (Z.pos my) ey = (q, e, l) /\
    e = Z.min (fexp prec emax (Z.pos (digits2_pos mx) + ex - (Z.pos (digits2_pos my) + ey)))
              (ex - ey) /\
    0 <= q /\
    (ex <= ey -> Z.pos mx <= Z.pos my * 2 ^ (ey - ex) ->
     q <= 2 ^ (- e) /\ (l <> loc_Exact -> q < 2 ^ (- e))).
Proof.
  unfold SFdiv_core_binary. cbn [Zdigits2].
  set (e := Z.min (fexp prec emax (Z.pos (digits2_pos mx) + ex - (Z.pos (digits2_pos my) + ey)))
                  (ex - ey)).
  set (s := ex - ey - e).
  assert (Hs : 0 <= s) by (unfold s, e; lia).
  set (m' := match s with
             | 0 => Z.pos mx
             | Z.pos _ => Z.shiftl (Z.pos mx) s
             | Z.neg _ => 0
             end).
  assert (Hm' : m' = Z.pos mx * 2 ^ s).
  { unfold m'. destruct s as [|p|p] eqn:Es.
    - cbn. lia.
    - apply Z.shiftl_mul_pow2. lia.
    - lia. }
  assert (HS : 0 < 2 ^ s) by (apply pow2_pos; lia).
  pose proof (Z_div_mod m' (Z.pos my) eq_refl) as Hdiv.
  destruct (Z.div_eucl m' (Z.pos my)) as [q r].
  destruct Hdiv as [Hdiv Hr].
  exists q, e, (new_location (Z.pos my) r). split; [reflexivity|]. split; [reflexivity|].
  assert (Hq : 0 <= q) by nia.
  split; [exact Hq|].
  intros Hex HA.
  assert (He : e <= 0) by (unfold e; lia).
  assert (Hpow : 2 ^ (- e) = 2 ^ (ey - ex) * 2 ^ s).
  { rewrite <- Z.pow_add_r by lia. f_equal. unfold s. lia. }
  assert (HB : m' <= Z.pos my * 2 ^ (- e)).
  { rewrite Hm', Hpow, Z.mul_assoc. apply Z.mul_le_mono_nonneg_r; lia. }
  split.
  - apply (Z.mul_le_mono_pos_l _ _ (Z.pos my)); lia.
  - intros Hl. apply new_location_exact in Hl.
    apply (Z.mul_lt_mono_pos_l (Z.pos my)); lia.
Qed.

(** Canonical mantissas: the comparison of two positive floats is the
    comparison of their values. *)
Lemma bounded_canonical (m : positive) (e : Z) :
  bounded prec emax m e = true ->
  e = Z.max (Z.pos (digits2_pos m) + e - 53) (-1074).
Proof.
  unfold bounded, canonical_mantissa. intros H.
  apply andb_true_iff in H. destruct H as [H _].
  apply Z.eqb_eq in H. rewrite fexp_unfold in H. lia.
Qed.

Lemma leb_finite_pos (mx : positive) (ex : Z) (my : positive) (ey : Z) :
  SFleb (S754_finite false mx ex) (S754_finite false my ey) = true <->
  ex < ey \/ (ex = ey /\ Z.pos mx <= Z.pos my).
Proof.
  unfold SFleb, SFcompare. rewrite Pos.compare_cont_spec. cbn [Pos.switch_Eq].
  destruct (Z.compare_spec ex ey) as [->|Hlt|Hgt].
  - destruct (Pos.compare_spec mx my) as [->|H|H]; cbn.
    + split; [intros _; right; split; [reflexivity | lia] | reflexivity].
    + split; [intros _; right; split; [reflexivity | lia] | reflexivity].
    + split; [discriminate | intros [Hlt|[_ Hle]]; lia].
  - split; [intros _; now left | reflexivity].
  - split; [discriminate | intros [Hlt|[Heq _]]; lia].
Qed.

Lemma leb_quotient_bound (mx : positive) (ex : Z) (my : positive) (ey : Z) :
  bounded prec emax mx ex = true ->
  bounded prec emax my ey = true ->
  SFleb (S754_finite false mx ex) (S754_finite false my ey) = true ->
  ex <= ey /\
  Z.pos (digits2_pos mx) + ex <= Z.pos (digits2_pos my) + ey /\
  Z.pos mx <= Z.pos my * 2 ^ (ey - ex).
Proof.
  intros Hbx Hby Hle.
  apply bounded_canonical in Hbx, Hby.
  apply leb_finite_pos in Hle.
  destruct (digits2_pos_bounds mx) as [_ Hx].
  destruct (digits2_pos_bounds my) as [Hy _].
  destruct Hle as [Hlt|[-> Hm]].
  - assert (Hd : Z.pos (digits2_pos mx) + ex < Z.pos (digits2_pos my) + ey) by lia.
    repeat split; try lia.
    assert (2 ^ Z.pos (digits2_pos mx)
            <= 2 ^ (Z.pos (digits2_pos my) - 1) * 2 ^ (ey - ex)).
    { rewrite <- Z.pow_add_r by lia. apply Z.pow_le_mono_r; lia. }
    assert (0 < 2 ^ (ey - ex)) by (apply pow2_pos; lia).
    nia.
  - assert (Hm' : (mx <= my)%positive) by lia.
    pose proof (digits2_pos_mono mx my Hm').
    replace (ey - ey) with 0 by lia. cbn [Z.pow]. lia.
Qed.

(** A positive finite number divided by itself is exactly one. *)
Lemma SFdiv_self (m : positive) (e : Z) :
  SFdiv prec emax (S754_finite false m e) (S754_finite false m e) = one.
Proof.
  unfold SFdiv, SFdiv_core_binary. cbn [Zdigits2].
  replace (Z.pos (digits2_pos m) + e - (Z.pos (digits2_pos m) + e)) with 0 by lia.
  replace (e - e) with 0 by lia.
  change (Z.min (fexp prec emax 0) 0) with (-53).
  change (0 - -53) with 53.
  rewrite Z.shiftl_mul_pow2 by lia.
  pose proof (Z_div_mod (Z.pos m * 2 ^ 53) (Z.pos m) eq_refl) as Hdiv.
  destruct (Z.div_eucl (Z.pos m * 2 ^ 53) (Z.pos m)) as [q r].
  destruct Hdiv as [Hdiv Hr].
  assert (Hq : q = 2 ^ 53) by nia.
  assert (Hr0 : r = 0) by nia.
  subst q r.
  replace (new_location (Z.pos m) 0) with loc_Exact
    by (unfold new_location, new_location_even, new_location_odd;
        destruct (Z.even (Z.pos m)); reflexivity).
  reflexivity.
Qed.

Lemma leb_negative_one (x : spec_float) :
  match x with
  | S754_zero s | S754_infinity s | S754_finite s _ _ => s = true
  | S754_nan => False
  end ->
  SFleb x one = true.
Proof. destruct x as [s|s| |s m e]; intros H; try contradiction; subst; reflexivity. Qed.

(** Division by a positive finite number that is at least as large gives at
    most one. *)
Lemma SFdiv_le_one (x m : spec_float) :
  valid_binary prec emax x = true ->
  valid_binary prec emax m = true ->
  match m with S754_finite false _ _ => True | _ => False end ->
  SFleb x m = true ->
  SFleb (SFdiv prec emax x m) one = true.
Proof.
  intros Hvx Hvm Hm Hle.
  destruct m as [| | |[|] my ey]; try contradiction. clear Hm.
  destruct x as [s|[|]| |[|] mx ex]; try discriminate Hle.
  - destruct s; reflexivity.
  - reflexivity.
  - cbn [SFdiv xorb].
    destruct (SFdiv_core_binary_spec mx ex my ey) as (q & e & l & -> & _ & Hq & _).
    apply leb_negative_one. now apply binary_round_aux_sign.
  - cbn [SFdiv xorb]. cbn [valid_binary] in Hvx, Hvm.
    destruct (leb_quotient_bound mx ex my ey Hvx Hvm Hle) as (Hex & Hd & HA).
    destruct (SFdiv_core_binary_spec mx ex my ey) as (q & e & l & -> & He & Hq & Hbound).
    destruct (Hbound Hex HA) as [Hq1 Hq2].
    rewrite fexp_unfold in He.
    destruct (binary_round_aux_le_one false q e l) as [->|(m3 & e3 & -> & He3 & Hm3)];
      try assumption; try lia.
    + reflexivity.
    + apply leb_finite_pos.
      destruct (Z_lt_le_dec e3 (-52)) as [|Hge]; [now left|].
      right. assert (e3 = -52) by lia. subst e3. split; [reflexivity|].
      exact Hm3.
Qed.

(** *** The order on the numbers that are not NaN *)

Lemma leb_rank (x y : spec_float) :
  is_nan x = false -> is_nan y = false ->
  (SFleb x y = true <-> lex_le (rank x) (rank y)).
Proof.
  unfold SFleb, lex_le.
  destruct x as [sx|sx| |sx mx ex]; destruct y as [sy|sy| |sy my ey];
    try discriminate; intros _ _;
    try (destruct sx; destruct sy; cbn; split; intros; try discriminate; lia).
  cbn [SFcompare]. rewrite Pos.compare_cont_spec. cbn [Pos.switch_Eq].
  destruct sx, sy; cbn [rank fst snd].
  - destruct (Z.compare_spec ex ey) as [->|H|H].
    + destruct (Pos.compare_spec mx my) as [->|H|H]; cbn;
        split; intros; try discriminate; lia.
    + split; intros; try discriminate; lia.
    + split; intros; try discriminate; lia.
  - split; intros; try discriminate; lia.
  - split; intros; try discriminate; lia.
  - destruct (Z.compare_spec ex ey) as [->|H|H].
    + destruct (Pos.compare_spec mx my) as [->|H|H]; cbn;
        split; intros; try discriminate; lia.
    + split; intros; try discriminate; lia.
    + split; intros; try discriminate; lia.
Qed.

Lemma leb_not_nan (x y : spec_float) :
  SFleb x y = true -> is_nan x = false /\ is_nan y = false.
Proof. destruct x, y; cbn; intros H; try discriminate; auto. Qed.

Lemma leb_refl (x : spec_float) : is_nan x = false -> SFleb x x = true.
Proof. intros H. apply leb_rank; try assumption. unfold lex_le. lia. Qed.

Lemma leb_trans (x y z : spec_float) :
  SFleb x y = true -> SFleb y z = true -> SFleb x z = true.
Proof.
  intros Hxy Hyz.
  destruct (leb_not_nan _ _ Hxy) as [Hx Hy].
  destruct (leb_not_nan _ _ Hyz) as [_ Hz].
  apply leb_rank in Hxy, Hyz; try assumption.
  apply leb_rank; try assumption. unfold lex_le in *. lia.
Qed.

Lemma leb_total (x y : spec_float) :
  is_nan x = false -> is_nan y = false -> SFleb x y = false -> SFleb y x = true.
Proof.
  intros Hx Hy Hxy. apply leb_rank; try assumption.
  destruct (SFleb x y) eqn:E; [discriminate|].
  assert (H : ~ lex_le (rank x) (rank y)).
  { intros H. apply leb_rank in H; try assumption. congruence. }
  unfold lex_le in *. lia.
Qed.

Lemma leb_one_antisym (x : spec_float) :
  SFleb x one = true -> SFleb one x = true -> x = one.
Proof.
  intros H1 H2.
  destruct (leb_not_nan _ _ H1) as [Hx _].
  apply leb_rank in H1, H2; try assumption; try reflexivity.
  unfold lex_le in *.
  destruct x as [s|[|]| |[|] m e]; cbn in *; try lia.
  assert (e = -52) by lia. assert (Z.pos m = 4503599627370496) by lia.
  unfold one. congruence.
Qed.

End Binary64.

(** ** Normalization to the maximum *)

Section Normalize.
Context {R : Runtime}.

Lemma fold_maximum_in (l : list float) :
  forall x, fold_left np_maximum l x = x \/ In (fold_left np_maximum l x) l.
Proof.
  induction l as [|a l IH]; intros x; [now left|].
  cbn [fold_left]. destruct (IH (np_maximum x a)) as [E|Hin].
  - rewrite E. unfold np_maximum.
    destruct (Float64.leb a x || Float64.is_nan x); [now left | right; now left].
  - right. now right.
Qed.

Lemma np_maximum_cases (x a : float) :
  (SFleb a x = true /\ np_maximum x a = x) \/
  (SFleb a x = false /\ Float64.is_nan x = true /\ np_maximum x a = x) \/
  (SFleb a x = false /\ Float64.is_nan x = false /\ np_maximum x a = a).
Proof.
  unfold np_maximum, Float64.leb.
  destruct (SFleb a x); [now left|].
  destruct (Float64.is_nan x); cbn; auto.
Qed.

(** A maximum that is a number bounds every element. *)
Lemma fold_maximum_upper (l : list float) :
  forall x,
    Float64.is_nan (fold_left np_maximum l x) = false ->
    SFleb x (fold_left np_maximum l x) = true /\
    forall y, In y l -> SFleb y (fold_left np_maximum l x) = true.
Proof.
  induction l as [|a l IH]; intros x Hr.
  - cbn in *. split; [now apply leb_refl | intros y []].
  - cbn [fold_left] in *. destruct (IH _ Hr) as [Hacc Hall].
    destruct (leb_not_nan _ _ Hacc) as [Hnan _].
    destruct (np_maximum_cases x a) as [[Ha E]|[(Ha & Hx & E)|(Ha & Hx & E)]];
      rewrite E in *.
    + split; [exact Hacc|]. intros y [<-|Hy]; [|now apply Hall].
      eapply leb_trans; eauto.
    + congruence.
    + split.
      * eapply leb_trans; [|exact Hacc]. now apply leb_total.
      * intros y [<-|Hy]; [exact Hacc | now apply Hall].
Qed.

Lemma positive_finite_shape (m : float) :
  Float64.ltb Float64.zero m = true -> Float64.is_finite m = true ->
  exists mm em, m = S754_finite false mm em.
Proof.
  destruct m as [s|s| |[|] mm em]; cbn; intros H1 H2; try discriminate; eauto.
Qed.

(** C6: when the maximum of the field is positive and finite, the field
    divided by that maximum has maximum exactly 1.0 (on fields of binary64
    numbers). *)
Theorem normalize_max_is_one (surface : list (list float)) (m : float) (w : world) :
  Forall (Forall (fun v => Float64.valid v = true)) surface ->
  np_max surface = Some m ->
  Float64.ltb Float64.zero m = true ->
  Float64.is_finite m = true ->
  exists surface',
    normalize surface w = (Ok surface', w) /\
    np_max surface' = Some Float64.one.
Proof.
  intros Hvalid Hmax Hpos Hfin.
  unfold normalize. rewrite Hmax. cbn [from_option]. unfold bind, ret.
  eexists. split; [reflexivity|].
  unfold np_max in *. rewrite <- concat_map.
  assert (Hval : forall y, In y (concat surface) -> Float64.valid y = true).
  { intros y Hy. apply in_concat in Hy. destruct Hy as (row & Hrow & Hy).
    rewrite List.Forall_forall in Hvalid. specialize (Hvalid row Hrow).
    rewrite List.Forall_forall in Hvalid. now apply Hvalid. }
  destruct (concat surface) as [|x0 rest]; [discriminate|].
  cbn [max_list map] in *. injection Hmax as Hm. f_equal.
  destruct (positive_finite_shape m Hpos Hfin) as (mm & em & Em).
  assert (Hmnan : Float64.is_nan m = false) by (rewrite Em; reflexivity).
  assert (Hmin : In m (x0 :: rest)).
  { rewrite <- Hm. destruct (fold_maximum_in rest x0) as [E|Hin];
      [rewrite E; now left | now right]. }
  assert (Hupper : forall y, In y (x0 :: rest) -> SFleb y m = true).
  { rewrite <- Hm in Hmnan. destruct (fold_maximum_upper rest x0 Hmnan) as [H0 Hall].
    rewrite Hm in *. intros y [<-|Hy]; [exact H0 | now apply Hall]. }
  set (f := fun v => Float64.div v m).
  assert (Hle : forall y, In y (x0 :: rest) -> SFleb (f y) Float64.one = true).
  { intros y Hy. unfold f, Float64.div. apply SFdiv_le_one.
    - now apply Hval.
    - now apply Hval.
    - now rewrite Em.
    - now apply Hupper. }
  assert (Hone : In Float64.one (f x0 :: map f rest)).
  { change (f x0 :: map f rest) with (map f (x0 :: rest)).
    apply in_map_iff. exists m. split; [|exact Hmin].
    unfold f, Float64.div. rewrite Em. apply SFdiv_self. }
  set (r := fold_left np_maximum (map f rest) (f x0)).
  assert (Hrin : In r (f x0 :: map f rest)).
  { destruct (fold_maximum_in (map f rest) (f x0)) as [E|Hin];
      [left; symmetry; exact E | right; exact Hin]. }
  assert (Hr1 : SFleb r Float64.one = true).
  { change (f x0 :: map f rest) with (map f (x0 :: rest)) in Hrin.
    apply in_map_iff in Hrin. destruct Hrin as (y & <- & Hy). now apply Hle. }
  apply leb_one_antisym; [exact Hr1|].
  destruct (leb_not_nan _ _ Hr1) as [Hrnan _].
  destruct (fold_maximum_upper (map f rest) (f x0) Hrnan) as [H0 Hall].
  destruct Hone as [<-|Hin]; [exact H0 | now apply Hall].
Qed.

End Normalize.

Lemma normalize_max_is_one_witness :
  exists surface',
    normalize (R := Demo.runtime)
      [[Float64.of_Z 5; Float64.of_Z 7]; [Float64.neg_one; Float64.of_Z 7]]
      Demo.world0 = (Ok surface', Demo.world0) /\
    np_max surface' = Some Float64.one.
Proof.
  apply (normalize_max_is_one (R := Demo.runtime)
           [[Float64.of_Z 5; Float64.of_Z 7]; [Float64.neg_one; Float64.of_Z 7]]
           (Float64.of_Z 7) Demo.world0).
  - repeat constructor.
  - reflexivity.
  - reflexivity.
  - reflexivity.
Defined.

(** ** [plot_spatial_data]: what is rejected and what is drawn *)

Section SpatialData.
Context {R : Runtime}.






Lemma caption_run (call : string -> event) (caption : pyval) (w : world) :
  negb (truthy caption && negb (is_str caption)) = true ->
  when (truthy caption)
       (match caption with PyStr t => emit (call t) | _ => raise TypeError end) w
  = (Ok tt, add_events (caption_events call caption) w).
Proof.
  intros H. unfold caption_events.
  destruct caption as [|z|f|t]; cbn [is_str negb andb] in *.
  - cbn. now rewrite add_events_nil.
  - rewrite andb_true_r in H. apply negb_true_iff in H. rewrite H.
    cbn. now rewrite add_events_nil.
  - rewrite andb_true_r in H. apply negb_true_iff in H. rewrite H.
    cbn. now rewrite add_events_nil.
  - destruct (truthy (PyStr t)); cbn [when]; [apply emit_run|].
    cbn. now rewrite add_events_nil.
Qed.

(** A surface with an entry has a maximum. *)
Lemma np_max_defined (surface : list (list float)) (j i : nat) :
  is_Some (entry surface j i) -> is_Some (np_max surface).
Proof.
  unfold entry, np_max. intros [v Hv].
  destruct (surface !! j) as [row|] eqn:Hrow; [|discriminate].
  assert (Hin : In v (concat surface)).
  { apply in_concat. exists row. split.
    - apply list_elem_of_In. eapply list_elem_of_lookup_2; eauto.
    - apply list_elem_of_In. eapply list_elem_of_lookup_2; eauto. }
  destruct (concat surface); [destruct Hin | cbn; eauto].
Qed.

(** A call whose arguments pass the checks, up to the world the creation of
    the directory leaves. *)
Lemma plot_spatial_data_run
    (geometry : Geometry) (data : ndarray) (norm transparent_zeros : bool)
    (zcoord : pyval) (gridsize : Z) (xlim ylim : option (float * float))
    (colorbar : bool) (title suptitle : pyval) (filename : string)
    (interpolation cmap : option string) (vmin vmax : pyval)
    (get_figure : bool) (z : float) (w : world) :
  let directory := (output_directory w ++ subdirectory w)%string in
  let coords := _get_pixel_coords geometry gridsize xlim ylim in
  arguments_ok geometry (Some data) zcoord (PyInt gridsize) title suptitle
    (PyStr filename) = true ->
  zcoord_or_default zcoord = PyFloat z ->
  (forall i j x y k,
      coords_y coords !! i = Some x -> coords_x coords !! j = Some y ->
      getFSRId geometry x y z = Some k -> is_Some (getitem data k)) ->
  existsb (String.eqb directory) (dirs w) || disk_ok w directory = true ->
  (get_figure = false -> disk_ok w (directory ++ filename)%string = true) ->
  exists (surface shown : list (list float)) (w1 : world),
    make_directory directory w = (Ok tt, w1) /\
    (forall i j x y,
        coords_y coords !! i = Some x -> coords_x coords !! j = Some y ->
        entry surface j i = pixel_value geometry data z x y) /\
    postprocess norm transparent_zeros surface w = (Ok shown, w) /\
    let fig := {| img_data := flipud shown;
                  img_extent := coords_bounds coords;
                  img_cmap := cmap; img_vmin := vmin; img_vmax := vmax;
                  img_interpolation := interpolation |} in
    plot_spatial_data geometry (Some data) norm transparent_zeros zcoord
      (PyInt gridsize) xlim ylim colorbar title suptitle (PyStr filename)
      interpolation cmap vmin vmax get_figure w
    = (Ok (if get_figure then Some fig else None),
       add_events
         (sweep_queries (coords_y coords) (coords_x coords) z
          ++ drawing_events fig colorbar title suptitle get_figure
               (directory ++ filename)%string) w1).
Proof.
  intros directory coords Hok Hz Hids Hdir Hfile.
  unfold arguments_ok in Hok. rewrite Hz in Hok.
  repeat match goal with
         | H : _ && _ = true |- _ => apply andb_true_iff in H; destruct H
         end.
  match goal with H : (0 <? gridsize) = true |- _ => apply Z.ltb_lt in H; rename H into Hg end.
  match goal with H : zcoord_in_range _ _ = true |- _ =>
    unfold zcoord_in_range in H; apply negb_true_iff in H; rename H into Hrange end.
  match goal with H : negb (truthy title && _) = true |- _ => rename H into Htitle end.
  match goal with H : negb (truthy suptitle && _) = true |- _ => rename H into Hsup end.
  destruct (length_pixel_coords geometry gridsize xlim ylim) as [Hlx Hly].
  fold coords in Hlx, Hly.
  destruct (make_directory_run directory w) as [(w1 & Hmk & Hw1 & _)|[_ Hd]];
    [|fold directory in Hdir; congruence].
  assert (Hdisk : disk_ok w1 = disk_ok w) by (destruct Hw1 as [->| ->]; reflexivity).
  assert (Hsub : (output_directory w1 ++ subdirectory w1)%string = directory)
    by (destruct Hw1 as [->| ->]; reflexivity).
  destruct (rasterize_run geometry data z coords (Z.to_nat gridsize)
              (zeros2 (Z.to_nat gridsize)) w1 Hlx Hly) as (surface & Hrun & Hent).
  { now apply pixel_at_defined. }
  { intros i j Hi Hj. rewrite entry_zeros2 by assumption. eauto. }
  assert (Hpix : forall i j x y,
             coords_y coords !! i = Some x -> coords_x coords !! j = Some y ->
             entry surface j i = pixel_value geometry data z x y).
  { intros i j x y Hx Hy.
    assert (Hi : (i < Z.to_nat gridsize)%nat)
      by (rewrite <- Hly; eapply lookup_lt_Some; eauto).
    assert (Hj : (j < Z.to_nat gridsize)%nat)
      by (rewrite <- Hlx; eapply lookup_lt_Some; eauto).
    rewrite (Hent i j Hi Hj). unfold pixel_at. now rewrite Hx, Hy. }
  assert (Hpost : exists shown, forall w2, postprocess norm transparent_zeros surface w2 = (Ok shown, w2)).
  { unfold postprocess, normalize. destruct norm.
    - destruct (np_max_defined surface 0 0) as [m Hm].
      + rewrite Hent by lia.
        apply (pixel_at_defined geometry data z coords (Z.to_nat gridsize));
          auto; lia.
      + rewrite Hm. eexists. intros w2. reflexivity.
    - eexists. intros w2. reflexivity. }
  destruct Hpost as [shown Hpost].
  exists surface, shown, w1. split; [exact Hmk|]. split; [exact Hpix|].
  split; [apply Hpost|]. cbv zeta.
  unfold plot_spatial_data. unfold bind at 1. unfold get.
  fold directory. unfold bind at 1. rewrite Hmk.
  unfold bind at 1.
  match goal with H : contains _ _ = true |- _ => rewrite H end.
  cbn [negb when ret].
  unfold bind at 1. cbn [is_ndarray negb when ret].
  unfold bind at 1. cbn [from_option ret].
  unfold bind at 1.
  match goal with H : (ndarray_len _ =? _) = true |- _ => rewrite H end.
  cbn [negb when ret].
  unfold bind at 1. cbn [is_integer negb when ret].
  unfold bind at 1. cbn [as_int ret].
  unfold bind at 1.
  replace (gridsize <=? 0) with false by (symmetry; apply Z.leb_gt; lia).
  cbn [when ret].
  unfold bind at 1. apply negb_true_iff in Htitle. rewrite Htitle. cbn [when ret].
  unfold bind at 1. apply negb_true_iff in Hsup. rewrite Hsup. cbn [when ret].
  unfold bind at 1. cbn [is_str negb when ret].
  fold (zcoord_or_default zcoord). rewrite Hz.
  unfold bind at 1. unfold _check_zcoord. cbn [is_float negb].
  unfold bind at 1. cbn [as_float ret]. rewrite Hrange.
  unfold bind at 1. cbn [as_float ret].
  fold coords. unfold bind at 1. rewrite Hrun.
  unfold bind at 1. rewrite Hpost.
  unfold bind at 1. rewrite emit_run.
  unfold bind at 1. rewrite emit_run.
  unfold bind at 1.
  assert (Hcb : forall w2, when colorbar (emit EvColorbar) w2
                           = (Ok tt, add_events (if colorbar then [EvColorbar] else []) w2)).
  { intros w2. destruct colorbar; [apply emit_run|]. cbn. now rewrite add_events_nil. }
  rewrite Hcb.
  unfold bind at 1. rewrite (caption_run EvSuptitle suptitle) by now rewrite Hsup.
  unfold bind at 1. rewrite (caption_run EvTitle title) by now rewrite Htitle.
  rewrite !add_events_app. unfold drawing_events.
  destruct get_figure.
  - unfold ret. rewrite app_nil_r. reflexivity.
  - unfold bind at 1. unfold savefig. unfold bind at 1. unfold get.
    cbn [disk_ok add_events]. rewrite Hdisk, (Hfile eq_refl).
    rewrite emit_run. unfold bind at 1. rewrite emit_run. unfold ret.
    rewrite !add_events_app, <- ?app_assoc. reflexivity.
Qed.

(** X2: a call of [plot_spatial_data] whose arguments pass the checks, on a
    geometry whose region ids index the data, with an output directory that
    exists or can be created and (unless the figure is asked for) a file
    that can be written, returns.  It samples every grid point once, column
    by column, stores at [surface[j][i]] the value of the point
    [(coords['y'][i], coords['x'][j])], and draws one image: the
    post-processed surface turned upside down, over the bounds of the
    window.  The figure is returned when [get_figure] is set, and saved to
    directory + filename and closed otherwise. *)
Theorem plot_spatial_data_draws
    (geometry : Geometry) (data : ndarray) (norm transparent_zeros : bool)
    (zcoord : pyval) (gridsize : Z) (xlim ylim : option (float * float))
    (colorbar : bool) (title suptitle : pyval) (filename : string)
    (interpolation cmap : option string) (vmin vmax : pyval)
    (get_figure : bool) (z : float) (w : world) :
  let directory := (output_directory w ++ subdirectory w)%string in
  let coords := _get_pixel_coords geometry gridsize xlim ylim in
  arguments_ok geometry (Some data) zcoord (PyInt gridsize) title suptitle
    (PyStr filename) = true ->
  zcoord_or_default zcoord = PyFloat z ->
  (forall i j x y k,
      coords_y coords !! i = Some x -> coords_x coords !! j = Some y ->
      getFSRId geometry x y z = Some k -> is_Some (getitem data k)) ->
  existsb (String.eqb directory) (dirs w) || disk_ok w directory = true ->
  (get_figure = false -> disk_ok w (directory ++ filename)%string = true) ->
  exists (surface shown : list (list float)) (w' : world),
    (forall i j x y,
        coords_y coords !! i = Some x -> coords_x coords !! j = Some y ->
        entry surface j i = pixel_value geometry data z x y) /\
    postprocess norm transparent_zeros surface w = (Ok shown, w) /\
    let fig := {| img_data := flipud shown;
                  img_extent := coords_bounds coords;
                  img_cmap := cmap; img_vmin := vmin; img_vmax := vmax;
                  img_interpolation := interpolation |} in
    plot_spatial_data geometry (Some data) norm transparent_zeros zcoord
      (PyInt gridsize) xlim ylim colorbar title suptitle (PyStr filename)
      interpolation cmap vmin vmax get_figure w
    = (Ok (if get_figure then Some fig else None), w') /\
    events w'
    = events w
      ++ (if existsb (String.eqb directory) (dirs w) then [] else [EvMakedirs directory])
      ++ sweep_queries (coords_y coords) (coords_x coords) z
      ++ drawing_events fig colorbar title suptitle get_figure
           (directory ++ filename)%string.
Proof.
  intros directory coords Hok Hz Hids Hdir Hfile.
  destruct (plot_spatial_data_run geometry data norm transparent_zeros zcoord
              gridsize xlim ylim colorbar title suptitle filename interpolation
              cmap vmin vmax get_figure z w Hok Hz Hids Hdir Hfile)
    as (surface & shown & w1 & Hmk & Hpix & Hpost & Hcall).
  exists surface, shown. eexists. split; [exact Hpix|]. split; [exact Hpost|].
  cbv zeta. split; [exact Hcall|].
  fold directory in Hmk. unfold make_directory, bind, get in Hmk.
  cbn [events add_events].
  destruct (existsb (String.eqb directory) (dirs w)).
  - injection Hmk as <-. reflexivity.
  - cbn [orb] in Hdir. fold directory in Hdir. rewrite Hdir in Hmk.
    unfold modify, emit, modify, ret in Hmk. injection Hmk as <-.
    cbn [events add_event add_dir]. now rewrite <- app_assoc.
Qed.

End SpatialData.


(** The 3 x 3 plot of the demonstration geometry, with a color bar and a
    title, saved to a file. *)
Lemma plot_spatial_data_draws_witness :
  exists (shown : list (list float)) (w' : world),
    plot_spatial_data (R := Demo.runtime) Demo.geometry (Some Demo.data)
      false true PyNone (PyInt 3) None None true (PyStr "z = 0.0") PyNone
      (PyStr "spatial-data") None None PyNone PyNone false Demo.world0
    = (Ok None, w') /\
    events w'
    = [EvMakedirs "out/plots/"]
      ++ sweep_queries (coords_y Demo.grid3) (coords_x Demo.grid3) Float64.zero
      ++ drawing_events
           {| img_data := flipud shown;
              img_extent := coords_bounds Demo.grid3;
              img_cmap := None; img_vmin := PyNone; img_vmax := PyNone;
              img_interpolation := None |}
           true (PyStr "z = 0.0") PyNone false "out/plots/spatial-data".
Proof.
  destruct (plot_spatial_data_draws (R := Demo.runtime) Demo.geometry Demo.data
              false true PyNone 3 None None true (PyStr "z = 0.0") PyNone
              "spatial-data" None None PyNone PyNone false Float64.zero Demo.world0)
    as (surface & shown & w' & _ & _ & Hcall & Hevents).
  - reflexivity.
  - reflexivity.
  - exact demo_ids_valid.
  - reflexivity.
  - reflexivity.
  - exists shown, w'. split; [exact Hcall | exact Hevents].
Defined.

(** ** Normalization on fields without a positive maximum *)

Section NormalizeEdges.
Context {R : Runtime}.

Lemma np_maximum_nan_l (x : float) : np_maximum Float64.nan x = Float64.nan.
Proof. unfold np_maximum. cbn. now rewrite orb_true_r. Qed.

Lemma fold_maximum_from_nan (l : list float) :
  fold_left np_maximum l Float64.nan = Float64.nan.
Proof.
  induction l as [|a l IH]; [reflexivity|].
  cbn [fold_left]. now rewrite np_maximum_nan_l.
Qed.

Lemma np_maximum_nan_r (x : float) : np_maximum x Float64.nan = Float64.nan.
Proof. destruct x as [s|s| |s m e]; reflexivity. Qed.

(** [np.max] of numbers of which one is not a number. *)
Lemma fold_maximum_nan (l : list float) :
  forall x, In Float64.nan (x :: l) -> fold_left np_maximum l x = Float64.nan.
Proof.
  induction l as [|a l IH]; intros x [Hx|Hin].
  - now subst.
  - destruct Hin.
  - subst. apply fold_maximum_from_nan.
  - cbn [fold_left]. apply IH. destruct Hin as [->|Hin].
    + left. apply np_maximum_nan_r.
    + now right.
Qed.

Lemma entry_elem_of (surface : list (list float)) (j i : nat) (v : float) :
  entry surface j i = Some v -> In v (concat surface).
Proof.
  unfold entry. intros Hv.
  destruct (surface !! j) as [row|] eqn:Hrow; [|discriminate].
  apply in_concat. exists row. split.
  - apply list_elem_of_In. eapply list_elem_of_lookup_2; eauto.
  - apply list_elem_of_In. eapply list_elem_of_lookup_2; eauto.
Qed.

(** X3: a single not-a-number in the field makes the whole normalized field
    not-a-number: [np.max] returns NaN, and every entry divided by it is
    NaN, with and without [transparent_zeros]. *)
Theorem normalize_spreads_nan (transparent_zeros : bool)
    (surface : list (list float)) (j0 i0 : nat) (w : world) :
  entry surface j0 i0 = Some Float64.nan ->
  exists shown,
    postprocess true transparent_zeros surface w = (Ok shown, w) /\
    forall j i, is_Some (entry surface j i) ->
                entry shown j i = Some Float64.nan.
Proof.
  intros Hnan.
  assert (Hmax : np_max surface = Some Float64.nan).
  { apply entry_elem_of in Hnan. unfold np_max.
    destruct (concat surface) as [|x rest]; [destruct Hnan|].
    cbn [max_list]. f_equal. now apply fold_maximum_nan. }
  unfold postprocess, normalize. rewrite Hmax. cbn [from_option].
  unfold bind, ret. eexists. split; [reflexivity|].
  intros j i [v Hv].
  assert (Hdiv : Float64.div v Float64.nan = Float64.nan)
    by (destruct v as [s|s| |s m e]; reflexivity).
  destruct transparent_zeros.
  - unfold blank_zeros. rewrite !entry_map, Hv, Hdiv. reflexivity.
  - rewrite entry_map, Hv, Hdiv. reflexivity.
Qed.

(** X4: a field whose maximum is zero is divided by zero without an error:
    every zero entry becomes not-a-number (0/0), with and without
    [transparent_zeros], and every sentinel entry -1 becomes an infinity. *)
Theorem normalize_zero_maximum (transparent_zeros : bool)
    (surface : list (list float)) (s : bool) (w : world) :
  np_max surface = Some (S754_zero s) ->
  exists shown,
    postprocess true transparent_zeros surface w = (Ok shown, w) /\
    forall j i,
      (forall s', entry surface j i = Some (S754_zero s') ->
                  entry shown j i = Some Float64.nan) /\
      (entry surface j i = Some Float64.neg_one ->
       entry shown j i = Some (S754_infinity (negb s))).
Proof.
  intros Hmax. unfold postprocess, normalize. rewrite Hmax. cbn [from_option].
  unfold bind, ret. eexists. split; [reflexivity|].
  intros j i. split.
  - intros s' Hv. destruct transparent_zeros.
    + unfold blank_zeros. rewrite !entry_map, Hv. reflexivity.
    + rewrite entry_map, Hv. reflexivity.
  - intros Hv. destruct transparent_zeros.
    + unfold blank_zeros. rewrite !entry_map, Hv. now destruct s.
    + rewrite entry_map, Hv. now destruct s.
Qed.

End NormalizeEdges.

Lemma normalize_spreads_nan_witness :
  exists shown,
    postprocess (R := Demo.runtime) true false
      [[Float64.of_Z 5; Float64.nan]; [Float64.neg_one; Float64.of_Z 7]]
      Demo.world0 = (Ok shown, Demo.world0) /\
    forall j i,
      is_Some (entry [[Float64.of_Z 5; Float64.nan]; [Float64.neg_one; Float64.of_Z 7]] j i) ->
      entry shown j i = Some Float64.nan.
Proof.
  apply (normalize_spreads_nan (R := Demo.runtime) false
           [[Float64.of_Z 5; Float64.nan]; [Float64.neg_one; Float64.of_Z 7]]
           0 1 Demo.world0).
  reflexivity.
Defined.

(** No region fissions and one sample lies outside the geometry. *)
Lemma normalize_zero_maximum_witness :
  exists shown,
    postprocess (R := Demo.runtime) true true
      [[Float64.zero; Float64.zero]; [Float64.neg_one; Float64.zero]]
      Demo.world0 = (Ok shown, Demo.world0) /\
    forall j i,
      (forall s',
          entry [[Float64.zero; Float64.zero]; [Float64.neg_one; Float64.zero]] j i
          = Some (S754_zero s') ->
          entry shown j i = Some Float64.nan) /\
      (entry [[Float64.zero; Float64.zero]; [Float64.neg_one; Float64.zero]] j i
       = Some Float64.neg_one ->
       entry shown j i = Some (S754_infinity (negb false))).
Proof.
  apply (normalize_zero_maximum (R := Demo.runtime) true
           [[Float64.zero; Float64.zero]; [Float64.neg_one; Float64.zero]]
           false Demo.world0).
  reflexivity.
Defined.

(** ** [_colorize]: ids outside the table, and the generator it leaves *)

Section ColorizeEdges.
Context {R : Runtime}.

Lemma norm_index_spec (n : nat) (k : Z) :
  norm_index n k
  = if decide (- Z.of_nat n <= k < Z.of_nat n)
    then Some (Z.to_nat (k mod Z.of_nat n)) else None.
Proof.
  unfold norm_index.
  destruct (Z.leb_spec 0 k), (Z.ltb_spec k (Z.of_nat n)), (Z.ltb_spec k 0),
    (Z.leb_spec (- Z.of_nat n) k); cbn [andb];
    case_decide; try lia; try reflexivity.
  - now rewrite Z.mod_small by lia.
  - f_equal. f_equal.
    rewrite <- (Z.mod_add k 1 (Z.of_nat n)) by lia.
    rewrite Z.mod_small by lia. lia.
Qed.

Lemma py_index_spec (a : list Z) (d : Z) :
  py_index a d
  = if decide (- Z.of_nat (length a) <= d < Z.of_nat (length a))
    then Some (nth (Z.to_nat (d mod Z.of_nat (length a))) a 0) else None.
Proof.
  unfold py_index. rewrite norm_index_spec. case_decide as Hd; [|reflexivity].
  assert (Hlt : (Z.to_nat (d mod Z.of_nat (length a)) < length a)%nat).
  { pose proof (Z.mod_pos_bound d (Z.of_nat (length a))). lia. }
  destruct (lookup_lt_is_Some_2 a _ Hlt) as [x Hx].
  rewrite Hx. f_equal. symmetry. now apply nth_lookup_Some.
Qed.

(** [take] stops at the first index outside the array. *)
Lemma ndarray_take_out_of_range (a data : list Z) (d : Z) (w : world) :
  In d data -> ~ (- Z.of_nat (length a) <= d < Z.of_nat (length a)) ->
  ndarray_take a data w = (Raise IndexError, w).
Proof.
  unfold ndarray_take. intros Hin Hd.
  induction data as [|x data IH]; [destruct Hin|].
  cbn [mapM]. unfold bind at 1. rewrite py_index_spec.
  case_decide as Hx; cbn [from_option ret raise].
  - destruct Hin as [->|Hin]; [contradiction|].
    unfold bind at 1. now rewrite (IH Hin).
  - reflexivity.
Qed.

Lemma ndarray_take_wraps (a data : list Z) (w : world) :
  Forall (fun d => - Z.of_nat (length a) <= d < Z.of_nat (length a)) data ->
  ndarray_take a data w
  = (Ok (map (fun d => nth (Z.to_nat (d mod Z.of_nat (length a))) a 0) data), w).
Proof.
  unfold ndarray_take. induction 1 as [|d data Hd _ IH]; [reflexivity|].
  cbn [mapM map]. rewrite py_index_spec.
  case_decide; [|contradiction]. cbn [from_option].
  unfold bind, ret. now rewrite IH.
Qed.

(** X5: [_colorize] looks the ids up in its table of N colors the way
    [take] indexes an array.  Ids in [0, N) get their color, ids in [-N, 0)
    count from the end of the table (the id d gets the color of d + N), and
    an id outside [-N, N) raises IndexError: ids are not reduced modulo N
    beyond that range. *)
Theorem colorize_index_range (L : RuntimeLaws R) (data : list Z)
    (num_colors seed : Z) (w : world) :
  0 <= num_colors ->
  let table := fst (np_shuffle (np_seed 1) (arange num_colors)) in
  (Forall (fun d => - num_colors <= d < num_colors) data ->
   fst (_colorize data num_colors seed w)
   = Ok (map (fun d => nth (Z.to_nat (d mod num_colors)) table 0) data)) /\
  (forall d, In d data -> d < - num_colors \/ num_colors <= d ->
             fst (_colorize data num_colors seed w) = Raise IndexError).
Proof.
  intros Hn table.
  assert (Hlen : length table = Z.to_nat num_colors).
  { unfold table. rewrite (Permutation_length (np_shuffle_perm _ _)).
    apply length_arange. }
  assert (HlenZ : Z.of_nat (length table) = num_colors) by lia.
  split.
  - intros Hdata. rewrite colorize_run by exact Hlen. fold table.
    rewrite ndarray_take_wraps by now rewrite HlenZ.
    now rewrite HlenZ.
  - intros d Hin Hd. rewrite colorize_run by exact Hlen. fold table.
    rewrite (ndarray_take_out_of_range table data d); [reflexivity | exact Hin | lia].
Qed.

(** X6: whatever the data, the seed argument and the state of the generator
    before the call, [_colorize] ends with NumPy's global generator in the
    state that seeding with 1 and shuffling N ids leads to, and with nothing
    else changed. *)
Theorem colorize_resets_generator (L : RuntimeLaws R) (data : list Z)
    (num_colors seed : Z) (w : world) :
  snd (_colorize data num_colors seed w)
  = set_rng (snd (np_shuffle (np_seed 1) (arange num_colors))) w.
Proof.
  rewrite colorize_run.
  - destruct (pure_ndarray_take (fst (np_shuffle (np_seed 1) (arange num_colors))) data)
      as [r Hr].
    rewrite Hr. reflexivity.
  - rewrite (Permutation_length (np_shuffle_perm _ _)). apply length_arange.
Qed.

End ColorizeEdges.

(** With five colors: the id -1 gets the color of the id 4, and the id 5
    is refused. *)
Lemma colorize_index_range_witness :
  fst (_colorize (R := Demo.runtime) [0; -1; 4] 5 1 Demo.world0)
  = Ok [1; 0; 0] /\
  fst (_colorize (R := Demo.runtime) [0; 5] 5 1 Demo.world0) = Raise IndexError.
Proof.
  split.
  - rewrite (proj1 (colorize_index_range (R := Demo.runtime) demo_laws
                      [0; -1; 4] 5 1 Demo.world0 ltac:(lia))).
    + reflexivity.
    + repeat constructor; lia.
  - apply (proj2 (colorize_index_range (R := Demo.runtime) demo_laws
                    [0; 5] 5 1 Demo.world0 ltac:(lia)) 5).
    + right. now left.
    + right. lia.
Defined.

Lemma colorize_resets_generator_witness :
  snd (_colorize (R := Demo.runtime) [0; 1; 7] 5 3 Demo.world0)
  = set_rng (snd (np_shuffle (Runtime := Demo.runtime) (np_seed 1) (arange 5)))
            Demo.world0.
Proof.
  exact (colorize_resets_generator (R := Demo.runtime) demo_laws [0; 1; 7] 5 3
           Demo.world0).
Defined.

(** ** [plot_cells], and regions whose id is not listed *)

Section Cells.
Context {R : Runtime}.

(** The recoloring loop stops with ValueError at the first id that does not
    have exactly one position in the shuffled list. *)
Lemma recolor_loop_stops (ids : list Z) (m : nat) :
  forall (k : nat) (a : list Z) (w : world),
    (k + m <= length a)%nat ->
    (exists j x, (k <= j < k + m)%nat /\ a !! j = Some x /\
                 forall c, where_eq ids x <> [c]) ->
    foldM (fun a i =>
             do material_id <- from_option IndexError (a !! i);
             match where_eq ids material_id with
             | [c] => ret (<[ i := c ]> a)
             | _ => raise ValueError
             end)
          (seq k m) a w
    = (Raise ValueError, w).
Proof.
  induction m as [|m IH]; intros k a w Hlen (j & x & Hj & Hx & Hbad); [lia|].
  cbn [seq foldM].
  destruct (lookup_lt_is_Some_2 a k) as [y Hy]; [lia|].
  rewrite Hy. cbn [from_option]. unfold bind at 1. unfold bind at 1. cbn [ret].
  destruct (where_eq ids y) as [|c [|c' rest]] eqn:Hw; [reflexivity| |reflexivity].
  cbn [ret]. apply IH.
  - rewrite length_insert. lia.
  - exists j, x. destruct (decide (j = k)) as [->|Hne].
    + rewrite Hy in Hx. injection Hx as ->. now destruct (Hbad c).
    + repeat split; [lia | lia | | exact Hbad].
      now rewrite list_lookup_insert_ne by congruence.
Qed.

(** X7: [plot_materials] on a geometry one of whose regions is filled with a
    material that [getAllMaterials] does not list: the position of that
    material among the shuffled ids is an empty array, assigning it raises
    ValueError, and nothing is plotted. *)
Theorem plot_materials_unlisted_material (L : RuntimeLaws R) (geometry : Geometry)
    (gridsize : pyval) (xlim ylim : option (float * float)) (zcoord : pyval)
    (z : float) (fsr : Z) (w : world) :
  contains "Geometry" (geometry_type geometry) = true ->
  zcoord_or_default zcoord = PyFloat z ->
  zcoord_in_range geometry z = true ->
  0 <= fsr < getNumFSRs geometry ->
  ~ In (getFSRMaterialId geometry fsr) (getAllMaterials geometry) ->
  plot_materials geometry gridsize xlim ylim zcoord w
  = (Raise ValueError,
     set_rng (snd (np_shuffle (np_seed 1) (getAllMaterials geometry)))
             (add_events [EvLog "NORMAL" "Plotting the materials..."] w)).
Proof.
  intros Hty Hz Hrange Hfsr Hnot.
  unfold zcoord_in_range in Hrange. apply negb_true_iff in Hrange.
  unfold zcoord_or_default in Hz.
  unfold plot_materials. unfold bind at 1.
  rewrite Hty. cbn [negb when ret]. cbv zeta. rewrite Hz.
  unfold bind at 1. unfold _check_zcoord. cbn [is_float negb as_float].
  unfold bind at 1. cbn [ret]. rewrite Hrange. cbn [ret].
  unfold bind at 1. rewrite py_printf_normal.
  unfold bind at 1. unfold arange at 1.
  rewrite fill_loop by (rewrite length_replicate; lia).
  rewrite take_0, drop_ge by (rewrite length_replicate; lia).
  cbn [app]. rewrite app_nil_r.
  unfold bind at 1. unfold numpy_random_seed, modify.
  unfold bind at 1. unfold numpy_random_shuffle. cbn [rng set_rng].
  unfold bind at 1.
  rewrite recolor_loop_stops; [reflexivity | lia |].
  exists (Z.to_nat fsr), (getFSRMaterialId geometry fsr).
  rewrite !length_map, length_seq. split; [lia|]. split.
  - rewrite !lookup_map, lookup_seq_lt by lia. cbn. now rewrite Z2Nat.id by lia.
  - intros c. unfold where_eq. rewrite where_eq_from_absent; [discriminate|].
    intros Hin. apply Hnot.
    eapply Permutation_in; [apply np_shuffle_perm | exact Hin].
Qed.

(** For a Geometry (with a valid z-coordinate, distinct material cell ids,
    and every region in a listed cell), [plot_cells] computes for every
    region the position of its cell's id in the list of all material cell
    ids shuffled with seed 1, and calls [plot_spatial_data] with that
    array. *)
Lemma plot_cells_run (L : RuntimeLaws R) (geometry : Geometry) (cells : Cells)
    (gridsize : pyval) (xlim ylim : option (float * float)) (zcoord : pyval)
    (z : float) (w : world) :
  contains "Geometry" (geometry_type geometry) = true ->
  zcoord_or_default zcoord = PyFloat z ->
  zcoord_in_range geometry z = true ->
  List.NoDup (getAllMaterialCells cells) ->
  (forall fsr, 0 <= fsr < getNumFSRs geometry ->
               In (getFSRCellId cells fsr) (getAllMaterialCells cells)) ->
  let shuffled := fst (np_shuffle (np_seed 1) (getAllMaterialCells cells)) in
  let num_cells := Z.of_nat (length (getAllMaterialCells cells)) in
  exists colors : list Z,
    length colors = Z.to_nat (getNumFSRs geometry) /\
    (forall fsr, 0 <= fsr < getNumFSRs geometry ->
       exists k, colors !! Z.to_nat fsr = Some k /\
                 0 <= k < num_cells /\
                 shuffled !! Z.to_nat k = Some (getFSRCellId cells fsr)) /\
    plot_cells geometry cells gridsize xlim ylim zcoord w
    = (plot_spatial_data geometry (Some (NdInt colors)) false false (PyFloat z)
         gridsize xlim ylim false (PyStr ("z = " ++ str_float z))
         (PyStr "Cells") (PyStr ("cells-z-" ++ str_float z ++ ".png"))
         (Some "nearest") (Some "spectral") (PyInt 0) (PyInt num_cells)
         false ;; ret tt)
        (set_rng (snd (np_shuffle (np_seed 1) (getAllMaterialCells cells)))
                 (add_events [EvLog "NORMAL" "Plotting the cells..."] w)).
Proof.
  intros Hty Hz Hrange Hnd Hcell shuffled num_cells.
  unfold zcoord_in_range in Hrange. apply negb_true_iff in Hrange.
  unfold zcoord_or_default in Hz.
  set (ids := getAllMaterialCells cells) in *.
  set (n := Z.to_nat (getNumFSRs geometry)).
  set (idx := fun x => hd 0 (where_eq shuffled x)).
  set (filled := map (getFSRCellId cells) (arange (getNumFSRs geometry))).
  assert (Hperm : Permutation shuffled ids) by apply np_shuffle_perm.
  assert (Hidx : forall x, In x ids ->
                   exists k, where_eq shuffled x = [idx x] /\ idx x = Z.of_nat k /\
                             shuffled !! k = Some x).
  { intros x Hx.
    destruct (where_eq_from_unique shuffled x) with (pos := 0%nat) as (k & Hk & Hlook).
    - eapply Permutation_NoDup; [symmetry; exact Hperm | exact Hnd].
    - eapply Permutation_in; [symmetry; exact Hperm | exact Hx].
    - exists k. unfold idx, where_eq. rewrite Hk. cbn. auto. }
  assert (Hfilled : length filled = n).
  { unfold filled. now rewrite length_map, length_arange. }
  exists (map idx filled). split; [now rewrite length_map|]. split.
  - intros fsr Hfsr.
    destruct (Hidx (getFSRCellId cells fsr) (Hcell fsr Hfsr)) as (k & _ & Hk & Hlook).
    exists (Z.of_nat k). repeat split.
    + unfold filled, arange. rewrite !lookup_map.
      rewrite lookup_seq_lt by lia. cbn. rewrite Z2Nat.id by lia. now rewrite Hk.
    + lia.
    + apply lookup_lt_Some in Hlook. unfold num_cells.
      rewrite <- (Permutation_length Hperm). lia.
    + now rewrite Nat2Z.id.
  - unfold plot_cells. unfold bind at 1.
    rewrite Hty. cbn [negb when ret]. cbv zeta. rewrite Hz.
    unfold bind at 1. unfold _check_zcoord. cbn [is_float negb as_float].
    unfold bind at 1. cbn [ret]. rewrite Hrange. cbn [ret].
    unfold bind at 1. rewrite py_printf_normal.
    unfold bind at 1. unfold fill_by_fsr, arange at 1.
    rewrite fill_loop by (rewrite length_replicate; lia).
    rewrite take_0, drop_ge by (rewrite length_replicate; lia).
    cbn [app]. rewrite app_nil_r. fold (arange (getNumFSRs geometry)). fold filled.
    unfold bind at 1. unfold numpy_random_seed, modify.
    unfold bind at 1. unfold numpy_random_shuffle. cbn [rng set_rng].
    fold ids. fold shuffled.
    unfold bind at 1. unfold recolor_by_position.
    rewrite (recolor_loop shuffled idx).
    + rewrite take_0, drop_0, drop_ge, take_ge by lia.
      cbn [app]. rewrite app_nil_r. reflexivity.
    + lia.
    + intros j x _ Hx. unfold filled, arange in Hx. rewrite !lookup_map in Hx.
      destruct (seq 0 (Z.to_nat (getNumFSRs geometry)) !! j) as [i|] eqn:Hi;
        [|discriminate].
      injection Hx as <-. apply lookup_seq in Hi. destruct Hi as [-> Hi].
      destruct (Hidx (getFSRCellId cells (Z.of_nat (0 + j)))) as (k & Hk & _).
      * apply Hcell. lia.
      * exact Hk.
Qed.

(** X8: [plot_cells] end to end.  For a Geometry with a valid z-coordinate,
    distinct material cell ids and every region in a listed cell, the call
    returns after drawing one image, with nearest-neighbor interpolation and
    the color range [0, num_cells], in which a sample holds -1 where the
    geometry finds no region and otherwise the position of the id of the
    region's cell in the list of all material cell ids shuffled with
    seed 1. *)
Theorem plot_cells_pixels (L : RuntimeLaws R) (geometry : Geometry) (cells : Cells)
    (gridsize : Z) (xlim ylim : option (float * float)) (zcoord : pyval)
    (z : float) (w : world) :
  let coords := _get_pixel_coords geometry gridsize xlim ylim in
  let directory := (output_directory w ++ subdirectory w)%string in
  let shuffled := fst (np_shuffle (np_seed 1) (getAllMaterialCells cells)) in
  let num_cells := Z.of_nat (length (getAllMaterialCells cells)) in
  contains "Geometry" (geometry_type geometry) = true ->
  zcoord_or_default zcoord = PyFloat z ->
  zcoord_in_range geometry z = true ->
  0 <= getNumFSRs geometry ->
  List.NoDup (getAllMaterialCells cells) ->
  (forall fsr, 0 <= fsr < getNumFSRs geometry ->
               In (getFSRCellId cells fsr) (getAllMaterialCells cells)) ->
  0 < gridsize ->
  (forall i j x y fsr,
      coords_y coords !! i = Some x -> coords_x coords !! j = Some y ->
      getFSRId geometry x y z = Some fsr -> 0 <= fsr < getNumFSRs geometry) ->
  existsb (String.eqb directory) (dirs w) || disk_ok w directory = true ->
  disk_ok w (directory ++ "cells-z-" ++ str_float z ++ ".png")%string = true ->
  exists (shown : list (list float)) (w' : world),
    plot_cells geometry cells (PyInt gridsize) xlim ylim zcoord w = (Ok tt, w') /\
    In (EvImshow {| img_data := flipud shown;
                    img_extent := coords_bounds coords;
                    img_cmap := Some "spectral";
                    img_vmin := PyInt 0; img_vmax := PyInt num_cells;
                    img_interpolation := Some "nearest" |}) (events w') /\
    forall i j x y,
      coords_y coords !! i = Some x -> coords_x coords !! j = Some y ->
      match getFSRId geometry x y z with
      | None => entry shown j i = Some Float64.neg_one
      | Some fsr =>
          exists k, entry shown j i = Some (Float64.of_Z k) /\
                    0 <= k < num_cells /\
                    shuffled !! Z.to_nat k = Some (getFSRCellId cells fsr)
      end.
Proof.
  intros coords directory shuffled num_cells
         Hty Hz Hrange Hnum Hnd Hcell Hgrid Hids Hdir Hfile.
  destruct (plot_cells_run L geometry cells (PyInt gridsize) xlim ylim zcoord z w
              Hty Hz Hrange Hnd Hcell) as (colors & Hlen & Hcolors & Hcall).
  fold shuffled num_cells in Hcolors, Hcall.
  assert (Hcap : forall t, negb (truthy (PyStr t) && negb (is_str (PyStr t))) = true).
  { intros t. cbn [is_str negb]. now rewrite andb_false_r. }
  assert (Hdata : forall i j x y fsr,
             coords_y coords !! i = Some x -> coords_x coords !! j = Some y ->
             getFSRId geometry x y z = Some fsr ->
             exists k, getitem (NdInt colors) fsr = Some (Float64.of_Z k) /\
                       0 <= k < num_cells /\
                       shuffled !! Z.to_nat k = Some (getFSRCellId cells fsr)).
  { intros i j x y fsr Hx Hy Hfsr. specialize (Hids i j x y fsr Hx Hy Hfsr).
    destruct (Hcolors fsr Hids) as (k & Hk & Hkr & Hks).
    exists k. split; [|split; assumption].
    cbn [getitem]. unfold py_index. rewrite norm_index_spec.
    case_decide as Hin; [|lia].
    rewrite Z.mod_small by lia. now rewrite Hk. }
  set (w1 := set_rng (snd (np_shuffle (np_seed 1) (getAllMaterialCells cells)))
               (add_events [EvLog "NORMAL" "Plotting the cells..."] w)).
  fold w1 in Hcall.
  destruct (plot_spatial_data_run geometry (NdInt colors) false false (PyFloat z)
              gridsize xlim ylim false (PyStr ("z = " ++ str_float z))
              (PyStr "Cells") ("cells-z-" ++ str_float z ++ ".png")
              (Some "nearest") (Some "spectral") (PyInt 0) (PyInt num_cells)
              false z w1)
    as (surface & shown & w2 & Hmk & Hpix & Hpost & Hdraw).
  { unfold arguments_ok. rewrite Hty, !Hcap.
    cbn [ndarray_len zcoord_or_default is_str]. rewrite Hrange.
    rewrite (proj2 (Z.ltb_lt _ _) Hgrid).
    replace (Z.of_nat (length colors) =? getNumFSRs geometry) with true
      by (symmetry; apply Z.eqb_eq; lia).
    reflexivity. }
  { reflexivity. }
  { intros i j x y fsr Hx Hy Hfsr.
    destruct (Hdata i j x y fsr Hx Hy Hfsr) as (k & Hk & _). rewrite Hk. eauto. }
  { exact Hdir. }
  { intros _. exact Hfile. }
  unfold postprocess, bind, ret in Hpost. injection Hpost as <-.
  cbv zeta in Hdraw. fold coords in Hdraw, Hpix.
  exists surface. eexists. split; [|split].
  - rewrite Hcall. unfold bind at 1. rewrite Hdraw. reflexivity.
  - cbn [events add_events]. apply in_or_app. right.
    apply in_or_app. right. unfold drawing_events. right. now left.
  - intros i j x y Hx Hy. rewrite (Hpix i j x y Hx Hy). unfold pixel_value.
    destruct (getFSRId geometry x y z) as [fsr|] eqn:Hfsr; [|reflexivity].
    destruct (Hdata i j x y fsr Hx Hy Hfsr) as (k & Hk & Hkr & Hks).
    exists k. rewrite Hk. auto.
Qed.

End Cells.

Lemma plot_materials_unlisted_material_witness :
  plot_materials (R := Demo.runtime) Demo2.geometry_unlisted (PyInt 2) None None
    PyNone Demo.world0
  = (Raise ValueError,
     set_rng (snd (np_shuffle (Runtime := Demo.runtime) (np_seed 1)
                     (getAllMaterials Demo2.geometry_unlisted)))
             (add_events [EvLog "NORMAL" "Plotting the materials..."] Demo.world0)).
Proof.
  apply (plot_materials_unlisted_material (R := Demo.runtime) demo_laws
           Demo2.geometry_unlisted (PyInt 2) None None PyNone Float64.zero 1
           Demo.world0).
  - reflexivity.
  - reflexivity.
  - reflexivity.
  - cbn. lia.
  - cbn. intuition discriminate.
Defined.

(** ** [plot_cmfd_cells] and [plot_flat_source_regions] *)

Section Colored.
Context {R : Runtime}.

(** X9: [plot_cmfd_cells] refuses a [cmfd] argument that is not a Cmfd.
    Otherwise, with N the number of CMFD cells: when every region's cell id
    lies in [-N, N), the array handed to [plot_spatial_data] holds for each
    region the color of its cell (a negative id counted from the end of the
    color table), under the title 'CMFD cells', without a second title, in
    the file 'cmfd-cells.png'; when a region's cell id lies outside [-N, N),
    the call ends with IndexError and nothing is plotted. *)
Theorem plot_cmfd_cells_spec (L : RuntimeLaws R) (geometry : Geometry) (cmfd : Cmfd)
    (gridsize : pyval) (xlim ylim : option (float * float)) (w : world) :
  contains "Geometry" (geometry_type geometry) = true ->
  let num_cells := getNumCells cmfd in
  let table := fst (np_shuffle (np_seed 1) (arange num_cells)) in
  let cells := map (convertFSRIdToCmfdCell cmfd) (arange (getNumFSRs geometry)) in
  let w1 := set_rng (snd (np_shuffle (np_seed 1) (arange num_cells)))
                    (add_events [EvLog "NORMAL" "Plotting the CMFD cells..."] w) in
  (contains "Cmfd" (cmfd_type cmfd) = false ->
   exists msg,
     plot_cmfd_cells geometry cmfd gridsize xlim ylim w
     = (Raise (LogError msg), add_events [EvLog "ERROR" msg] w)) /\
  (contains "Cmfd" (cmfd_type cmfd) = true -> 0 <= num_cells ->
   (Forall (fun c => - num_cells <= c < num_cells) cells ->
    plot_cmfd_cells geometry cmfd gridsize xlim ylim w
    = (plot_spatial_data geometry
         (Some (NdInt (map (fun c => nth (Z.to_nat (c mod num_cells)) table 0) cells)))
         false false (PyFloat (getFSRPointZ geometry)) gridsize xlim ylim false
         (PyStr "CMFD cells") PyNone (PyStr "cmfd-cells.png") None None
         PyNone PyNone false ;; ret tt) w1) /\
   (forall c, In c cells -> c < - num_cells \/ num_cells <= c ->
    plot_cmfd_cells geometry cmfd gridsize xlim ylim w = (Raise IndexError, w1))).
Proof.
  intros Hty num_cells table cells w1. split.
  - intros Hcmfd. eexists. unfold plot_cmfd_cells. unfold bind at 1.
    rewrite Hty. cbn [negb when ret]. unfold bind at 1.
    rewrite Hcmfd. cbn [negb when]. now rewrite py_printf_error.
  - intros Hcmfd Hn.
    assert (Hlen : length table = Z.to_nat num_cells).
    { unfold table. rewrite (Permutation_length (np_shuffle_perm _ _)).
      apply length_arange. }
    assert (HlenZ : Z.of_nat (length table) = num_cells) by lia.
    assert (Hstart :
      plot_cmfd_cells geometry cmfd gridsize xlim ylim w
      = (do colors <- ndarray_take table cells;
         plot_spatial_data geometry (Some (NdInt colors))
           false false (PyFloat (getFSRPointZ geometry)) gridsize xlim ylim false
           (PyStr "CMFD cells") PyNone (PyStr "cmfd-cells.png") None None
           PyNone PyNone false ;; ret tt) w1).
    { unfold plot_cmfd_cells. unfold bind at 1.
      rewrite Hty. cbn [negb when ret]. unfold bind at 1.
      rewrite Hcmfd. cbn [negb when ret].
      unfold bind at 1. rewrite py_printf_normal.
      unfold bind at 1. unfold fill_by_fsr, arange at 1.
      rewrite fill_loop by (rewrite length_replicate; lia).
      rewrite take_0, drop_ge by (rewrite length_replicate; lia).
      cbn [app]. rewrite app_nil_r. fold (arange (getNumFSRs geometry)).
      fold cells. unfold bind at 1. rewrite colorize_run by exact Hlen.
      fold table. unfold bind at 1. reflexivity. }
    split.
    + intros Hall. rewrite Hstart. unfold bind at 1.
      rewrite ndarray_take_wraps by now rewrite HlenZ.
      now rewrite HlenZ.
    + intros c Hin Hc. rewrite Hstart. unfold bind at 1.
      rewrite (ndarray_take_out_of_range table cells c); [reflexivity | exact Hin | lia].
Qed.


(** X11: when the checks pass, [plot_flat_source_regions] colors the regions
    with a permutation of [0, num_fsrs), so that no two regions share a
    color, has [plot_spatial_data] draw them at the z-coordinate of region 0
    without saving, and then saves the figure itself, to the directory that
    was current when the call began; the centroids of all regions are drawn
    on top exactly when [centroids] is set. *)
Theorem plot_flat_source_regions_spec (L : RuntimeLaws R)
    (valid_markers : list string)
    (geometry : Geometry) (getFSRCentroid : Z -> float * float)
    (gridsize : pyval) (xlim ylim : option (float * float))
    (centroids : bool) (marker : string) (marker_size : pyval) (w : world) :
  markers_ok valid_markers geometry (PyBool centroids) (PyStr marker) marker_size
  = true ->
  let num_fsrs := getNumFSRs geometry in
  let z := getFSRPointZ geometry in
  let filename := ("flat-source-regions-z-" ++ str_float z ++ ".png")%string in
  let colors := fst (np_shuffle (np_seed 1) (arange num_fsrs)) in
  Permutation colors (arange num_fsrs) /\
  plot_flat_source_regions valid_markers geometry getFSRCentroid gridsize
    xlim ylim (PyBool centroids) (PyStr marker) marker_size w
  = (do fig <- plot_spatial_data geometry (Some (NdInt colors)) false false
                 (PyFloat z) gridsize xlim ylim false
                 (PyStr ("z = " ++ str_float z)) (PyStr "Flat Source Regions")
                 (PyStr filename) (Some "nearest") (Some "spectral")
                 (PyInt 0) (PyInt num_fsrs) true;
     do fig <- from_option TypeError fig;
     savefig ((output_directory w ++ subdirectory w) ++ filename) ;;
     emit EvClose ;;
     ret (if centroids
          then Some {| scatter_points := map getFSRCentroid (arange num_fsrs);
                       scatter_marker := marker;
                       scatter_size := marker_size |}
          else None))
      (set_rng (snd (np_shuffle (np_seed 1) (arange num_fsrs)))
               (add_events [EvLog "NORMAL" "Plotting the flat source regions..."] w)).
Proof.
  intros Hok num_fsrs z filename colors.
  split; [apply np_shuffle_perm|].
  unfold markers_ok in Hok.
  repeat match goal with
         | H : _ && _ = true |- _ => apply andb_true_iff in H; destruct H
         end.
  assert (Hlen : length colors = Z.to_nat num_fsrs).
  { unfold colors. rewrite (Permutation_length (np_shuffle_perm _ _)).
    apply length_arange. }
  unfold plot_flat_source_regions. unfold bind at 1. unfold get.
  unfold bind at 1.
  match goal with H : contains _ _ = true |- _ => rewrite H end.
  cbn [negb when ret]. unfold bind at 1. cbn [ret]. unfold bind at 1. cbn [ret].
  unfold bind at 1.
  match goal with H : existsb _ _ = true |- _ => rewrite H end.
  cbn [negb when ret]. unfold bind at 1.
  match goal with H : negb (getNumFSRs geometry =? 0) = true |- _ =>
    apply negb_true_iff in H; rename H into Hnum end.
  destruct marker_size as [|size|size|s]; try discriminate;
    cbn [is_float is_integer negb andb when ret nonpositive];
    unfold bind at 1; cbn [ret]; unfold bind at 1;
    match goal with H : negb _ = true |- _ => apply negb_true_iff in H; rewrite H end;
    cbn [when ret]; unfold bind at 1; rewrite Hnum; cbn [when ret];
    unfold bind at 1; rewrite py_printf_normal;
    unfold bind at 1; fold num_fsrs; rewrite colorize_run by exact Hlen;
    fold colors; rewrite ndarray_take_arange by exact Hlen;
    reflexivity.
Qed.

End Colored.

Lemma plot_cmfd_cells_spec_witness :
  let table := fst (np_shuffle (Runtime := Demo.runtime) (np_seed 1) (arange 2)) in
  let cells := map (convertFSRIdToCmfdCell Demo2.cmfd) (arange 2) in
  plot_cmfd_cells (R := Demo.runtime) Demo.geometry Demo2.cmfd (PyInt 2) None None
    Demo.world0
  = (plot_spatial_data Demo.geometry
       (Some (NdInt (map (fun c => nth (Z.to_nat (c mod 2)) table 0) cells)))
       false false (PyFloat Float64.zero) (PyInt 2) None None false
       (PyStr "CMFD cells") PyNone (PyStr "cmfd-cells.png") None None
       PyNone PyNone false ;; ret tt)
      (set_rng (snd (np_shuffle (np_seed 1) (arange 2)))
               (add_events [EvLog "NORMAL" "Plotting the CMFD cells..."] Demo.world0)).
Proof.
  intros table cells.
  apply (proj2 (plot_cmfd_cells_spec (R := Demo.runtime) demo_laws Demo.geometry
                  Demo2.cmfd (PyInt 2) None None Demo.world0 eq_refl)).
  - reflexivity.
  - cbn. lia.
  - repeat (constructor; [vm_compute; split; [discriminate | reflexivity]|]).
    constructor.
Defined.


Lemma plot_flat_source_regions_spec_witness :
  Permutation (fst (np_shuffle (Runtime := Demo.runtime) (np_seed 1) (arange 2)))
              (arange 2).
Proof.
  exact (proj1 (plot_flat_source_regions_spec (R := Demo.runtime) demo_laws
                  ["o"; "."] Demo.geometry (fun _ => (Float64.zero, Float64.zero))
                  (PyInt 2) None None true "o" (PyFloat (Float64.of_Z 2))
                  Demo.world0 eq_refl)).
Defined.

(** ** What the plotting routines leave alone *)

Section StableFacts.
Context {R : Runtime}.
Variable P : world -> Prop.

Lemma stable_ret {A} (a : A) : stable P (ret a).
Proof. intros w r w' [= <- <-] H. exact H. Qed.

Lemma stable_raise {A} (e : exn) : stable P (raise (A := A) e).
Proof. intros w r w' [= <- <-] H. exact H. Qed.

Lemma stable_get : stable P get.
Proof. intros w r w' [= <- <-] H. exact H. Qed.

Lemma stable_bind {A B} (c : M A) (k : A -> M B) :
  stable P c -> (forall a, stable P (k a)) -> stable P (bind c k).
Proof.
  intros Hc Hk w r w'. unfold bind.
  destruct (c w) as [[a|e] w1] eqn:E; intros H HP.
  - exact (Hk a _ _ _ H (Hc _ _ _ E HP)).
  - injection H as <- <-. exact (Hc _ _ _ E HP).
Qed.

Lemma stable_when (b : bool) (c : M unit) : stable P c -> stable P (when b c).
Proof. destruct b; [auto | intros _; apply stable_ret]. Qed.

Lemma stable_from_option {A} (e : exn) (o : option A) : stable P (from_option e o).
Proof. destruct o; [apply stable_ret | apply stable_raise]. Qed.

Lemma stable_foldM {A S} (body : S -> A -> M S) (l : list A) :
  (forall s a, stable P (body s a)) -> forall s, stable P (foldM body l s).
Proof.
  intros Hb. induction l as [|a l IH]; intros s; cbn [foldM].
  - apply stable_ret.
  - apply stable_bind; [apply Hb | exact IH].
Qed.

Lemma stable_forM_ {A} (l : list A) (body : A -> M unit) :
  (forall a, stable P (body a)) -> stable P (forM_ l body).
Proof. intros Hb. apply stable_foldM. intros _ a. apply Hb. Qed.

Lemma stable_mapM {A B} (f : A -> M B) (l : list A) :
  (forall a, stable P (f a)) -> stable P (mapM f l).
Proof.
  intros Hf. induction l as [|a l IH]; cbn [mapM].
  - apply stable_ret.
  - apply stable_bind; [apply Hf|]. intros b.
    apply stable_bind; [exact IH|]. intros bs. apply stable_ret.
Qed.

Lemma stable_as_int (v : pyval) : stable P (as_int v).
Proof. destruct v; first [apply stable_ret | apply stable_raise]. Qed.

Lemma stable_as_float (v : pyval) : stable P (as_float v).
Proof. destruct v; first [apply stable_ret | apply stable_raise]. Qed.

(** Properties that do not depend on the trace, and that creating a
    directory keeps. *)
Hypothesis P_event : forall e w, P w -> P (add_event e w).
Hypothesis P_dir : forall d w, P w -> P (add_dir d w).

Lemma stable_emit (e : event) : stable P (emit e).
Proof. intros w r w' [= <- <-] H. now apply P_event. Qed.

Lemma stable_py_printf (level msg : string) : stable P (py_printf level msg).
Proof.
  unfold py_printf. apply stable_bind; [apply stable_emit|]. intros _.
  destruct (String.eqb level "ERROR"); [apply stable_raise | apply stable_ret].
Qed.

Lemma stable_make_directory (d : string) : stable P (make_directory d).
Proof.
  unfold make_directory. apply stable_bind; [apply stable_get|]. intros w0.
  destruct (existsb (String.eqb d) (dirs w0)); [apply stable_ret|].
  destruct (disk_ok w0 d); [|apply stable_raise].
  apply stable_bind; [|intros _; apply stable_emit].
  intros w r w' [= <- <-] H. now apply P_dir.
Qed.

Lemma stable_savefig (path : string) : stable P (savefig path).
Proof.
  unfold savefig. apply stable_bind; [apply stable_get|]. intros w0.
  destruct (disk_ok w0 path); [apply stable_emit | apply stable_raise].
Qed.

(** Steps through a computation built from the pieces above. *)
Ltac stable_step :=
  first
    [ apply stable_ret | apply stable_raise | apply stable_get | apply stable_emit
    | apply stable_py_printf | apply stable_make_directory | apply stable_savefig
    | apply stable_as_int | apply stable_as_float | apply stable_from_option
    | apply stable_when
    | apply stable_bind; [|intros ?]
    | apply stable_foldM; intros ? ?
    | apply stable_forM_; intros ?
    | apply stable_mapM; intros ?
    | match goal with
      | |- stable _ (if ?b then _ else _) => destruct b
      | |- stable _ (match ?x with _ => _ end) => destruct x
      | |- stable _ (let '(_, _) := ?x in _) => destruct x
      end ].

Lemma stable_check_zcoord (geometry : Geometry) (zcoord : pyval) :
  stable P (_check_zcoord geometry zcoord).
Proof. unfold _check_zcoord. repeat stable_step. Qed.

Lemma stable_rasterize (geometry : Geometry) (data : ndarray) (z : float)
    (c : coords) (g : nat) (surface : list (list float)) :
  stable P (rasterize geometry data z c g surface).
Proof. unfold rasterize, sample, setitem2. repeat stable_step. Qed.

Lemma stable_postprocess (norm tz : bool) (surface : list (list float)) :
  stable P (postprocess norm tz surface).
Proof. unfold postprocess, normalize. repeat stable_step. Qed.

(** The part of [plot_spatial_data] that follows the creation of the
    directory. *)
Lemma stable_plot_spatial_data
    (geometry : Geometry) (data : option ndarray) (norm transparent_zeros : bool)
    (zcoord gridsize : pyval) (xlim ylim : option (float * float))
    (colorbar : bool) (title suptitle filename : pyval)
    (interpolation cmap : option string) (vmin vmax : pyval) (get_figure : bool) :
  stable P
    (plot_spatial_data geometry data norm transparent_zeros zcoord gridsize
       xlim ylim colorbar title suptitle filename interpolation cmap vmin vmax
       get_figure).
Proof.
  unfold plot_spatial_data.
  repeat first [ apply stable_check_zcoord | apply stable_rasterize
               | apply stable_postprocess | stable_step ].
Qed.

Lemma stable_plot_spatial_fluxes (solver : Solver) (energy_groups : pyseq pyval)
    (norm : bool) (gridsize : pyval) (xlim ylim : option (float * float)) :
  stable P (plot_spatial_fluxes solver energy_groups norm gridsize xlim ylim).
Proof.
  unfold plot_spatial_fluxes, get_scalar_fluxes, column.
  repeat first [ apply stable_plot_spatial_data | stable_step ].
Qed.

End StableFacts.

(** Walks through a computation built from the pieces above; what is left
    are the conditions on the property. *)
Ltac stable_walk :=
  repeat first
    [ apply stable_ret | apply stable_raise | apply stable_get
    | apply stable_as_int | apply stable_as_float | apply stable_from_option
    | apply stable_plot_spatial_fluxes | apply stable_plot_spatial_data
    | apply stable_check_zcoord | apply stable_rasterize | apply stable_postprocess
    | apply stable_py_printf | apply stable_make_directory | apply stable_savefig
    | apply stable_emit
    | apply stable_when
    | apply stable_bind; [|intros ?]
    | apply stable_foldM; intros ? ?
    | apply stable_forM_; intros ?
    | apply stable_mapM; intros ?
    | match goal with
      | |- stable _ (if ?b then _ else _) => destruct b
      | |- stable _ (match ?x with _ => _ end) => destruct x
      end ].

Section Directory.
Context {R : Runtime}.

(** X12: [plot_spatial_data] creates the output directory before it checks
    its arguments.  When the directory exists or can be created, it exists
    after the call however the call ends, also when the arguments are
    refused and nothing is plotted. *)
Theorem plot_spatial_data_leaves_directory
    (geometry : Geometry) (data : option ndarray) (norm transparent_zeros : bool)
    (zcoord gridsize : pyval) (xlim ylim : option (float * float))
    (colorbar : bool) (title suptitle filename : pyval)
    (interpolation cmap : option string) (vmin vmax : pyval)
    (get_figure : bool) (w : world) :
  let directory := (output_directory w ++ subdirectory w)%string in
  existsb (String.eqb directory) (dirs w) || disk_ok w directory = true ->
  In directory
     (dirs (snd (plot_spatial_data geometry data norm transparent_zeros zcoord
                   gridsize xlim ylim colorbar title suptitle filename
                   interpolation cmap vmin vmax get_figure w))).
Proof.
  intros directory Hdir.
  destruct (plot_spatial_data geometry data norm transparent_zeros zcoord
              gridsize xlim ylim colorbar title suptitle filename
              interpolation cmap vmin vmax get_figure w) as [r w'] eqn:Hrun.
  cbn [snd].
  assert (Hstable : stable (fun w0 => In directory (dirs w0))
            (plot_spatial_data geometry data norm transparent_zeros zcoord
               gridsize xlim ylim colorbar title suptitle filename
               interpolation cmap vmin vmax get_figure)).
  { apply stable_plot_spatial_data.
    - intros e w0 H. exact H.
    - intros d w0 H. now right. }
  destruct (existsb (String.eqb directory) (dirs w)) eqn:Hex.
  - apply (Hstable _ _ _ Hrun).
    apply existsb_exists in Hex. destruct Hex as (d & Hin & Heq).
    apply String.eqb_eq in Heq. now subst.
  - cbn [orb] in Hdir.
    unfold plot_spatial_data in Hrun. unfold bind at 1 in Hrun. unfold get in Hrun.
    fold directory in Hrun. unfold bind at 1 in Hrun.
    unfold make_directory at 1 in Hrun. unfold bind at 1 in Hrun.
    unfold get in Hrun. rewrite Hex, Hdir in Hrun.
    unfold bind at 1 in Hrun. unfold modify at 1 in Hrun. rewrite emit_run in Hrun.
    match type of Hrun with
    | ?k ?w1 = _ =>
        assert (Hrest : stable (fun w0 => In directory (dirs w0)) k)
    end.
    { stable_walk; intros ? ? H; exact H. }
    apply (Hrest _ _ _ Hrun). now left.
Qed.

End Directory.

Lemma plot_spatial_data_leaves_directory_witness :
  In "out/plots/"
     (dirs (snd (plot_spatial_data (R := Demo.runtime) Demo.geometry
                   (Some Demo.data) false true PyNone (PyInt 0) None None false
                   PyNone PyNone (PyStr "spatial-data") None None PyNone PyNone
                   false Demo.world0))).
Proof.
  apply (plot_spatial_data_leaves_directory (R := Demo.runtime) Demo.geometry
           (Some Demo.data) false true PyNone (PyInt 0) None None false
           PyNone PyNone (PyStr "spatial-data") None None PyNone PyNone
           false Demo.world0).
  reflexivity.
Defined.

(** ** The eigenmode sweep: refused modes, and the solver afterwards *)

Section Sweep.
Context {R : Runtime}.

(** The loop that checks the modes (lines 721-732). *)
Lemma check_modes_run (num_modes : Z) (l : list pyval) (w : world) :
  let check := fun mode : pyval =>
    if negb (is_integer mode) then
      py_printf "ERROR" "Unable to plot the eigenmode flux for eigenmode %s"
    else
      do m <- as_int mode;
      if m <=? 0 then
        py_printf "ERROR" "Unable to plot the eigenmode flux for negative eigenmode %d"
      else if num_modes <? m then
        py_printf "ERROR" "Unable to plot the eigenmode flux for eigenmode %d out of %d modes"
      else ret tt in
  if forallb (mode_ok num_modes) l
  then forM_ l check w = (Ok tt, w)
  else exists msg,
      forM_ l check w = (Raise (LogError msg), add_events [EvLog "ERROR" msg] w).
Proof.
  intros check. unfold forM_.
  induction l as [|mode l IH]; [reflexivity|].
  cbn [forallb foldM].
  assert (Hstep : forall m, check (PyInt m) w
            = if (0 <? m) && (m <=? num_modes) then (Ok tt, w)
              else (check (PyInt m) w)).
  { intros m. destruct ((0 <? m) && (m <=? num_modes)) eqn:E; [|reflexivity].
    apply andb_true_iff in E. destruct E as [E1 E2].
    apply Z.ltb_lt in E1. apply Z.leb_le in E2.
    unfold check. cbn [is_integer negb as_int]. unfold bind, ret.
    replace (m <=? 0) with false by (symmetry; apply Z.leb_gt; lia).
    replace (num_modes <? m) with false by (symmetry; apply Z.ltb_ge; lia).
    reflexivity. }
  assert (Hfail : forall mode, mode_ok num_modes mode = false ->
            exists msg, check mode w
                        = (Raise (LogError msg), add_events [EvLog "ERROR" msg] w)).
  { intros [|m|f|s] Hno; unfold check; cbn [is_integer negb as_int];
      try (rewrite py_printf_error; eauto; fail).
    unfold bind, ret. cbn [mode_ok] in Hno.
    destruct (Z.leb_spec m 0); [rewrite py_printf_error; eauto|].
    destruct (Z.ltb_spec num_modes m); [rewrite py_printf_error; eauto|].
    exfalso. apply andb_false_iff in Hno.
    destruct Hno as [Hno|Hno]; [apply Z.ltb_ge in Hno | apply Z.leb_gt in Hno]; lia. }
  destruct (mode_ok num_modes mode) eqn:Hmode; cbn [andb].
  - destruct mode as [|m|f|s]; try discriminate. cbn [mode_ok] in Hmode.
    unfold bind. rewrite Hstep, Hmode. exact IH.
  - destruct (Hfail mode Hmode) as [msg Hmsg]. exists msg.
    unfold bind. now rewrite Hmsg.
Qed.

(** X13: [plot_eigenmode_fluxes] checks every requested mode before it plots
    any.  When [eigenmodes] is not a sequence, or names a mode that is not
    an integer in [1, num_modes], the call ends with the logged error after
    having done nothing but create the output directory: the solver's
    fluxes and the module's [subdirectory] are as before. *)
Theorem plot_eigenmode_fluxes_rejects
    (iramsolver : IRAMSolver) (eigenmodes : pyseq pyval) (norm : bool)
    (energy_groups : pyseq pyval) (gridsize : pyval)
    (xlim ylim : option (float * float)) (w w1 : world) :
  contains "IRAMSolver" (iram_type iramsolver) = true ->
  make_directory (output_directory w ++ subdirectory w) w = (Ok tt, w1) ->
  match requested_modes (_num_modes iramsolver) eigenmodes with
  | Some l => forallb (mode_ok (_num_modes iramsolver)) l = false
  | None => True
  end ->
  exists msg,
    plot_eigenmode_fluxes iramsolver eigenmodes norm energy_groups gridsize
      xlim ylim w
    = (Raise (LogError msg), add_events [EvLog "ERROR" msg] w1).
Proof.
  intros Hty Hmk Hbad.
  unfold plot_eigenmode_fluxes. unfold bind at 1. unfold get.
  unfold bind at 1. rewrite Hmk.
  unfold bind at 1. rewrite Hty. cbn [negb when ret].
  unfold bind at 1.
  destruct eigenmodes as [l| |]; cbn [requested_modes] in Hbad.
  - unfold bind at 1.
    match goal with
    | |- context [forM_ ?l' _ w1] =>
        pose proof (check_modes_run (_num_modes iramsolver) l' w1) as Hcheck
    end.
    cbv zeta in Hcheck.
    destruct l as [|mode l]; cbn [length] in *.
    + destruct (decide (0%nat = 0%nat)) as [_|n]; [|contradiction].
      rewrite Hbad in Hcheck. destruct Hcheck as [msg Hcheck].
      exists msg. now rewrite Hcheck.
    + destruct (decide (S (length l) = 0%nat)) as [e|_]; [discriminate|].
      rewrite Hbad in Hcheck. destruct Hcheck as [msg Hcheck].
      exists msg. now rewrite Hcheck.
  - unfold bind at 1. rewrite py_printf_error. eauto.
  - unfold bind at 1. rewrite py_printf_error. eauto.
Qed.

End Sweep.

(** A missing mode and a mode beyond the last one. *)
Lemma plot_eigenmode_fluxes_rejects_witness :
  exists msg,
    plot_eigenmode_fluxes (R := Demo.runtime) Demo.iramsolver
      (SeqOf [PyInt 1; PyInt 3]) false (SeqOf [PyInt 1]) (PyInt 2) None None
      Demo.world0
    = (Raise (LogError msg),
       add_events [EvLog "ERROR" msg]
         (add_event (EvMakedirs "out/plots/") (add_dir "out/plots/" Demo.world0))).
Proof.
  apply (plot_eigenmode_fluxes_rejects (R := Demo.runtime) Demo.iramsolver
           (SeqOf [PyInt 1; PyInt 3]) false (SeqOf [PyInt 1]) (PyInt 2) None None
           Demo.world0).
  - reflexivity.
  - reflexivity.
  - reflexivity.
Defined.

Section SweepSolver.
Context {R : Runtime}.

Lemma mapM_as_int_inv (l : list pyval) :
  forall (ms : list Z) (w w' : world),
    mapM as_int l w = (Ok ms, w') -> l = map PyInt ms /\ w' = w.
Proof.
  induction l as [|v l IH]; intros ms w w' H; cbn [mapM] in H.
  - injection H as <- <-. split; reflexivity.
  - destruct v as [|z|f|s]; try discriminate.
    unfold bind at 1 in H. cbn [as_int ret] in H.
    unfold bind at 1 in H.
    destruct (mapM as_int l w) as [[ms'|e] w1] eqn:E; [|discriminate].
    injection H as <- <-. destruct (IH _ _ _ E) as [-> ->]. split; reflexivity.
Qed.

(** A loop each of whose iterations leaves the solver with the fluxes of its
    mode leaves it with those of the last mode. *)
Lemma sweep_leaves_last (fluxes : Z -> list float) (body : Z -> M unit)
    (modes : list Z) :
  (forall mode w w', body mode w = (Ok tt, w') -> solver_fluxes w' = fluxes mode) ->
  forall w w',
    forM_ modes body w = (Ok tt, w') ->
    solver_fluxes w' = match last modes with
                       | Some mode => fluxes mode
                       | None => solver_fluxes w
                       end.
Proof.
  intros Hbody. unfold forM_.
  induction modes as [|mode modes IH]; intros w w' H; cbn [foldM] in H.
  - injection H as <-. reflexivity.
  - unfold bind in H. destruct (body mode w) as [[[]|e] w1] eqn:E; [|discriminate].
    specialize (IH _ _ H). destruct modes as [|mode' modes'].
    + cbn in IH. cbn. rewrite IH. exact (Hbody _ _ _ E).
    + rewrite last_cons_cons.
      destruct (last (mode' :: modes')) eqn:El; [exact IH|].
      apply last_None in El. discriminate El.
Qed.

(** X14: a sweep that returns leaves the MOC solver holding the flux array
    of the last mode it plotted (the absolute values of the eigenvector for
    mode 1, the eigenvector itself for any other mode): the fluxes the
    solver held before the call are not put back. *)
Theorem plot_eigenmode_fluxes_overwrites_solver
    (iramsolver : IRAMSolver) (eigenmodes : pyseq pyval) (norm : bool)
    (energy_groups : pyseq pyval) (gridsize : pyval)
    (xlim ylim : option (float * float)) (w w' : world) :
  plot_eigenmode_fluxes iramsolver eigenmodes norm energy_groups gridsize
    xlim ylim w = (Ok tt, w') ->
  exists modes : list Z,
    requested_modes (_num_modes iramsolver) eigenmodes = Some (map PyInt modes) /\
    solver_fluxes w' = match last modes with
                       | Some mode => mode_fluxes iramsolver mode
                       | None => solver_fluxes w
                       end.
Proof.
  intros Hrun. unfold plot_eigenmode_fluxes in Hrun.
  set (keeps := fun w0 : world => solver_fluxes w0 = solver_fluxes w).
  apply bind_ok_inv in Hrun. destruct Hrun as (w0 & wa & Hget & Hrun).
  injection Hget as <- <-.
  apply bind_ok_inv in Hrun. destruct Hrun as ([] & w1 & Hmk & Hrun).
  assert (K1 : keeps w1).
  { refine (stable_make_directory keeps _ _ _ _ _ _ Hmk eq_refl);
      intros ? ? H; exact H. }
  apply bind_ok_inv in Hrun. destruct Hrun as ([] & w2 & Hty & Hrun).
  assert (K2 : keeps w2).
  { revert Hty K1. apply stable_when, stable_py_printf. intros ? ? H; exact H. }
  apply bind_ok_inv in Hrun. destruct Hrun as (modes & w3 & Hmodes & Hrun).
  assert (Hreq : requested_modes (_num_modes iramsolver) eigenmodes
                 = Some (map PyInt modes) /\ keeps w3).
  { destruct eigenmodes as [l| |].
    - apply bind_ok_inv in Hmodes. destruct Hmodes as ([] & wb & Hcheck & Hmap).
      apply mapM_as_int_inv in Hmap. destruct Hmap as [Hl ->]. split.
      + cbn [requested_modes]. destruct l as [|v l]; cbn [length] in Hl.
        * destruct (decide (0%nat = 0%nat)) as [_|n]; [|contradiction].
          now rewrite Hl.
        * destruct (decide (S (length l) = 0%nat)) as [e|_]; [discriminate|].
          now rewrite Hl.
      + revert Hcheck K2. apply stable_forM_. intros mode.
        stable_walk; intros ? ? H; exact H.
    - apply bind_ok_inv in Hmodes. destruct Hmodes as ([] & wb & Hlog & Hraise).
      discriminate Hraise.
    - apply bind_ok_inv in Hmodes. destruct Hmodes as ([] & wb & Hlog & Hraise).
      discriminate Hraise. }
  destruct Hreq as [Hreq K3].
  exists modes. split; [exact Hreq|].
  apply bind_ok_inv in Hrun. destruct Hrun as ([] & w4 & Hlog & Hrun).
  assert (K4 : keeps w4).
  { revert Hlog K3. apply stable_py_printf. intros ? ? H; exact H. }
  apply bind_ok_inv in Hrun. destruct Hrun as ([] & w5 & Hsweep & Hreset).
  unfold modify in Hreset. injection Hreset as <-. cbn [solver_fluxes set_subdirectory].
  match type of Hsweep with
  | forM_ _ ?body _ = _ =>
      rewrite (sweep_leaves_last (mode_fluxes iramsolver) body modes)
        with (w := w4) (w' := w5);
        [now rewrite K4 | | exact Hsweep]
  end.
  clear. intros mode w w' Hbody. cbv zeta in Hbody.
  unfold bind at 1 in Hbody. unfold setFluxes at 1 in Hbody.
  unfold bind at 1 in Hbody. unfold modify at 1 in Hbody. rewrite emit_run in Hbody.
  revert Hbody.
  match goal with
  | |- ?k ?w1 = _ -> _ =>
      assert (Hrest : stable (fun w0 => solver_fluxes w0 = mode_fluxes iramsolver mode) k)
  end.
  { stable_walk; try (intros ? ? H; exact H).
    intros w0 r w1 [= <- <-] H. exact H. }
  intros Hbody. exact (Hrest _ _ _ Hbody eq_refl).
Qed.

End SweepSolver.

Lemma plot_eigenmode_fluxes_overwrites_solver_witness :
  solver_fluxes
    (snd (plot_eigenmode_fluxes (R := Demo.runtime) Demo.iramsolver
            (SeqOf [PyInt 1; PyInt 2]) false (SeqOf [PyInt 1]) (PyInt 2)
            None None Demo.world0))
  = mode_fluxes Demo.iramsolver 2.
Proof.
  assert (Hok : fst (plot_eigenmode_fluxes (R := Demo.runtime) Demo.iramsolver
                       (SeqOf [PyInt 1; PyInt 2]) false (SeqOf [PyInt 1]) (PyInt 2)
                       None None Demo.world0) = Ok tt)
    by (vm_compute; reflexivity).
  destruct (plot_eigenmode_fluxes (R := Demo.runtime) Demo.iramsolver
              (SeqOf [PyInt 1; PyInt 2]) false (SeqOf [PyInt 1]) (PyInt 2)
              None None Demo.world0) as [r w'] eqn:Hrun.
  cbn [fst snd] in *. subst r.
  destruct (plot_eigenmode_fluxes_overwrites_solver (R := Demo.runtime)
              Demo.iramsolver (SeqOf [PyInt 1; PyInt 2]) false (SeqOf [PyInt 1])
              (PyInt 2) None None Demo.world0 w' Hrun) as (modes & Hreq & Hfluxes).
  cbn [requested_modes] in Hreq.
  destruct modes as [|a [|b [|c modes]]]; try discriminate Hreq.
  injection Hreq as <- <-. exact Hfluxes.
Defined.

(** ** [plot_energy_fluxes]: the regions asked for *)

Section EnergyFluxes.
Context {R : Runtime}.

(** The loop that checks the regions (lines 543-554). *)
Lemma check_fsrs_run (num_fsrs : Z) (l : list pyval) (w : world) :
  let check := fun fsr : pyval =>
    if negb (is_integer fsr) then
      py_printf "ERROR" "Unable to plot the flux vs. energy non-integer FSR %s"
    else
      do f <- as_int fsr;
      if f <? 0 then
        py_printf "ERROR" "Unable to plot the flux vs. energy for negative FSR %d"
      else if num_fsrs <=? f then
        py_printf "ERROR"
          "Unable to plot the flux vs. energy for FSR %d in problem with %d FSRs"
      else ret tt in
  if forallb (fsr_ok num_fsrs) l
  then forM_ l check w = (Ok tt, w)
  else exists msg,
      forM_ l check w = (Raise (LogError msg), add_events [EvLog "ERROR" msg] w).
Proof.
  intros check. unfold forM_.
  induction l as [|fsr l IH]; [reflexivity|].
  cbn [forallb foldM].
  assert (Hstep : forall f, (0 <=? f) && (f <? num_fsrs) = true ->
                            check (PyInt f) w = (Ok tt, w)).
  { intros f E. apply andb_true_iff in E. destruct E as [E1 E2].
    apply Z.leb_le in E1. apply Z.ltb_lt in E2.
    unfold check. cbn [is_integer negb as_int]. unfold bind, ret.
    replace (f <? 0) with false by (symmetry; apply Z.ltb_ge; lia).
    replace (num_fsrs <=? f) with false by (symmetry; apply Z.leb_gt; lia).
    reflexivity. }
  assert (Hfail : forall fsr, fsr_ok num_fsrs fsr = false ->
            exists msg, check fsr w
                        = (Raise (LogError msg), add_events [EvLog "ERROR" msg] w)).
  { intros [|f|f|s] Hno; unfold check; cbn [is_integer negb as_int];
      try (rewrite py_printf_error; eauto; fail).
    unfold bind, ret. cbn [fsr_ok] in Hno.
    destruct (Z.ltb_spec f 0); [rewrite py_printf_error; eauto|].
    destruct (Z.leb_spec num_fsrs f); [rewrite py_printf_error; eauto|].
    exfalso. apply andb_false_iff in Hno.
    destruct Hno as [Hno|Hno]; [apply Z.leb_gt in Hno | apply Z.ltb_ge in Hno]; lia. }
  destruct (fsr_ok num_fsrs fsr) eqn:Hfsr; cbn [andb].
  - destruct fsr as [|f|f|s]; try discriminate. cbn [fsr_ok] in Hfsr.
    unfold bind. rewrite (Hstep f Hfsr). exact IH.
  - destruct (Hfail fsr Hfsr) as [msg Hmsg]. exists msg.
    unfold bind. now rewrite Hmsg.
Qed.

(** X15: [plot_energy_fluxes] checks every requested region before it looks
    at the group bounds or draws anything.  When [fsrs] is not a sequence,
    or names a region that is not an integer in [0, num_fsrs), the call
    ends with the logged error, whatever the group bounds are, after having
    done nothing but create the output directory. *)
Theorem plot_energy_fluxes_rejects_fsrs (solver : Solver) (fsrs : pyseq pyval)
    (group_bounds : pyseq pynum) (norm loglog : bool) (w w1 : world) :
  contains "Solver" (solver_type solver) = true ->
  make_directory (output_directory w ++ subdirectory w) w = (Ok tt, w1) ->
  match fsrs with
  | SeqOf l => forallb (fsr_ok (getNumFSRs (getGeometry solver))) l = false
  | _ => True
  end ->
  exists msg,
    plot_energy_fluxes solver fsrs group_bounds norm loglog w
    = (Raise (LogError msg), add_events [EvLog "ERROR" msg] w1).
Proof.
  intros Hty Hmk Hbad.
  unfold plot_energy_fluxes. unfold bind at 1. unfold get.
  unfold bind at 1. rewrite Hmk.
  unfold bind at 1. rewrite Hty. cbn [negb when ret].
  unfold bind at 1.
  destruct fsrs as [l| |].
  - unfold bind at 1.
    pose proof (check_fsrs_run (getNumFSRs (getGeometry solver)) l w1) as Hcheck.
    cbv zeta in Hcheck. rewrite Hbad in Hcheck. destruct Hcheck as [msg Hcheck].
    exists msg. now rewrite Hcheck.
  - unfold bind at 1. rewrite py_printf_error. eauto.
  - unfold bind at 1. rewrite py_printf_error. eauto.
Qed.

End EnergyFluxes.

(** The demonstration geometry has the regions 0 and 1. *)
Lemma plot_energy_fluxes_rejects_fsrs_witness :
  exists msg,
    plot_energy_fluxes (R := Demo.runtime) Demo.solver (SeqOf [PyInt 0; PyInt 2])
      SeqNone true true Demo.world0
    = (Raise (LogError msg),
       add_events [EvLog "ERROR" msg]
         (add_event (EvMakedirs "out/plots/") (add_dir "out/plots/" Demo.world0))).
Proof.
  apply (plot_energy_fluxes_rejects_fsrs (R := Demo.runtime) Demo.solver
           (SeqOf [PyInt 0; PyInt 2]) SeqNone true true Demo.world0).
  - reflexivity.
  - reflexivity.
  - reflexivity.
Defined.

(** ** [plot_fission_rates] *)

Section FissionRates.
Context {R : Runtime}.

(** X16: with its default options (no normalization, transparent zeros),
    [plot_fission_rates] on a valid solver returns after drawing one image
    with a color bar, in which a sample holds -1 where the geometry finds no
    region, not-a-number (a transparent pixel) where the region's fission
    rate is zero, and the region's fission rate elsewhere. *)
Theorem plot_fission_rates_pixels (solver : Solver)
    (computeFSRFissionRates : Z -> list float) (gridsize : Z)
    (xlim ylim : option (float * float)) (w : world) :
  let geometry := getGeometry solver in
  let z := getFSRPointZ geometry in
  let rates := computeFSRFissionRates (getNumFSRs geometry) in
  let coords := _get_pixel_coords geometry gridsize xlim ylim in
  let directory := (output_directory w ++ subdirectory w)%string in
  let filename := ("fission-rates-z-" ++ str_float z ++ ".png")%string in
  contains "Solver" (solver_type solver) = true ->
  contains "Geometry" (geometry_type geometry) = true ->
  Z.of_nat (length rates) = getNumFSRs geometry ->
  0 < gridsize ->
  zcoord_in_range geometry z = true ->
  (forall i j x y k,
      coords_y coords !! i = Some x -> coords_x coords !! j = Some y ->
      getFSRId geometry x y z = Some k -> is_Some (py_index rates k)) ->
  existsb (String.eqb directory) (dirs w) || disk_ok w directory = true ->
  disk_ok w (directory ++ filename)%string = true ->
  exists (shown : list (list float)) (w' : world),
    plot_fission_rates solver computeFSRFissionRates false true (PyInt gridsize)
      xlim ylim w = (Ok tt, w') /\
    In (EvImshow {| img_data := flipud shown;
                    img_extent := coords_bounds coords;
                    img_cmap := None; img_vmin := PyNone; img_vmax := PyNone;
                    img_interpolation := None |}) (events w') /\
    In EvColorbar (events w') /\
    forall i j x y,
      coords_y coords !! i = Some x -> coords_x coords !! j = Some y ->
      entry shown j i
      = match getFSRId geometry x y z with
        | None => Some Float64.neg_one
        | Some k =>
            (fun rate => if Float64.eqb rate Float64.zero then Float64.nan else rate)
              <$> py_index rates k
        end.
Proof.
  intros geometry z rates coords directory filename
         Hsolver Hgeom Hlen Hgrid Hz Hids Hdir Hfile.
  set (title := ("z = " ++ str_float z)%string).
  assert (Hcap : forall t, negb (truthy (PyStr t) && negb (is_str (PyStr t))) = true).
  { intros t. cbn [is_str negb]. now rewrite andb_false_r. }
  assert (Hok : arguments_ok geometry (Some (NdFloat rates)) (PyFloat z)
                  (PyInt gridsize) (PyStr title)
                  (PyStr "Flat Source Region Fission Rates") (PyStr filename) = true).
  { unfold arguments_ok. rewrite Hgeom, !Hcap. cbn [ndarray_len zcoord_or_default is_str].
    rewrite Hz. rewrite (proj2 (Z.eqb_eq _ _) Hlen), (proj2 (Z.ltb_lt _ _) Hgrid).
    reflexivity. }
  destruct (plot_spatial_data_run geometry (NdFloat rates) false true (PyFloat z)
              gridsize xlim ylim true (PyStr title)
              (PyStr "Flat Source Region Fission Rates") filename None None
              PyNone PyNone false z
              (add_events [EvLog "NORMAL" "Plotting the flat source region fission rates..."] w)
              Hok eq_refl)
    as (surface & shown & w1 & Hmk & Hpix & Hpost & Hcall).
  { exact Hids. }
  { exact Hdir. }
  { intros _. exact Hfile. }
  unfold postprocess, bind, ret in Hpost. injection Hpost as <-.
  cbv zeta in Hcall. fold coords in Hcall, Hpix.
  eexists (blank_zeros surface), _. split; [|split; [|split]].
  - unfold plot_fission_rates. unfold bind at 1. rewrite Hsolver.
    cbn [negb when ret]. unfold bind at 1. rewrite py_printf_normal.
    fold geometry. fold z. fold rates. fold title. fold filename.
    unfold bind at 1. rewrite Hcall. reflexivity.
  - cbn [events add_events]. apply in_or_app. right.
    apply in_or_app. right. unfold drawing_events. right. now left.
  - cbn [events add_events]. apply in_or_app. right.
    apply in_or_app. right. unfold drawing_events. right. right. now left.
  - intros i j x y Hx Hy. unfold blank_zeros. rewrite entry_map.
    rewrite (Hpix i j x y Hx Hy). unfold pixel_value.
    destruct (getFSRId geometry x y z) as [k|]; [|reflexivity].
    cbn [getitem]. now destruct (py_index rates k).
Qed.

End FissionRates.

Lemma plot_fission_rates_pixels_witness :
  exists (shown : list (list float)) (w' : world),
    plot_fission_rates (R := Demo.runtime) Demo.solver Demo3.fission_rates
      false true (PyInt 3) None None Demo.world0 = (Ok tt, w') /\
    In (EvImshow {| img_data := flipud shown;
                    img_extent := coords_bounds Demo.grid3;
                    img_cmap := None; img_vmin := PyNone; img_vmax := PyNone;
                    img_interpolation := None |}) (events w') /\
    In EvColorbar (events w') /\
    forall i j x y,
      coords_y Demo.grid3 !! i = Some x -> coords_x Demo.grid3 !! j = Some y ->
      entry shown j i
      = match getFSRId Demo.geometry x y Float64.zero with
        | None => Some Float64.neg_one
        | Some k =>
            (fun rate => if Float64.eqb rate Float64.zero then Float64.nan else rate)
              <$> py_index (Demo3.fission_rates 2) k
        end.
Proof.
  apply (plot_fission_rates_pixels (R := Demo.runtime) Demo.solver
           Demo3.fission_rates 3 None None Demo.world0).
  - reflexivity.
  - reflexivity.
  - reflexivity.
  - lia.
  - reflexivity.
  - intros i j x y k _ _. cbn [getFSRId Demo.geometry Demo.solver getGeometry].
    destruct (Float64.ltb Float64.one y); [discriminate|].
    destruct (Float64.ltb x Float64.zero); intros [= <-]; vm_compute; eauto.
  - reflexivity.
  - reflexivity.
Defined.

(** ** [plot_spatial_fluxes]: which fluxes are drawn for which group *)

Section SpatialFluxes.
Context {R : Runtime}.

Lemma length_reshape (rows cols : nat) :
  forall flat, length (reshape rows cols flat) = rows.
Proof. induction rows as [|rows IH]; intros flat; cbn; [reflexivity | now rewrite IH]. Qed.

Lemma reshape_rows (rows cols : nat) :
  forall flat row,
    length flat = (rows * cols)%nat ->
    In row (reshape rows cols flat) -> length row = cols.
Proof.
  induction rows as [|rows IH]; intros flat row Hlen Hin; [destruct Hin|].
  cbn [reshape] in Hin. destruct Hin as [<-|Hin].
  - rewrite length_take. lia.
  - apply (IH (drop cols flat)); [|exact Hin]. rewrite length_drop. lia.
Qed.

Lemma py_index_is_Some {A} (l : list A) (k : Z) :
  - Z.of_nat (length l) <= k < Z.of_nat (length l) -> is_Some (py_index l k).
Proof.
  intros Hk. unfold py_index. rewrite norm_index_spec.
  case_decide; [|contradiction]. apply lookup_lt_is_Some_2.
  pose proof (Z.mod_pos_bound k (Z.of_nat (length l))). lia.
Qed.

(** A column of an array all of whose rows have [num_groups] entries. *)
Lemma column_run (fluxes : list (list float)) (num_groups index : nat) (w : world) :
  (forall row, In row fluxes -> length row = num_groups) ->
  (index < num_groups)%nat ->
  column fluxes num_groups index w
  = (Ok (map (fun row => nth index row Float64.zero) fluxes), w).
Proof.
  intros Hrows Hindex. unfold column.
  destruct (decide (index < num_groups)%nat) as [_|n]; [|contradiction].
  induction fluxes as [|row fluxes IH]; [reflexivity|].
  cbn [mapM map].
  destruct (lookup_lt_is_Some_2 row index) as [v Hv].
  { rewrite (Hrows row) by now left. exact Hindex. }
  rewrite Hv. cbn [from_option]. unfold bind at 1. cbn [ret].
  unfold bind at 1. rewrite IH by (intros r Hr; apply Hrows; now right).
  unfold ret. now rewrite (nth_lookup_Some _ _ Float64.zero _ Hv).
Qed.

Lemma filter_imshow_caption (call : string -> event) (caption : pyval) :
  (forall t, is_imshow (call t) = false) ->
  List.filter is_imshow (caption_events call caption) = [].
Proof.
  intros Hcall. unfold caption_events.
  destruct caption as [| | |t]; try reflexivity.
  destruct (truthy (PyStr t)); [|reflexivity].
  cbn [List.filter]. now rewrite Hcall.
Qed.

Lemma filter_imshow_drawing (fig : image) (colorbar : bool) (title suptitle : pyval)
    (get_figure : bool) (path : string) :
  List.filter is_imshow (drawing_events fig colorbar title suptitle get_figure path)
  = [EvImshow fig].
Proof.
  unfold drawing_events. rewrite !List.filter_app.
  rewrite !filter_imshow_caption by reflexivity.
  destruct colorbar, get_figure; reflexivity.
Qed.

Lemma filter_imshow_queries (outer inner : list float) (z : float) :
  List.filter is_imshow (sweep_queries outer inner z) = [].
Proof.
  assert (Hrow : forall x, List.filter is_imshow (map (fun y => EvQuery x y z) inner) = []).
  { intros x. induction inner as [|y inner IHi]; [reflexivity | exact IHi]. }
  unfold sweep_queries. induction outer as [|x outer IH]; [reflexivity|].
  cbn [flat_map]. now rewrite List.filter_app, IH, Hrow.
Qed.

(** X17: [plot_spatial_fluxes] pairs the requested groups with the columns
    of the solver's flux array by position, not by group number: the image
    drawn for the k-th listed group shows column k of the flux array,
    whatever number that group has (the number only enters the titles and
    the file name).  On a valid solver and geometry, with no more groups
    listed than the solver has and a writable disk, the call returns having
    drawn exactly one image per listed group, in order. *)
Theorem plot_spatial_fluxes_by_position (solver : Solver) (groups : list pyval)
    (norm : bool) (gridsize : Z) (xlim ylim : option (float * float)) (w : world) :
  let geometry := getGeometry solver in
  let z := getFSRPointZ geometry in
  let num_fsrs := Z.to_nat (getNumFSRs geometry) in
  let num_groups := Z.to_nat (getNumEnergyGroups geometry) in
  let fluxes := reshape num_fsrs num_groups (solver_fluxes w) in
  let coords := _get_pixel_coords geometry gridsize xlim ylim in
  let shows := fun (fig : image) (k : nat) =>
    exists surface shown : list (list float),
      (forall i j x y,
          coords_y coords !! i = Some x -> coords_x coords !! j = Some y ->
          entry surface j i
          = pixel_value geometry
              (NdFloat (map (fun row => nth k row Float64.zero) fluxes)) z x y) /\
      fst (postprocess norm false surface w) = Ok shown /\
      fig = {| img_data := flipud shown;
               img_extent := coords_bounds coords;
               img_cmap := None; img_vmin := PyNone; img_vmax := PyNone;
               img_interpolation := None |} in
  contains "Solver" (solver_type solver) = true ->
  contains "Geometry" (geometry_type geometry) = true ->
  0 <= getNumFSRs geometry ->
  length (solver_fluxes w) = (num_fsrs * num_groups)%nat ->
  (length groups <= num_groups)%nat ->
  0 < gridsize ->
  zcoord_in_range geometry z = true ->
  (forall i j x y k,
      coords_y coords !! i = Some x -> coords_x coords !! j = Some y ->
      getFSRId geometry x y z = Some k -> 0 <= k < getNumFSRs geometry) ->
  (forall path, disk_ok w path = true) ->
  exists (figs : list image) (w' : world),
    plot_spatial_fluxes solver (SeqOf groups) norm (PyInt gridsize) xlim ylim w
    = (Ok tt, w') /\
    List.filter is_imshow (events w')
    = List.filter is_imshow (events w) ++ map EvImshow figs /\
    length figs = length groups /\
    forall (k : nat) fig, figs !! k = Some fig -> shows fig k.
Proof.
  intros geometry z num_fsrs num_groups fluxes coords shows
         Hsolver Hgeom Hn Hlen Hgroups Hgrid Hz Hids Hdisk.
  assert (Hrows : forall row, In row fluxes -> length row = num_groups).
  { intros row. now apply reshape_rows. }
  assert (Hpure : forall surface w1 w2,
             fst (postprocess norm false surface w1)
             = fst (postprocess norm false surface w2)).
  { intros surface w1 w2. unfold postprocess, normalize, bind, ret.
    destruct norm; [|reflexivity]. now destruct (np_max surface). }
  assert (Hcap : forall t, negb (truthy (PyStr t) && negb (is_str (PyStr t))) = true).
  { intros t. cbn [is_str negb]. now rewrite andb_false_r. }
  (* one iteration of the loop *)
  assert (Hbody : forall (k : nat) (group : pyval) (w0 : world),
    (k < num_groups)%nat -> disk_ok w0 = disk_ok w ->
    exists fig w1,
      (do data <- column fluxes (Z.to_nat (getNumEnergyGroups geometry)) k;
       plot_spatial_data geometry (Some (NdFloat data)) norm false
         (PyFloat z) (PyInt gridsize) xlim ylim true
         (PyStr ("z = " ++ str_float z))
         (PyStr ("FSR Scalar Flux (Group " ++ format_val group ++ ")"))
         (PyStr ("fsr-flux-group-" ++ format_val group ++ "-z-"
                 ++ str_float z ++ ".png"))
         None None PyNone PyNone false ;; ret tt) w0 = (Ok tt, w1) /\
      disk_ok w1 = disk_ok w /\
      List.filter is_imshow (events w1)
      = List.filter is_imshow (events w0) ++ [EvImshow fig] /\
      shows fig k).
  { intros k group w0 Hk Hd0.
    set (data := map (fun row => nth k row Float64.zero) fluxes).
    assert (Hdata : Z.of_nat (length data) = getNumFSRs geometry).
    { unfold data, fluxes. rewrite length_map, length_reshape. unfold num_fsrs. lia. }
    edestruct (plot_spatial_data_run geometry (NdFloat data) norm false (PyFloat z)
                gridsize xlim ylim true (PyStr ("z = " ++ str_float z))
                (PyStr ("FSR Scalar Flux (Group " ++ format_val group ++ ")"))
                ("fsr-flux-group-" ++ format_val group ++ "-z-"
                 ++ str_float z ++ ".png")
                None None PyNone PyNone false z w0)
      as (surface & shown & w1 & Hmk & Hpix & Hpost & Hcall).
    { unfold arguments_ok. rewrite Hgeom, !Hcap.
      cbn [ndarray_len zcoord_or_default is_str]. rewrite Hz.
      rewrite (proj2 (Z.eqb_eq _ _) Hdata), (proj2 (Z.ltb_lt _ _) Hgrid).
      reflexivity. }
    { reflexivity. }
    { intros i j x y id Hx Hy Hid. cbn [getitem].
      specialize (Hids i j x y id Hx Hy Hid).
      apply py_index_is_Some. lia. }
    { rewrite Hd0, Hdisk. apply orb_true_r. }
    { intros _. rewrite Hd0. apply Hdisk. }
    cbv zeta in Hcall. fold coords in Hcall, Hpix.
    eexists _, _. split; [|split; [|split]].
    - unfold bind at 1. rewrite column_run by assumption. fold data.
      unfold bind at 1. rewrite Hcall. reflexivity.
    - cbn [disk_ok add_events]. rewrite <- Hd0.
      unfold make_directory, bind, get in Hmk.
      destruct (existsb _ (dirs w0)); [now injection Hmk as <-|].
      destruct (disk_ok w0 _); [|discriminate].
      unfold modify, emit, modify, ret in Hmk. now injection Hmk as <-.
    - cbn [events add_events]. rewrite !List.filter_app.
      rewrite filter_imshow_queries, filter_imshow_drawing. cbn [app].
      f_equal. unfold make_directory, bind, get in Hmk.
      destruct (existsb _ (dirs w0)); [now injection Hmk as <-|].
      destruct (disk_ok w0 _); [|discriminate].
      unfold modify, emit, modify, ret in Hmk. injection Hmk as <-.
      cbn [events add_event add_dir]. rewrite List.filter_app. cbn. apply app_nil_r.
    - exists surface, shown. split; [exact Hpix|]. split; [|reflexivity].
      rewrite (Hpure surface w w0), Hpost. reflexivity. }
  (* the loop *)
  assert (Hloop : forall (l : list pyval) (s : nat) (w0 : world),
    (s + length l <= num_groups)%nat -> disk_ok w0 = disk_ok w ->
    exists figs w1,
      forM_ (zip (seq s (length l)) l)
        (fun '(index, group) =>
           do data <- column fluxes (Z.to_nat (getNumEnergyGroups geometry)) index;
           plot_spatial_data geometry (Some (NdFloat data)) norm false
             (PyFloat z) (PyInt gridsize) xlim ylim true
             (PyStr ("z = " ++ str_float z))
             (PyStr ("FSR Scalar Flux (Group " ++ format_val group ++ ")"))
             (PyStr ("fsr-flux-group-" ++ format_val group ++ "-z-"
                     ++ str_float z ++ ".png"))
             None None PyNone PyNone false ;; ret tt) w0 = (Ok tt, w1) /\
      List.filter is_imshow (events w1)
      = List.filter is_imshow (events w0) ++ map EvImshow figs /\
      length figs = length l /\
      forall (k : nat) fig, figs !! k = Some fig -> shows fig (s + k)%nat).
  { induction l as [|group l IH]; intros s w0 Hs Hd0.
    - exists [], w0. cbn. rewrite app_nil_r. repeat split; try reflexivity.
      intros k fig Hk. discriminate Hk.
    - cbn [length seq zip zip_with] in *. unfold forM_. cbn [foldM].
      destruct (Hbody s group w0) as (fig & w1 & Hrun & Hd1 & Hev1 & Hshow);
        [lia | exact Hd0 |].
      destruct (IH (S s) w1) as (figs & w2 & Hrest & Hev2 & Hlen2 & Hshows);
        [lia | exact Hd1 |].
      exists (fig :: figs), w2. split; [|split; [|split]].
      + unfold bind at 1. rewrite Hrun. exact Hrest.
      + rewrite Hev2, Hev1, <- app_assoc. reflexivity.
      + cbn. now rewrite Hlen2.
      + intros [|k] fig' Hk.
        * injection Hk as <-. now rewrite Nat.add_0_r.
        * replace (s + S k)%nat with (S s + k)%nat by lia. now apply Hshows. }
  destruct (Hloop groups 0%nat
              (add_events [EvLog "NORMAL" "Plotting the FSR scalar fluxes..."] w))
    as (figs & w' & Hrun & Hev & Hlenf & Hshows); [lia | reflexivity |].
  exists figs, w'. split; [|split; [|split]].
  - unfold plot_spatial_fluxes. unfold bind at 1. rewrite Hsolver.
    cbn [negb when ret]. unfold bind at 1. cbn [ret].
    unfold bind at 1. rewrite py_printf_normal.
    unfold bind at 1. unfold get_scalar_fluxes. unfold bind at 1. unfold get.
    cbn [solver_fluxes add_events]. fold geometry. fold num_fsrs. fold num_groups.
    destruct (decide (length (solver_fluxes w) = (num_fsrs * num_groups)%nat))
      as [_|n]; [|contradiction].
    cbn [ret]. fold fluxes. fold z. exact Hrun.
  - rewrite Hev. cbn [events add_events]. rewrite List.filter_app. cbn.
    now rewrite app_nil_r.
  - exact Hlenf.
  - exact Hshows.
Qed.

End SpatialFluxes.

(** The solver has one energy group; asked for "group 7", the call draws the
    fluxes of that one group. *)
Lemma plot_spatial_fluxes_by_position_witness :
  exists (fig : image) (w' : world),
    plot_spatial_fluxes (R := Demo.runtime) Demo.solver (SeqOf [PyInt 7]) false
      (PyInt 3) None None Demo3.world_fluxes = (Ok tt, w') /\
    List.filter is_imshow (events w') = [EvImshow fig] /\
    exists surface : list (list float),
      img_data fig = flipud surface /\
      forall i j x y,
        coords_y Demo.grid3 !! i = Some x -> coords_x Demo.grid3 !! j = Some y ->
        entry surface j i
        = pixel_value Demo.geometry
            (NdFloat [Float64.of_Z 5; Float64.of_Z 7]) Float64.zero x y.
Proof.
  destruct (plot_spatial_fluxes_by_position (R := Demo.runtime) Demo.solver
              [PyInt 7] false 3 None None Demo3.world_fluxes)
    as (figs & w' & Hrun & Hev & Hlen & Hshows).
  - reflexivity.
  - reflexivity.
  - cbn. lia.
  - reflexivity.
  - cbn. lia.
  - lia.
  - reflexivity.
  - intros i j x y k _ _. cbn [getFSRId Demo.geometry Demo.solver getGeometry].
    destruct (Float64.ltb Float64.one y); [discriminate|].
    destruct (Float64.ltb x Float64.zero); intros [= <-]; cbn; lia.
  - reflexivity.
  - destruct figs as [|fig [|fig' figs]]; try discriminate Hlen.
    exists fig, w'. split; [exact Hrun|]. split; [exact Hev|].
    destruct (Hshows 0%nat fig eq_refl) as (surface & shown & Hpix & Hpost & ->).
    exists surface. split; [|exact Hpix].
    cbn in Hpost. injection Hpost as <-. reflexivity.
Defined.

(** ** The step plot of [plot_energy_fluxes] *)

Section StepPlot.
Context {bound : Type} (sub : bound -> bound -> bound).

Lemma flipud1_lookup {A} (a : list A) (k : nat) :
  (k < length a)%nat -> flipud1 a !! k = a !! (length a - S k)%nat.
Proof. intros Hk. unfold flipud1. rewrite rev_alt. now apply reverse_lookup. Qed.

Lemma length_ediff1d (a : list bound) : length (ediff1d sub a) = (length a - 1)%nat.
Proof.
  unfold ediff1d. destruct a as [|x a]; [reflexivity|].
  cbn [drop length]. replace (S (length a) - 1)%nat with (length a) by lia.
  revert x. induction a as [|y a IH]; intros x; [reflexivity|].
  cbn. f_equal. apply IH.
Qed.

Lemma ediff1d_lookup (a : list bound) (k : nat) (low up : bound) :
  a !! k = Some low -> a !! S k = Some up ->
  ediff1d sub a !! k = Some (sub up low).
Proof.
  intros Hlow Hup. unfold ediff1d.
  rewrite lookup_zip_with, Hlow, lookup_drop. cbn. now rewrite Hup.
Qed.

Lemma slice_pair {A} (a : list A) (k : nat) (x y : A) :
  a !! k = Some x -> a !! S k = Some y -> slice a k (k + 2) = [x; y].
Proof.
  intros Hx Hy. unfold slice.
  replace (k + 2 - k)%nat with 2%nat by lia.
  rewrite (drop_S a x k Hx). cbn [take]. f_equal.
  rewrite (drop_S a y (S k) Hy). reflexivity.
Qed.

Lemma collect_In {A B} (body : A -> option (list B)) (l : list A) :
  forall lines a mine b,
    collect body l = Some lines -> In a l -> body a = Some mine -> In b mine ->
    In b lines.
Proof.
  induction l as [|a0 l IH]; intros lines a mine b Hc Ha Hb Hin; [destruct Ha|].
  cbn [collect] in Hc.
  destruct (body a0) as [first|] eqn:E0; [|discriminate].
  destruct (collect body l) as [rest|] eqn:El; [|discriminate].
  injection Hc as <-. apply in_or_app. destruct Ha as [->|Ha].
  - left. rewrite E0 in Hb. now injection Hb as <-.
  - right. eapply IH; eauto.
Qed.

Lemma collect_defined {A B} (body : A -> option (list B)) (l : list A) :
  (forall a, In a l -> is_Some (body a)) -> is_Some (collect body l).
Proof.
  induction l as [|a l IH]; intros Hall; [cbn; eauto|].
  cbn [collect]. destruct (Hall a) as [mine ->]; [now left|].
  destruct IH as [rest ->]; [intros a' Ha'; apply Hall; now right|]. eauto.
Qed.

(** X18: the step plot of a region is drawn over the bounds turned around.
    With bounds b[0..n] for n groups, group g (counted from 0) is drawn as
    a horizontal line from b[n-g] down to b[n-g-1], the width kept for it in
    [group_deltas] is the difference of these two bounds, and a vertical
    line at b[n-g-1] joins its flux to that of the next group: the first
    group is the one of highest energy. *)
Theorem step_plot_spans_flipped_bounds (bounds : list bound)
    (fluxes : list float) (n : nat) :
  length bounds = S n -> length fluxes = n ->
  exists lines,
    step_lines (fst (flipped_bounds_and_deltas sub bounds)) fluxes n = Some lines /\
    forall g hi lo flux,
      (g < n)%nat ->
      bounds !! (n - g)%nat = Some hi -> bounds !! (n - S g)%nat = Some lo ->
      fluxes !! g = Some flux ->
      snd (flipped_bounds_and_deltas sub bounds) !! g = Some (sub hi lo) /\
      In {| line_x := [hi; lo]; line_y := [flux; flux]; line_style := "-" |} lines /\
      (forall next, fluxes !! S g = Some next ->
         In {| line_x := [lo; lo]; line_y := [flux; next]; line_style := "--" |}
            lines).
Proof.
  intros Hb Hf. cbn [flipped_bounds_and_deltas fst snd].
  assert (Hflip : forall k, (k <= n)%nat -> flipud1 bounds !! k = bounds !! (n - k)%nat).
  { intros k Hk. rewrite flipud1_lookup by lia. f_equal. lia. }
  set (body := fun group : nat =>
    match fluxes !! group with
    | Some flux =>
        let horizontal :=
          {| line_x := slice (flipud1 bounds) group (group + 2);
             line_y := replicate 2 flux;
             line_style := "-" |} in
        if decide (group < n - 1)%nat then
          match flipud1 bounds !! (group + 1)%nat with
          | Some edge =>
              Some [horizontal;
                    {| line_x := replicate 2 edge;
                       line_y := slice fluxes group (group + 2);
                       line_style := "--" |}]
          | None => None
          end
        else Some [horizontal]
    | None => None
    end).
  destruct (collect_defined body (seq 0 n)) as [lines Hlines].
  { intros g Hg. apply in_seq in Hg. unfold body.
    destruct (lookup_lt_is_Some_2 fluxes g) as [flux ->]; [lia|].
    cbv zeta. case_decide; [|eauto].
    destruct (lookup_lt_is_Some_2 (flipud1 bounds) (g + 1)) as [edge ->]; [|eauto].
    unfold flipud1. rewrite length_rev. lia. }
  exists lines. split; [exact Hlines|].
  intros g hi lo flux Hg Hhi Hlo Hflux.
  assert (Hfhi : flipud1 bounds !! g = Some hi) by (rewrite Hflip by lia; exact Hhi).
  assert (Hflo : flipud1 bounds !! S g = Some lo) by (rewrite Hflip by lia; exact Hlo).
  assert (Hmine : exists mine,
             body g = Some mine /\
             In {| line_x := [hi; lo]; line_y := [flux; flux]; line_style := "-" |} mine /\
             forall next, fluxes !! S g = Some next ->
               In {| line_x := [lo; lo]; line_y := [flux; next]; line_style := "--" |}
                  mine).
  { unfold body. rewrite Hflux. cbv zeta.
    rewrite (slice_pair _ _ _ _ Hfhi Hflo). cbn [replicate].
    case_decide as Hlast.
    - replace (g + 1)%nat with (S g) by lia. rewrite Hflo.
      eexists. split; [reflexivity|]. split; [now left|].
      intros next Hnext. rewrite (slice_pair _ _ _ _ Hflux Hnext). right. now left.
    - eexists. split; [reflexivity|]. split; [now left|].
      intros next Hnext. apply lookup_lt_Some in Hnext. lia. }
  destruct Hmine as (mine & Hbody & Hhor & Hver).
  assert (Hin : In g (seq 0 n)) by (apply in_seq; lia).
  split; [|split].
  - rewrite flipud1_lookup by (rewrite length_ediff1d; lia).
    rewrite length_ediff1d, Hb.
    replace (S n - 1 - S g)%nat with (n - S g)%nat by lia.
    apply ediff1d_lookup; [exact Hlo|].
    replace (S (n - S g)) with (n - g)%nat by lia. exact Hhi.
  - eapply collect_In; eauto.
  - intros next Hnext. eapply collect_In; eauto.
Qed.

End StepPlot.

(** The default bounds of two groups, 0, 1, 2, and the fluxes 5.0 and 7.0:
    the first group is drawn from 2 down to 1. *)
Lemma step_plot_spans_flipped_bounds_witness :
  exists lines,
    step_lines (fst (flipped_bounds_and_deltas Z.sub [0; 1; 2]))
      [Float64.of_Z 5; Float64.of_Z 7] 2 = Some lines /\
    snd (flipped_bounds_and_deltas Z.sub [0; 1; 2]) !! 0%nat = Some (2 - 1) /\
    In {| line_x := [2; 1]; line_y := [Float64.of_Z 5; Float64.of_Z 5];
          line_style := "-" |} lines /\
    In {| line_x := [1; 1]; line_y := [Float64.of_Z 5; Float64.of_Z 7];
          line_style := "--" |} lines.
Proof.
  destruct (step_plot_spans_flipped_bounds Z.sub [0; 1; 2]
              [Float64.of_Z 5; Float64.of_Z 7] 2 eq_refl eq_refl)
    as (lines & Hlines & Hspec).
  exists lines. split; [exact Hlines|].
  destruct (Hspec 0%nat 2 1 (Float64.of_Z 5)) as (Hdelta & Hhor & Hver);
    [lia | reflexivity | reflexivity | reflexivity |].
  split; [exact Hdelta|]. split; [exact Hhor|].
  apply Hver. reflexivity.
Defined.

(** ** What the scalar plots leave alone *)

Section Frame.
Context {R : Runtime}.

(** X19: [plot_spatial_data] and [plot_spatial_fluxes] leave NumPy's global
    random generator, the module's [subdirectory] and the fluxes held by the
    solver as they found them, however they end: all they do to the world
    is create the output directory and extend the trace. *)
Theorem scalar_plots_frame
    (geometry : Geometry) (data : option ndarray) (norm transparent_zeros : bool)
    (zcoord gridsize : pyval) (xlim ylim : option (float * float))
    (colorbar : bool) (title suptitle filename : pyval)
    (interpolation cmap : option string) (vmin vmax : pyval)
    (get_figure : bool) (solver : Solver) (energy_groups : pyseq pyval)
    (w : world) :
  let same := fun w' : world =>
    rng w' = rng w /\ subdirectory w' = subdirectory w /\
    solver_fluxes w' = solver_fluxes w in
  same (snd (plot_spatial_data geometry data norm transparent_zeros zcoord
               gridsize xlim ylim colorbar title suptitle filename
               interpolation cmap vmin vmax get_figure w)) /\
  same (snd (plot_spatial_fluxes solver energy_groups norm gridsize xlim ylim w)).
Proof.
  intros same.
  assert (Hevent : forall e w0, same w0 -> same (add_event e w0))
    by (intros e w0 H; exact H).
  assert (Hdir : forall d w0, same w0 -> same (add_dir d w0))
    by (intros d w0 H; exact H).
  assert (Hsame : same w) by (repeat split).
  split.
  - destruct (plot_spatial_data geometry data norm transparent_zeros zcoord
                gridsize xlim ylim colorbar title suptitle filename
                interpolation cmap vmin vmax get_figure w) as [r w'] eqn:Hrun.
    exact (stable_plot_spatial_data same Hevent Hdir _ _ _ _ _ _ _ _ _ _ _ _ _ _ _ _ _
             _ _ _ Hrun Hsame).
  - destruct (plot_spatial_fluxes solver energy_groups norm gridsize xlim ylim w)
      as [r w'] eqn:Hrun.
    exact (stable_plot_spatial_fluxes same Hevent Hdir _ _ _ _ _ _ _ _ _ Hrun Hsame).
Qed.

End Frame.

(** The cells of the demonstration geometry on a 3 x 3 grid. *)
Lemma plot_cells_pixels_witness :
  exists (shown : list (list float)) (w' : world),
    plot_cells (R := Demo.runtime) Demo.geometry Demo2.cells (PyInt 3) None None
      PyNone Demo.world0 = (Ok tt, w') /\
    In (EvImshow {| img_data := flipud shown;
                    img_extent := coords_bounds Demo.grid3;
                    img_cmap := Some "spectral";
                    img_vmin := PyInt 0; img_vmax := PyInt 2;
                    img_interpolation := Some "nearest" |}) (events w') /\
    forall i j x y,
      coords_y Demo.grid3 !! i = Some x -> coords_x Demo.grid3 !! j = Some y ->
      match getFSRId Demo.geometry x y Float64.zero with
      | None => entry shown j i = Some Float64.neg_one
      | Some fsr =>
          exists k, entry shown j i = Some (Float64.of_Z k) /\
                    0 <= k < 2 /\
                    fst (np_shuffle (Runtime := Demo.runtime) (np_seed 1)
                           (getAllMaterialCells Demo2.cells)) !! Z.to_nat k
                    = Some (getFSRCellId Demo2.cells fsr)
      end.
Proof.
  apply (plot_cells_pixels (R := Demo.runtime) demo_laws Demo.geometry Demo2.cells
           3 None None PyNone Float64.zero Demo.world0).
  - reflexivity.
  - reflexivity.
  - reflexivity.
  - cbn. lia.
  - repeat constructor; cbn; intuition discriminate.
  - intros fsr _. cbn. destruct (fsr =? 0); auto.
  - lia.
  - intros i j x y fsr _ _. cbn [getFSRId Demo.geometry].
    destruct (Float64.ltb Float64.one y); [discriminate|].
    destruct (Float64.ltb x Float64.zero); intros [= <-]; cbn; lia.
  - reflexivity.
  - reflexivity.
Defined.
